(** * Multicluster proxy: resolver, worker-config registry and request router

    A shallow embedding of the Go sources of the multicluster proxy
    (packages [resolver], [registry], [authz] and [handlers]) together with
    the properties its specification states about them.

    Conventions of the embedding.
    - A Go [string] is a Rocq [string] (a sequence of bytes).
    - A Go [error] is its message: [(T, error)] becomes [res T], and a bare
      [error] becomes [option string] with [None] for [nil].
    - Calls that leave the process (hub API server, worker API servers, the
      WebSocket peer, the clock) are fields of records of oracles; every such
      call that matters to a property is also recorded as an [Event] in the
      trace of the handler that issued it.
    - The [http.ResponseWriter] is explicit state threaded through the
      handlers by a small state monad with early return and panic.
    - [klog] output is not modelled. *)

From Stdlib Require Import ZArith Ascii String List Bool Lia.
From stdpp Require Import base option list gmap strings fin_maps.

Open Scope string_scope.
Open Scope Z_scope.
Open Scope list_scope.

(** ** Results of fallible calls *)

Inductive res (A : Type) : Type :=
| Ok (a : A)
| Err (msg : string).
Arguments Ok {A} a.
Arguments Err {A} msg.

(** ** The functions of Go's [strings] and [strconv] that the sources use *)

Module strings.

(** [strings.HasPrefix(s, prefix)]. *)
Fixpoint HasPrefix (s prefix : string) {struct prefix} : bool :=
  match prefix, s with
  | EmptyString, _ => true
  | String p prefix', String c s' => Ascii.eqb c p && HasPrefix s' prefix'
  | String _ _, EmptyString => false
  end.

(** [strings.TrimPrefix(s, prefix)]: [s] without the leading [prefix], or
    [s] itself when it does not start with it. *)
Fixpoint dropBytes (n : nat) (s : string) : string :=
  match n, s with
  | O, _ => s
  | S n', String _ s' => dropBytes n' s'
  | S _, EmptyString => EmptyString
  end.

Definition TrimPrefix (s prefix : string) : string :=
  if HasPrefix s prefix then dropBytes (String.length prefix) s else s.

(** [strings.HasSuffix(s, suffix)]. *)
Definition HasSuffix (s suffix : string) : bool :=
  (String.length suffix <=? String.length s)%nat
  && String.eqb (dropBytes (String.length s - String.length suffix) s) suffix.

(** [strings.Split(s, sep)] for a one-byte separator: the pieces of [s]
    between the occurrences of [sep]; [n] occurrences give [n + 1] pieces,
    so the result is never empty. *)
Fixpoint Split (s : string) (sep : ascii) : list string :=
  match s with
  | EmptyString => [EmptyString]
  | String c s' =>
      if Ascii.eqb c sep then EmptyString :: Split s' sep
      else match Split s' sep with
           | piece :: rest => String c piece :: rest
           | [] => [String c EmptyString]
           end
  end.

(** [strings.Cut(s, sep)] for a one-byte separator. *)
Fixpoint Cut (s : string) (sep : ascii) : option (string * string) :=
  match s with
  | EmptyString => None
  | String c s' =>
      if Ascii.eqb c sep then Some (EmptyString, s')
      else match Cut s' sep with
           | Some (before, after) => Some (String c before, after)
           | None => None
           end
  end.

(** [strings.SplitN(s, sep, n)] for a one-byte separator and [n >= 0]: at
    most [n] pieces, the last one being the unsplit remainder. *)
Fixpoint SplitN (s : string) (sep : ascii) (n : nat) : list string :=
  match n with
  | O => []
  | S O => [s]
  | S n' =>
      match Cut s sep with
      | Some (before, after) => before :: SplitN after sep n'
      | None => [s]
      end
  end.

(** [strings.Join(elems, sep)]. *)
Fixpoint Join (elems : list string) (sep : string) : string :=
  match elems with
  | [] => EmptyString
  | [e] => e
  | e :: rest => e +:+ sep +:+ Join rest sep
  end.

(** [strings.ToLower] on the bytes ['A'..'Z']. The sources only compare the
    result with ["bearer"]; no rune outside ASCII lowers to one of its
    letters, so the byte-wise map decides that comparison as Go does. *)
Definition lowerByte (c : ascii) : ascii :=
  let n := nat_of_ascii c in
  if ((65 <=? n) && (n <=? 90))%nat then ascii_of_nat (n + 32) else c.

Fixpoint ToLower (s : string) : string :=
  match s with
  | EmptyString => EmptyString
  | String c s' => String (lowerByte c) (ToLower s')
  end.

End strings.

Module strconv.

Definition digitOf (c : ascii) : option Z :=
  let n := nat_of_ascii c in
  if ((48 <=? n) && (n <=? 57))%nat then Some (Z.of_nat n - 48) else None.

(** The digit loop of [strconv.ParseUint(s, 10, 64)], without its bound:
    the value of a string of decimal digits, [None] on any other byte. *)
Fixpoint digitsFrom (acc : Z) (s : string) : option Z :=
  match s with
  | EmptyString => Some acc
  | String c s' =>
      match digitOf c with
      | Some d => digitsFrom (10 * acc + d) s'
      | None => None
      end
  end.

Definition parseDigits (s : string) : option Z :=
  match s with
  | EmptyString => None
  | _ => digitsFrom 0 s
  end.

Definition minInt64 : Z := - 2 ^ 63.
Definition maxInt64 : Z := 2 ^ 63 - 1.

(** [strconv.ParseInt(s, 10, 64)]: an optional sign followed by at least
    one decimal digit, representable as an [int64]. [None] stands for a
    non-nil [err] (syntax or range); the sources drop the value then. *)
Definition ParseInt (s : string) : option Z :=
  let signed :=
    match s with
    | String "+" s' => parseDigits s'
    | String "-" s' => option_map Z.opp (parseDigits s')
    | _ => parseDigits s
    end in
  match signed with
  | Some n => if (minInt64 <=? n) && (n <=? maxInt64) then Some n else None
  | None => None
  end.

(** Two's-complement wrap-around of [int64] arithmetic. *)
Definition wrap64 (n : Z) : Z := (n + 2 ^ 63) mod 2 ^ 64 - 2 ^ 63.

End strconv.

(** ** Kubernetes and Kueue API objects, as far as the sources read them *)

Module metav1.
Record OwnerReference := { Kind : string; RefName : string }.
Record ObjectMeta := { Name : string; OwnerReferences : list OwnerReference }.
End metav1.

Module kueuev1beta1.
Record Admission := { ClusterQueue : string }.
Record WorkloadStatus := {
  Admission_ : option Admission;      (* Status.Admission, a pointer *)
  ClusterName : option string         (* Status.ClusterName, a *string *)
}.
Record Workload := { WorkloadMeta : metav1.ObjectMeta; Status : WorkloadStatus }.

Record KubeConfig := { Location : string; LocationType : string }.
Record MultiKueueCluster := { ClusterMeta : metav1.ObjectMeta; SpecKubeConfig : KubeConfig }.
End kueuev1beta1.

Module config.
Record Config := {
  WorkersSecretNamespace : string;
  RequestTimeout : Z;
  DefaultLogTailLines : Z
}.
End config.

(** JSON documents as [encoding/json] writes them. A struct of the sources
    becomes the list of its members in the order of its fields; an object a
    worker cluster returned (a [TaskRunList], a [PodList], a [Pod]) is
    carried as a [Downstream] value and encodes to itself. *)
Inductive jvalue : Type :=
| JString (s : string)
| JStrings (l : list string).

Record Downstream := { payload : string }.

Inductive json : Type :=
| JObject (members : list (string * jvalue))
| JDownstream (d : Downstream).

Module metatime.
(** [metav1.Time], as nanoseconds since the epoch. *)
Record Time := { UnixNano : Z }.
Definition Add (t : Time) (d : Z) : Time := {| UnixNano := UnixNano t + d |}.
Definition Second : Z := 1000000000.
End metatime.

Module corev1.
Record Secret := { Data : gmap string string }.

Record PodLogOptions := {
  Container : string;
  Follow : bool;
  SinceTime : option metatime.Time;
  TailLines : option Z
}.

(** What one [Read] on the log stream returns: the bytes placed in the
    buffer and the error, [None] for [nil]. *)
Record ReadResult := { data : string; readErr : option string }.

(** The [io.ReadCloser] of [Request.Stream]: the results of the successive
    [Read]s; past the end of the list a [Read] returns [0, io.EOF]. *)
Definition LogStream := list ReadResult.
End corev1.

Module authorizationv1.
Record ResourceAttributes := {
  Namespace : string;
  Verb : string;
  Group : string;
  Version : string;
  Resource : string;
  Name : string
}.
Record SubjectAccessReviewStatus := { Allowed : bool; Reason : string }.
End authorizationv1.

Module rest.
(** [rest.Config]: where a cluster's API server is and how to log in.
    [Material] stands for the certificates and keys of a parsed kubeconfig. *)
Record Config := {
  Host : string;
  BearerToken : string;
  Insecure : bool;
  Material : string
}.
End rest.

(** ** Clients: the calls the sources make on each clientset *)

Module kubernetes.
Record Interface := {
  SecretsGet : string -> string -> res corev1.Secret;
  PodsList : string -> string -> res Downstream;
  PodsGet : string -> string -> res Downstream;
  PodsGetLogsStream : string -> string -> corev1.PodLogOptions -> res corev1.LogStream;
  SelfSubjectAccessReviewsCreate :
    authorizationv1.ResourceAttributes -> res authorizationv1.SubjectAccessReviewStatus
}.
End kubernetes.

Module tektonclient.
Record Interface := {
  TaskRunsList : string -> string -> res Downstream
}.
End tektonclient.

Module kueueclient.
Record Interface := {
  WorkloadsList : string -> res (list kueuev1beta1.Workload);
  MultiKueueClustersList : res (list kueuev1beta1.MultiKueueCluster)
}.
End kueueclient.

Module watch.
(** [event.Object]: the registry's type assertion succeeds on a
    [*MultiKueueCluster] and fails on anything else (a [*metav1.Status]). *)
Inductive Object :=
| ClusterObject (cluster : kueuev1beta1.MultiKueueCluster)
| OtherObject.
Record Event := { EventType : string; Object_ : Object }.
End watch.

Module http.
Record Request := {
  Path : string;                       (* r.URL.Path *)
  Query : gmap string (list string);   (* r.URL.Query() *)
  Header : gmap string string          (* r.Header, one value per key *)
}.

(** [r.URL.Query().Get(key)]: the first value of [key], or the empty
    string. *)
Definition QueryGet (r : Request) (key : string) : string :=
  match Query r !! key with
  | Some (v :: _) => v
  | _ => EmptyString
  end.

(** [r.Header.Get(key)]. *)
Definition HeaderGet (r : Request) (key : string) : string :=
  match Header r !! key with
  | Some v => v
  | None => EmptyString
  end.

Definition StatusSwitchingProtocols : Z := 101.
Definition StatusOK : Z := 200.
Definition StatusBadRequest : Z := 400.
Definition StatusForbidden : Z := 403.
Definition StatusNotFound : Z := 404.
Definition StatusConflict : Z := 409.
Definition StatusFailedDependency : Z := 424.
Definition StatusInternalServerError : Z := 500.
Definition StatusBadGateway : Z := 502.
Definition StatusServiceUnavailable : Z := 503.
Definition StatusGatewayTimeout : Z := 504.

(** One [Write] on the response: raw bytes, or a document written by
    [json.NewEncoder(w).Encode] (the encoding and a newline). *)
Inductive BodyPart :=
| Bytes (s : string)
| Document (j : json).

(** The [http.ResponseWriter]: the header map the handler edits, the status
    line once written together with the headers sent with it, and the body
    written so far. *)
Record ResponseWriter := {
  header : gmap string string;
  wroteHeader : option (Z * gmap string string);
  body : list BodyPart
}.

Definition newResponseWriter : ResponseWriter :=
  {| header := ∅; wroteHeader := None; body := [] |}.

Definition setHeader (w : ResponseWriter) (key value : string) : ResponseWriter :=
  {| header := <[key := value]> (header w); wroteHeader := wroteHeader w; body := body w |}.

(** [w.WriteHeader(code)]: the first call sends the status and the current
    headers; later calls change nothing. *)
Definition writeHeader (w : ResponseWriter) (code : Z) : ResponseWriter :=
  match wroteHeader w with
  | Some _ => w
  | None => {| header := header w; wroteHeader := Some (code, header w); body := body w |}
  end.

(** [w.Write]: sends [200] first when no status was written. *)
Definition write (w : ResponseWriter) (part : BodyPart) : ResponseWriter :=
  let w := writeHeader w StatusOK in
  {| header := header w; wroteHeader := wroteHeader w; body := body w ++ [part] |}.

(** The status and headers the client receives; a handler that returns
    without writing anything answers [200] with the headers it set. *)
Definition status (w : ResponseWriter) : Z :=
  match wroteHeader w with
  | Some (code, _) => code
  | None => StatusOK
  end.

Definition sentHeader (w : ResponseWriter) : gmap string string :=
  match wroteHeader w with
  | Some (_, h) => h
  | None => header w
  end.
(** The handshake response of a hijacked connection: it is written past
    the header map of the response writer. *)
Definition hijack (w : ResponseWriter) (code : Z) (sent : gmap string string) : ResponseWriter :=
  match wroteHeader w with
  | Some _ => w
  | None => {| header := header w; wroteHeader := Some (code, sent); body := body w |}
  end.
End http.

Module websocket.
(** The upgraded connection: [WriteMessage i data] is the error of the
    [i]-th [conn.WriteMessage] call, [None] for [nil]. *)
Record Conn := { WriteMessage : nat -> string -> option string }.

(** [upgrader.Upgrade(w, r, responseHeader)]: on success the upgrader
    hijacks the connection and writes the handshake response itself; on
    failure it answers with [http.Error]. *)
Inductive UpgradeResult :=
| Upgraded (conn : Conn) (acceptKey : string)
| Refused (code : Z) (reason : string).

(** The headers of the handshake response: the three of the protocol and
    those the caller passed as [responseHeader]. *)
Definition handshake (acceptKey : string) (responseHeader : gmap string string)
  : gmap string string :=
  <["Upgrade" := "websocket"]>
    (<["Connection" := "Upgrade"]>
       (<["Sec-WebSocket-Accept" := acceptKey]> responseHeader)).
End websocket.

(** What lies outside the process: constructing a client for a
    [rest.Config], parsing a kubeconfig, the WebSocket peer and the clock. *)
Module world.
Record World := {
  kubernetesNewForConfig : rest.Config -> res kubernetes.Interface;
  tektonNewForConfig : rest.Config -> res tektonclient.Interface;
  RESTConfigFromKubeConfig : string -> res rest.Config;
  Upgrade : http.Request -> websocket.UpgradeResult;
  Now : metatime.Time
}.
End world.

(** ** Traces: the calls a request makes outside the process *)

Inductive WorkerCall :=
| ListTaskRuns (namespace labelSelector : string)
| ListPods (namespace labelSelector : string)
| GetPod (namespace podName : string)
| StreamLogs (namespace podName : string) (options : corev1.PodLogOptions).

Inductive Event :=
| HubAccessReview (callerConfig : rest.Config) (attrs : authorizationv1.ResourceAttributes)
| HubListWorkloads (namespace : string)
| WorkerRequest (workerConfig : rest.Config) (call : WorkerCall)
| WsUpgrade
| WsWrite (data : string).

(** ** Package resolver *)

Module resolver.
Import kueuev1beta1.

Record WorkloadResolver := {
  kueueClient : kueueclient.Interface;
  kubeClient : kubernetes.Interface;
  config : config.Config
}.

Record WorkerCluster := {
  Name : string;
  State : string;
  NominatedClusters : list string;
  WorkloadName : string
}.

Definition ownerMatches (pipelineRunName : string) (ownerRef : metav1.OwnerReference) : bool :=
  String.eqb (metav1.Kind ownerRef) "PipelineRun"
  && String.eqb (metav1.RefName ownerRef) pipelineRunName.

(** The two nested loops of [findWorkloadByPipelineRun]: the first item of
    the list one of whose owner references matches. *)
Definition findWorkloadByPipelineRun (r : WorkloadResolver) (namespace pipelineRunName : string)
  : res (option Workload) :=
  match kueueclient.WorkloadsList (kueueClient r) namespace with
  | Err err => Err ("failed to list workloads: " +:+ err)
  | Ok items =>
      Ok (List.find
            (fun workload =>
               existsb (ownerMatches pipelineRunName)
                       (metav1.OwnerReferences (WorkloadMeta workload)))
            items)
  end.

Definition ResolveWorkerCluster (r : WorkloadResolver) (namespace pipelineRunName : string)
  : res WorkerCluster :=
  match findWorkloadByPipelineRun r namespace pipelineRunName with
  | Err err =>
      Err ("failed to find workload for PipelineRun " +:+ namespace +:+ "/"
           +:+ pipelineRunName +:+ ": " +:+ err)
  | Ok None =>
      Err ("no workload found for PipelineRun " +:+ namespace +:+ "/" +:+ pipelineRunName)
  | Ok (Some workload) =>
      match Admission_ (Status workload) with
      | Some _ =>
          let clusterName :=
            match ClusterName (Status workload) with
            | Some name => name
            | None => EmptyString
            end in
          Ok {| Name := clusterName;
                State := "Admitted";
                NominatedClusters := [];
                WorkloadName := metav1.Name (WorkloadMeta workload) |}
      | None =>
          Ok {| Name := EmptyString;
                State := "Dispatching";
                NominatedClusters := [];
                WorkloadName := metav1.Name (WorkloadMeta workload) |}
      end
  end.

(** The encoding of a [WorkerCluster] under its struct tags: [name],
    [nominatedClusters] and [workloadName] are [omitempty]. *)
Definition omitempty (key value : string) : list (string * jvalue) :=
  if String.eqb value "" then [] else [(key, JString value)].

Definition MarshalJSON (wc : WorkerCluster) : json :=
  JObject (omitempty "name" (Name wc)
           ++ [("state", JString (State wc))]
           ++ match NominatedClusters wc with
              | [] => []
              | l => [("nominatedClusters", JStrings l)]
              end
           ++ omitempty "workloadName" (WorkloadName wc)).

End resolver.

(** ** Package registry *)

Module registry.
Import kueuev1beta1.

Record WorkerConfigRegistry := {
  kubeClient : kubernetes.Interface;
  kueueClient : kueueclient.Interface;
  config : config.Config;
  configs : gmap string rest.Config
}.

Definition withConfigs (r : WorkerConfigRegistry) (m : gmap string rest.Config)
  : WorkerConfigRegistry :=
  {| kubeClient := kubeClient r; kueueClient := kueueClient r;
     config := config r; configs := m |}.

Definition GetConfig (r : WorkerConfigRegistry) (clusterName : string) : res rest.Config :=
  match configs r !! clusterName with
  | Some cfg => Ok cfg
  | None => Err ("worker config not found for cluster: " +:+ clusterName)
  end.

(** One iteration of the loop of [LoadConfigs] up to the assignment:
    [None] where the loop [continue]s. *)
Definition resolveCluster (w : world.World) (r : WorkerConfigRegistry) (cluster : MultiKueueCluster)
  : option rest.Config :=
  if negb (String.eqb (LocationType (SpecKubeConfig cluster)) "Secret") then None
  else
    let secretName := Location (SpecKubeConfig cluster) in
    if String.eqb secretName "" then None
    else
      match kubernetes.SecretsGet (kubeClient r)
              (config.WorkersSecretNamespace (config r)) secretName with
      | Err _ => None
      | Ok secret =>
          match corev1.Data secret !! "kubeconfig" with
          | None => None
          | Some kubeconfigData =>
              match world.RESTConfigFromKubeConfig w kubeconfigData with
              | Err _ => None
              | Ok cfg => Some cfg
              end
          end
      end.

Definition loadCluster (w : world.World) (r : WorkerConfigRegistry)
  (m : gmap string rest.Config) (cluster : MultiKueueCluster) : gmap string rest.Config :=
  match resolveCluster w r cluster with
  | Some cfg => <[metav1.Name (ClusterMeta cluster) := cfg]> m
  | None => m
  end.

Definition loadClusters (w : world.World) (r : WorkerConfigRegistry)
  (items : list MultiKueueCluster) (m : gmap string rest.Config) : gmap string rest.Config :=
  foldl (loadCluster w r) m items.

(** [LoadConfigs]: the registry afterwards and the returned error. *)
Definition LoadConfigs (w : world.World) (r : WorkerConfigRegistry)
  : WorkerConfigRegistry * option string :=
  match kueueclient.MultiKueueClustersList (kueueClient r) with
  | Err err => (r, Some ("failed to list MultiKueueClusters: " +:+ err))
  | Ok items => (withConfigs r (loadClusters w r items (configs r)), None)
  end.

(** The body of the [for event := range watcher.ResultChan()] loop. *)
Definition handleEvent (w : world.World) (r : WorkerConfigRegistry) (event : watch.Event)
  : WorkerConfigRegistry :=
  if String.eqb (watch.EventType event) "ADDED" || String.eqb (watch.EventType event) "MODIFIED" then
    fst (LoadConfigs w r)
  else if String.eqb (watch.EventType event) "DELETED" then
    match watch.Object_ event with
    | watch.ClusterObject cluster =>
        withConfigs r (delete (metav1.Name (ClusterMeta cluster)) (configs r))
    | watch.OtherObject => r
    end
  else r.





Definition ListClusters (r : WorkerConfigRegistry) : list string :=
  (map_to_list (configs r)).*1.

End registry.

(** ** Package authz *)

Module authz.
Import authorizationv1.

Definition extractBearerToken (r : http.Request) : string :=
  let authHeader := http.HeaderGet r "Authorization" in
  if String.eqb authHeader "" then EmptyString
  else
    let parts := strings.SplitN authHeader " " 2 in
    if negb (Nat.eqb (length parts) 2)
       || negb (String.eqb (strings.ToLower (nth 0 parts EmptyString)) "bearer")
    then EmptyString
    else nth 1 parts EmptyString.

(** The body the three [Check...Access] functions share, from the token
    extraction to the verdict: the calls made on the hub and the returned
    error. [subject] is the noun of the denial message. The receiver
    [AuthzHandler] only holds the hub client, which none of them uses: the
    review is submitted through a client built from the caller's token. *)
Definition reviewAccess (w : world.World) (r : http.Request)
  (attrs : ResourceAttributes) (subject : string) : list Event * option string :=
  let callerToken := extractBearerToken r in
  if String.eqb callerToken "" then ([], Some "no authorization token provided")
  else
    let callerConfig :=
      {| rest.Host := "https://kubernetes.default.svc";
         rest.BearerToken := callerToken;
         rest.Insecure := true;
         rest.Material := EmptyString |} in
    match world.kubernetesNewForConfig w callerConfig with
    | Err err => ([], Some ("failed to create caller client: " +:+ err))
    | Ok callerClient =>
        match kubernetes.SelfSubjectAccessReviewsCreate callerClient attrs with
        | Err err =>
            ([HubAccessReview callerConfig attrs],
             Some ("failed to create SelfSubjectAccessReview: " +:+ err))
        | Ok result =>
            if negb (Allowed result) then
              ([HubAccessReview callerConfig attrs],
               Some ("access denied to " +:+ subject +:+ " " +:+ Namespace attrs +:+ "/"
                     +:+ Name attrs +:+ ": " +:+ Reason result))
            else ([HubAccessReview callerConfig attrs], None)
        end
    end.

Definition CheckPipelineRunAccess (w : world.World) (r : http.Request)
  (namespace pipelineRunName : string) : list Event * option string :=
  reviewAccess w r
    {| Namespace := namespace; Verb := "get"; Group := "tekton.dev"; Version := "v1";
       Resource := "pipelineruns"; Name := pipelineRunName |}
    "PipelineRun".

Definition CheckPodAccess (w : world.World) (r : http.Request)
  (namespace podName : string) : list Event * option string :=
  reviewAccess w r
    {| Namespace := namespace; Verb := "get"; Group := ""; Version := "v1";
       Resource := "pods"; Name := podName |}
    "Pod".

Definition CheckPodLogsAccess (w : world.World) (r : http.Request)
  (namespace podName : string) : list Event * option string :=
  reviewAccess w r
    {| Namespace := namespace; Verb := "get"; Group := ""; Version := "v1";
       Resource := "pods/log"; Name := podName |}
    "Pod logs".

End authz.

(** ** Package handlers *)

Module handlers.

(** The [authzHandler] field is left out: it has no state the checks
    read. *)
Record ProxyServer := {
  resolver_ : resolver.WorkloadResolver;
  workerRegistry : registry.WorkerConfigRegistry;
  config : config.Config
}.

(** *** The handler monad

    A handler runs on the response writer and the trace. A step yields a
    value ([Next]), ends the handler ([Returned], Go's [return]) or panics. *)

Record HState := { rw : http.ResponseWriter; trace : list Event }.

Inductive Flow (A : Type) : Type :=
| Next (a : A)
| Returned
| Panicked (msg : string).
Arguments Next {A} a.
Arguments Returned {A}.
Arguments Panicked {A} msg.

Definition M (A : Type) : Type := HState -> HState * Flow A.

Definition ret {A} (a : A) : M A := fun s => (s, Next a).

Definition bind {A B} (m : M A) (k : A -> M B) : M B :=
  fun s =>
    match m s with
    | (s', Next a) => k a s'
    | (s', Returned) => (s', Returned)
    | (s', Panicked msg) => (s', Panicked msg)
    end.

#[global] Instance M_ret : MRet M := @ret.
#[global] Instance M_bind : MBind M := fun A B k m => bind m k.

Definition return_ {A} : M A := fun s => (s, Returned).
Definition panic {A} (msg : string) : M A := fun s => (s, Panicked msg).

Definition onWriter (f : http.ResponseWriter -> http.ResponseWriter) : M unit :=
  fun s => ({| rw := f (rw s); trace := trace s |}, Next tt).

Definition emit (e : Event) : M unit :=
  fun s => ({| rw := rw s; trace := trace s ++ [e] |}, Next tt).

Definition emitAll (es : list Event) : M unit :=
  fun s => ({| rw := rw s; trace := trace s ++ es |}, Next tt).

Definition HeaderSet (key value : string) : M unit :=
  onWriter (fun w => http.setHeader w key value).

Definition WriteHeader (code : Z) : M unit :=
  onWriter (fun w => http.writeHeader w code).

Definition Write (s : string) : M unit :=
  onWriter (fun w => http.write w (http.Bytes s)).

(** [json.NewEncoder(w).Encode(v)]; an encoding error is only logged. *)
Definition Encode (j : json) : M unit :=
  onWriter (fun w => http.write w (http.Document j)).

Definition newline : string := String (ascii_of_nat 10) EmptyString.

(** [http.Error(w, msg, code)]. *)
Definition Error_ (msg : string) (code : Z) : M unit :=
  HeaderSet "Content-Type" "text/plain; charset=utf-8";;
  HeaderSet "X-Content-Type-Options" "nosniff";;
  WriteHeader code;;
  Write (msg +:+ newline).

Definition when (b : bool) (m : M unit) : M unit := if b then m else ret tt.

(** The state a request starts in and the outcome of serving it. *)
Definition start : HState := {| rw := http.newResponseWriter; trace := [] |}.

Definition serve (h : M unit) : HState * Flow unit := h start.

(** *** Calls the handlers make *)

(** [p.resolver.ResolveWorkerCluster]: one listing of the workloads of the
    namespace on the hub. *)
Definition ResolveWorkerCluster (p : ProxyServer) (namespace pipelineRunName : string)
  : M (res resolver.WorkerCluster) :=
  emit (HubListWorkloads namespace);;
  ret (resolver.ResolveWorkerCluster (resolver_ p) namespace pipelineRunName).

(** [kubernetes.NewForConfigOrDie] and [tektonclient.NewForConfigOrDie]. *)
Definition kubernetesNewForConfigOrDie (w : world.World) (c : rest.Config)
  : M kubernetes.Interface :=
  match world.kubernetesNewForConfig w c with
  | Ok client => ret client
  | Err err => panic err
  end.

Definition tektonNewForConfigOrDie (w : world.World) (c : rest.Config)
  : M tektonclient.Interface :=
  match world.tektonNewForConfig w c with
  | Ok client => ret client
  | Err err => panic err
  end.

(** An authorization check: its calls on the hub enter the trace. *)
Definition check (c : list Event * option string) : M (option string) :=
  emitAll (fst c);; ret (snd c).

(** [if err != nil { onErr(err); return }] after a call returning
    [(value, error)], and after one returning a bare [error]. *)
Definition orReturn {A} (r : res A) (onErr : string -> M unit) : M A :=
  match r with
  | Ok a => ret a
  | Err err => onErr err;; return_
  end.

Definition ifErr (e : option string) (onErr : string -> M unit) : M unit :=
  match e with
  | Some err => onErr err;; return_
  | None => ret tt
  end.

(** *** The handlers *)

Definition handleResolve (p : ProxyServer) (r : http.Request)
  (namespace pipelineRunName : string) : M unit :=
  resolved ← ResolveWorkerCluster p namespace pipelineRunName;
  workerCluster ← orReturn resolved (fun err =>
    Error_ ("Failed to resolve worker cluster: " +:+ err) http.StatusNotFound);
  HeaderSet "Content-Type" "application/json";;
  when (negb (String.eqb (resolver.Name workerCluster) ""))
       (HeaderSet "X-Worker-Cluster" (resolver.Name workerCluster));;
  (if String.eqb (resolver.State workerCluster) "Dispatching"
   then WriteHeader http.StatusConflict
   else WriteHeader http.StatusOK);;
  Encode (resolver.MarshalJSON workerCluster).

Definition handleTaskRuns (w : world.World) (p : ProxyServer) (r : http.Request)
  (namespace pipelineRunName : string) : M unit :=
  resolved ← ResolveWorkerCluster p namespace pipelineRunName;
  workerCluster ← orReturn resolved (fun err =>
    Error_ ("Failed to resolve worker cluster: " +:+ err) http.StatusNotFound);
  when (negb (String.eqb (resolver.State workerCluster) "Admitted"))
       (Error_ "PipelineRun not admitted to worker cluster" http.StatusConflict;; return_);;
  workerConfig ← orReturn (registry.GetConfig (workerRegistry p) (resolver.Name workerCluster))
    (fun err => Error_ ("Worker config not found: " +:+ err) http.StatusFailedDependency);
  tektonClient ← tektonNewForConfigOrDie w workerConfig;
  let labelSelector := "tekton.dev/pipelineRun=" +:+ pipelineRunName in
  emit (WorkerRequest workerConfig (ListTaskRuns namespace labelSelector));;
  taskRuns ← orReturn (tektonclient.TaskRunsList tektonClient namespace labelSelector)
    (fun err => Error_ ("Failed to list TaskRuns: " +:+ err) http.StatusInternalServerError);
  HeaderSet "Content-Type" "application/json";;
  HeaderSet "X-Worker-Cluster" (resolver.Name workerCluster);;
  Encode (JDownstream taskRuns).

Definition handlePipelineRunPods (w : world.World) (p : ProxyServer) (r : http.Request)
  (namespace pipelineRunName : string) : M unit :=
  resolved ← ResolveWorkerCluster p namespace pipelineRunName;
  workerCluster ← orReturn resolved (fun err =>
    Error_ ("Failed to resolve worker cluster: " +:+ err) http.StatusNotFound);
  when (negb (String.eqb (resolver.State workerCluster) "Admitted"))
       (Error_ "PipelineRun not admitted to worker cluster" http.StatusConflict;; return_);;
  workerConfig ← orReturn (registry.GetConfig (workerRegistry p) (resolver.Name workerCluster))
    (fun err => Error_ ("Worker config not found: " +:+ err) http.StatusFailedDependency);
  kubeClient ← kubernetesNewForConfigOrDie w workerConfig;
  let labelSelector := "tekton.dev/pipelineRun=" +:+ pipelineRunName in
  emit (WorkerRequest workerConfig (ListPods namespace labelSelector));;
  pods ← orReturn (kubernetes.PodsList kubeClient namespace labelSelector)
    (fun err => Error_ ("Failed to list Pods: " +:+ err) http.StatusInternalServerError);
  HeaderSet "Content-Type" "application/json";;
  HeaderSet "X-Worker-Cluster" (resolver.Name workerCluster);;
  Encode (JDownstream pods).

Definition handlePodStatus (w : world.World) (p : ProxyServer) (r : http.Request)
  (namespace podName : string) : M unit :=
  let pipelineRunName := http.QueryGet r "pipelineRun" in
  when (String.eqb pipelineRunName "")
       (Error_ "PipelineRun name must be provided as query parameter 'pipelineRun'"
               http.StatusBadRequest;; return_);;
  resolved ← ResolveWorkerCluster p namespace pipelineRunName;
  workerCluster ← orReturn resolved (fun err =>
    Error_ ("Failed to resolve worker cluster: " +:+ err) http.StatusInternalServerError);
  when (negb (String.eqb (resolver.State workerCluster) "Admitted"))
       (Error_ "PipelineRun not admitted to worker cluster" http.StatusConflict;; return_);;
  workerConfig ← orReturn (registry.GetConfig (workerRegistry p) (resolver.Name workerCluster))
    (fun err => Error_ ("Worker config not found: " +:+ err) http.StatusFailedDependency);
  kubeClient ← kubernetesNewForConfigOrDie w workerConfig;
  emit (WorkerRequest workerConfig (GetPod namespace podName));;
  pod ← orReturn (kubernetes.PodsGet kubeClient namespace podName)
    (fun err => Error_ ("Failed to get pod: " +:+ err) http.StatusInternalServerError);
  HeaderSet "Content-Type" "application/json";;
  HeaderSet "X-Worker-Cluster" (resolver.Name workerCluster);;
  Encode (JDownstream pod).

(** [io.Copy(w, logs)]: the bytes of every [Read] are written, up to and
    including the [Read] that returns an error. *)
Fixpoint ioCopy (logs : corev1.LogStream) : M unit :=
  match logs with
  | [] => ret tt
  | rr :: rest =>
      when (negb (String.eqb (corev1.data rr) "")) (Write (corev1.data rr));;
      match corev1.readErr rr with
      | Some _ => ret tt
      | None => ioCopy rest
      end
  end.

Definition handleLogsFetch (w : world.World) (p : ProxyServer) (r : http.Request)
  (namespace podName containerName : string) : M unit :=
  let sinceSeconds :=
    let sinceStr := http.QueryGet r "sinceSeconds" in
    if negb (String.eqb sinceStr "") then
      match strconv.ParseInt sinceStr with
      | Some since => since
      | None => 0
      end
    else 0 in
  let tailLines :=
    let tailStr := http.QueryGet r "tailLines" in
    if negb (String.eqb tailStr "") then
      match strconv.ParseInt tailStr with
      | Some tail => tail
      | None => config.DefaultLogTailLines (config p)
      end
    else config.DefaultLogTailLines (config p) in
  let pipelineRunName := http.QueryGet r "pipelineRun" in
  when (String.eqb pipelineRunName "")
       (Error_ "PipelineRun name must be provided as query parameter 'pipelineRun'"
               http.StatusBadRequest;; return_);;
  resolved ← ResolveWorkerCluster p namespace pipelineRunName;
  workerCluster ← orReturn resolved (fun err =>
    Error_ ("Failed to resolve worker cluster: " +:+ err) http.StatusInternalServerError);
  when (negb (String.eqb (resolver.State workerCluster) "Admitted"))
       (Error_ "PipelineRun not admitted to worker cluster" http.StatusConflict;; return_);;
  workerConfig ← orReturn (registry.GetConfig (workerRegistry p) (resolver.Name workerCluster))
    (fun err => Error_ ("Worker config not found: " +:+ err) http.StatusFailedDependency);
  kubeClient ← kubernetesNewForConfigOrDie w workerConfig;
  let logOptions :=
    {| corev1.Container := containerName;
       corev1.Follow := false;
       corev1.SinceTime :=
         if 0 <? sinceSeconds then
           Some (metatime.Add (world.Now w)
                   (strconv.wrap64 (strconv.wrap64 (- sinceSeconds) * metatime.Second)))
         else None;
       corev1.TailLines := Some tailLines |} in
  emit (WorkerRequest workerConfig (StreamLogs namespace podName logOptions));;
  logs ← orReturn (kubernetes.PodsGetLogsStream kubeClient namespace podName logOptions)
    (fun err => Error_ ("Failed to get logs: " +:+ err) http.StatusInternalServerError);
  HeaderSet "Content-Type" "text/plain";;
  HeaderSet "X-Worker-Cluster" (resolver.Name workerCluster);;
  WriteHeader http.StatusOK;;
  ioCopy logs.

(** The relay loop of [handleLogsStream]: one [WriteMessage] per [Read],
    until a [Read] or a [WriteMessage] returns an error. [WsWrite] records
    the attempt. *)
Fixpoint relay (conn : websocket.Conn) (i : nat) (logs : corev1.LogStream) : M unit :=
  match logs with
  | [] => ret tt
  | rr :: rest =>
      match corev1.readErr rr with
      | Some _ => ret tt
      | None =>
          emit (WsWrite (corev1.data rr));;
          match websocket.WriteMessage conn i (corev1.data rr) with
          | Some _ => ret tt
          | None => relay conn (S i) rest
          end
      end
  end.

Definition handleLogsStream (w : world.World) (p : ProxyServer) (r : http.Request)
  (namespace podName containerName : string) : M unit :=
  let pipelineRunName := http.QueryGet r "pipelineRun" in
  when (String.eqb pipelineRunName "")
       (Error_ "PipelineRun name must be provided as query parameter 'pipelineRun'"
               http.StatusBadRequest;; return_);;
  resolved ← ResolveWorkerCluster p namespace pipelineRunName;
  workerCluster ← orReturn resolved (fun err =>
    Error_ ("Failed to resolve worker cluster: " +:+ err) http.StatusInternalServerError);
  when (negb (String.eqb (resolver.State workerCluster) "Admitted"))
       (Error_ "PipelineRun not admitted to worker cluster" http.StatusConflict;; return_);;
  workerConfig ← orReturn (registry.GetConfig (workerRegistry p) (resolver.Name workerCluster))
    (fun err => Error_ ("Worker config not found: " +:+ err) http.StatusFailedDependency);
  kubeClient ← kubernetesNewForConfigOrDie w workerConfig;
  let logOptions :=
    {| corev1.Container := containerName;
       corev1.Follow := true;
       corev1.SinceTime := None;
       corev1.TailLines := None |} in
  emit (WorkerRequest workerConfig (StreamLogs namespace podName logOptions));;
  logs ← orReturn (kubernetes.PodsGetLogsStream kubeClient namespace podName logOptions)
    (fun err => Error_ ("Failed to get logs stream: " +:+ err) http.StatusInternalServerError);
  emit WsUpgrade;;
  match world.Upgrade w r with
  | websocket.Refused code reason =>
      HeaderSet "Sec-Websocket-Version" "13";;
      Error_ reason code
  | websocket.Upgraded conn acceptKey =>
      onWriter (fun rw =>
        http.hijack rw http.StatusSwitchingProtocols (websocket.handshake acceptKey ∅));;
      relay conn 0 logs
  end.

Definition handlePipelineRunRequest (w : world.World) (p : ProxyServer) (r : http.Request)
  (namespace resourcePath : string) : M unit :=
  let pathParts := strings.Split resourcePath "/" in
  when (length pathParts <? 2)%nat
       (Error_ "Invalid PipelineRun path" http.StatusBadRequest;; return_);;
  let pipelineRunName := nth 1 pathParts EmptyString in
  let subPath := strings.Join (drop 2 pathParts) "/" in
  denied ← check (authz.CheckPipelineRunAccess w r namespace pipelineRunName);
  ifErr denied (fun err => Error_ ("Access denied: " +:+ err) http.StatusForbidden);;
  if String.eqb subPath "resolve" then handleResolve p r namespace pipelineRunName
  else if String.eqb subPath "taskruns" then handleTaskRuns w p r namespace pipelineRunName
  else if String.eqb subPath "pods" then handlePipelineRunPods w p r namespace pipelineRunName
  else Error_ "Unknown PipelineRun sub-resource" http.StatusNotFound.

Definition handlePodRequest (w : world.World) (p : ProxyServer) (r : http.Request)
  (namespace resourcePath : string) : M unit :=
  let pathParts := strings.Split resourcePath "/" in
  when (length pathParts <? 2)%nat
       (Error_ "Invalid Pod path" http.StatusBadRequest;; return_);;
  let podName := nth 1 pathParts EmptyString in
  let subPath := strings.Join (drop 2 pathParts) "/" in
  denied ← check (authz.CheckPodAccess w r namespace podName);
  ifErr denied (fun err => Error_ ("Access denied: " +:+ err) http.StatusForbidden);;
  if String.eqb subPath "status" then handlePodStatus w p r namespace podName
  else Error_ "Unknown Pod sub-resource" http.StatusNotFound.

Definition handleLogsRequest (w : world.World) (p : ProxyServer) (r : http.Request)
  (namespace resourcePath : string) : M unit :=
  let podName := http.QueryGet r "pod" in
  let containerName := http.QueryGet r "container" in
  when (String.eqb podName "")
       (Error_ "Pod name is required" http.StatusBadRequest;; return_);;
  denied ← check (authz.CheckPodLogsAccess w r namespace podName);
  ifErr denied (fun err => Error_ ("Access denied: " +:+ err) http.StatusForbidden);;
  if strings.HasSuffix resourcePath "/stream"
  then handleLogsStream w p r namespace podName containerName
  else handleLogsFetch w p r namespace podName containerName.

Definition handleNamespaceRequest (w : world.World) (p : ProxyServer) (r : http.Request)
  : M unit :=
  let pathParts :=
    strings.Split (strings.TrimPrefix (http.Path r) "/api/v1/namespaces/") "/" in
  when (length pathParts <? 2)%nat
       (Error_ "Invalid path" http.StatusBadRequest;; return_);;
  let namespace := nth 0 pathParts EmptyString in
  let resourcePath := strings.Join (drop 1 pathParts) "/" in
  if strings.HasPrefix resourcePath "pipelineruns/"
  then handlePipelineRunRequest w p r namespace resourcePath
  else if strings.HasPrefix resourcePath "pods/"
  then handlePodRequest w p r namespace resourcePath
  else if strings.HasPrefix resourcePath "logs"
  then handleLogsRequest w p r namespace resourcePath
  else Error_ "Unknown resource" http.StatusNotFound.

Definition handleHealth : M unit :=
  WriteHeader http.StatusOK;;
  Write "OK".

Definition handleReady (p : ProxyServer) : M unit :=
  let clusters := registry.ListClusters (workerRegistry p) in
  when (Nat.eqb (length clusters) 0)
       (Error_ "No worker clusters configured" http.StatusServiceUnavailable;; return_);;
  WriteHeader http.StatusOK;;
  Write "Ready".

End handlers.

(** ** A concrete deployment

    One hub with five workloads in namespace [default], two registered
    worker clusters ([c1] answers, [c3] refuses every call) and a caller
    [alice] whose access reviews are allowed. The examples below run the
    handlers on it. *)

Module demo.

Definition owner (pipelineRun : string) : metav1.OwnerReference :=
  {| metav1.Kind := "PipelineRun"; metav1.RefName := pipelineRun |}.

Definition workload (name pipelineRun : string)
  (admission : option kueuev1beta1.Admission) (cluster : option string)
  : kueuev1beta1.Workload :=
  {| kueuev1beta1.WorkloadMeta :=
       {| metav1.Name := name; metav1.OwnerReferences := [owner pipelineRun] |};
     kueuev1beta1.Status :=
       {| kueuev1beta1.Admission_ := admission; kueuev1beta1.ClusterName := cluster |} |}.

Definition admitted : option kueuev1beta1.Admission :=
  Some {| kueuev1beta1.ClusterQueue := "cq" |}.

Definition workloads : list kueuev1beta1.Workload :=
  [ workload "w1" "build" None None;
    workload "w2" "deploy" admitted (Some "c1");
    workload "w3" "test" admitted (Some "c2");
    workload "w4" "lint" admitted None;
    workload "w5" "flaky" admitted (Some "c3") ].

Definition cluster (name locationType location : string) : kueuev1beta1.MultiKueueCluster :=
  {| kueuev1beta1.ClusterMeta := {| metav1.Name := name; metav1.OwnerReferences := [] |};
     kueuev1beta1.SpecKubeConfig :=
       {| kueuev1beta1.Location := location; kueuev1beta1.LocationType := locationType |} |}.

Definition clusters : list kueuev1beta1.MultiKueueCluster :=
  [ cluster "c1" "Secret" "c1-secret";
    cluster "c2" "Path" "/etc/c2.kubeconfig";
    cluster "c3" "Secret" "c3-secret" ].

Definition hubKueue : kueueclient.Interface :=
  {| kueueclient.WorkloadsList := fun namespace =>
       if String.eqb namespace "default" then Ok workloads else Ok [];
     kueueclient.MultiKueueClustersList := Ok clusters |}.

Definition cfgC1 : rest.Config :=
  {| rest.Host := "https://c1.example:6443"; rest.BearerToken := "c1-token";
     rest.Insecure := false; rest.Material := "c1-ca" |}.

Definition cfgC3 : rest.Config :=
  {| rest.Host := "https://c3.example:6443"; rest.BearerToken := "c3-token";
     rest.Insecure := false; rest.Material := "c3-ca" |}.

Definition secrets : gmap string corev1.Secret :=
  {[ "c1-secret" := {| corev1.Data := {[ "kubeconfig" := "kubeconfig-of-c1" ]} |};
     "c3-secret" := {| corev1.Data := {[ "kubeconfig" := "kubeconfig-of-c3" ]} |} ]}.

Definition unreachable : kubernetes.Interface :=
  {| kubernetes.SecretsGet := fun _ _ => Err "connection refused";
     kubernetes.PodsList := fun _ _ => Err "connection refused";
     kubernetes.PodsGet := fun _ _ => Err "connection refused";
     kubernetes.PodsGetLogsStream := fun _ _ _ => Err "connection refused";
     kubernetes.SelfSubjectAccessReviewsCreate := fun _ => Err "connection refused" |}.

Definition hubKube : kubernetes.Interface :=
  {| kubernetes.SecretsGet := fun namespace name =>
       if String.eqb namespace "kueue-system" then
         match secrets !! name with
         | Some secret => Ok secret
         | None => Err "secret not found"
         end
       else Err "secret not found";
     kubernetes.PodsList := fun _ _ => Err "not a worker";
     kubernetes.PodsGet := fun _ _ => Err "not a worker";
     kubernetes.PodsGetLogsStream := fun _ _ _ => Err "not a worker";
     kubernetes.SelfSubjectAccessReviewsCreate := fun _ => Err "Unauthorized" |}.

Definition callerClient (allowed : bool) : kubernetes.Interface :=
  {| kubernetes.SecretsGet := fun _ _ => Err "forbidden";
     kubernetes.PodsList := fun _ _ => Err "forbidden";
     kubernetes.PodsGet := fun _ _ => Err "forbidden";
     kubernetes.PodsGetLogsStream := fun _ _ _ => Err "forbidden";
     kubernetes.SelfSubjectAccessReviewsCreate := fun _ =>
       Ok {| authorizationv1.Allowed := allowed;
             authorizationv1.Reason := if allowed then "" else "no RBAC rule" |} |}.

Definition logLines : corev1.LogStream :=
  [ {| corev1.data := "step one"; corev1.readErr := None |};
    {| corev1.data := "step two"; corev1.readErr := None |} ].

Definition workerKube : kubernetes.Interface :=
  {| kubernetes.SecretsGet := fun _ _ => Err "forbidden";
     kubernetes.PodsList := fun _ _ => Ok {| payload := "PodList" |};
     kubernetes.PodsGet := fun _ _ => Ok {| payload := "Pod" |};
     kubernetes.PodsGetLogsStream := fun _ _ _ => Ok logLines;
     kubernetes.SelfSubjectAccessReviewsCreate := fun _ => Err "forbidden" |}.

Definition theWorld : world.World :=
  {| world.kubernetesNewForConfig := fun c =>
       if String.eqb (rest.Host c) "https://kubernetes.default.svc" then
         Ok (callerClient (String.eqb (rest.BearerToken c) "alice"))
       else if String.eqb (rest.Host c) "https://c1.example:6443" then Ok workerKube
       else Ok unreachable;
     world.tektonNewForConfig := fun c =>
       if String.eqb (rest.Host c) "https://c1.example:6443" then
         Ok {| tektonclient.TaskRunsList := fun _ _ => Ok {| payload := "TaskRunList" |} |}
       else Ok {| tektonclient.TaskRunsList := fun _ _ => Err "connection refused" |};
     world.RESTConfigFromKubeConfig := fun kubeconfigData =>
       if String.eqb kubeconfigData "kubeconfig-of-c1" then Ok cfgC1
       else if String.eqb kubeconfigData "kubeconfig-of-c3" then Ok cfgC3
       else Err "invalid kubeconfig";
     world.Upgrade := fun _ =>
       websocket.Upgraded {| websocket.WriteMessage := fun _ _ => None |}
         "HSmrc0sMlYUkAGmm5OPpG2HaGWk=";
     world.Now := {| metatime.UnixNano := 1700000000000000000 |} |}.

Definition theConfig : config.Config :=
  {| config.WorkersSecretNamespace := "kueue-system";
     config.RequestTimeout := 30 * metatime.Second;
     config.DefaultLogTailLines := 100 |}.

Definition emptyRegistry : registry.WorkerConfigRegistry :=
  {| registry.kubeClient := hubKube; registry.kueueClient := hubKueue;
     registry.config := theConfig; registry.configs := ∅ |}.

Definition theRegistry : registry.WorkerConfigRegistry :=
  fst (registry.LoadConfigs theWorld emptyRegistry).

Definition theServer : handlers.ProxyServer :=
  {| handlers.resolver_ :=
       {| resolver.kueueClient := hubKueue; resolver.kubeClient := hubKube;
          resolver.config := theConfig |};
     handlers.workerRegistry := theRegistry;
     handlers.config := theConfig |}.

Definition request (path : string) (query : list (string * string)) (authorization : string)
  : http.Request :=
  {| http.Path := path;
     http.Query := list_to_map (map (fun kv => (fst kv, [snd kv])) query);
     http.Header := if String.eqb authorization "" then ∅
                    else {[ "Authorization" := authorization ]} |}.

End demo.

(** ** Vocabulary of the properties *)

(** [ownedBy pipelineRunName workload]: the workload has an owner reference
    of kind [PipelineRun] with that name. *)
Definition ownedBy (pipelineRunName : string) (workload : kueuev1beta1.Workload) : Prop :=
  exists ownerRef,
    In ownerRef (metav1.OwnerReferences (kueuev1beta1.WorkloadMeta workload))
    /\ metav1.Kind ownerRef = "PipelineRun"
    /\ metav1.RefName ownerRef = pipelineRunName.

(** [firstOwned pipelineRunName items workload]: [workload] is the first
    item of the listing owned by the PipelineRun. *)
Definition firstOwned (pipelineRunName : string) (items : list kueuev1beta1.Workload)
  (workload : kueuev1beta1.Workload) : Prop :=
  exists before after,
    items = before ++ workload :: after
    /\ (forall other, In other before -> ~ ownedBy pipelineRunName other)
    /\ ownedBy pipelineRunName workload.

(** [resolutionFails w r cluster]: one of the five ways in which the
    configuration of a registered cluster cannot be resolved. *)
Definition resolutionFails (w : world.World) (r : registry.WorkerConfigRegistry)
  (cluster : kueuev1beta1.MultiKueueCluster) : Prop :=
  let location := kueuev1beta1.Location (kueuev1beta1.SpecKubeConfig cluster) in
  let secretOf :=
    kubernetes.SecretsGet (registry.kubeClient r)
      (config.WorkersSecretNamespace (registry.config r)) location in
  kueuev1beta1.LocationType (kueuev1beta1.SpecKubeConfig cluster) <> "Secret"
  \/ location = ""
  \/ (exists err, secretOf = Err err)
  \/ (exists secret, secretOf = Ok secret /\ corev1.Data secret !! "kubeconfig" = None)
  \/ (exists secret kubeconfigData err,
        secretOf = Ok secret
        /\ corev1.Data secret !! "kubeconfig" = Some kubeconfigData
        /\ world.RESTConfigFromKubeConfig w kubeconfigData = Err err).

Definition clusterName (cluster : kueuev1beta1.MultiKueueCluster) : string :=
  metav1.Name (kueuev1beta1.ClusterMeta cluster).


(** The five sub-resource operations, with the arguments the router passes
    to their handlers. *)
Inductive SubResource :=
| TaskRuns (pipelineRunName : string)
| PipelineRunPods (pipelineRunName : string)
| PodStatus (podName : string)
| LogsFetch (podName containerName : string)
| LogsStream (podName containerName : string).

Definition subHandler (w : world.World) (p : handlers.ProxyServer) (r : http.Request)
  (namespace : string) (k : SubResource) : handlers.M unit :=
  match k with
  | TaskRuns pipelineRunName => handlers.handleTaskRuns w p r namespace pipelineRunName
  | PipelineRunPods pipelineRunName =>
      handlers.handlePipelineRunPods w p r namespace pipelineRunName
  | PodStatus podName => handlers.handlePodStatus w p r namespace podName
  | LogsFetch podName containerName =>
      handlers.handleLogsFetch w p r namespace podName containerName
  | LogsStream podName containerName =>
      handlers.handleLogsStream w p r namespace podName containerName
  end.

(** The PipelineRun a sub-resource request is about: a path segment for the
    first two operations, the [pipelineRun] query parameter for the others,
    which answer 400 without consulting the resolver when it is empty. *)
Definition jobName (r : http.Request) (k : SubResource) : string :=
  match k with
  | TaskRuns pipelineRunName | PipelineRunPods pipelineRunName => pipelineRunName
  | PodStatus _ | LogsFetch _ _ | LogsStream _ _ => http.QueryGet r "pipelineRun"
  end.

Definition consults (r : http.Request) (k : SubResource) : Prop :=
  match k with
  | TaskRuns _ | PipelineRunPods _ => True
  | PodStatus _ | LogsFetch _ _ | LogsStream _ _ => http.QueryGet r "pipelineRun" <> ""
  end.

(** [rejects w workerConfig namespace k]: a client for the worker cluster
    can be built and the cluster fails the call operation [k] makes. *)
Definition rejects (w : world.World) (workerConfig : rest.Config) (namespace : string)
  (k : SubResource) : Prop :=
  match k with
  | TaskRuns pipelineRunName =>
      exists client err,
        world.tektonNewForConfig w workerConfig = Ok client
        /\ tektonclient.TaskRunsList client namespace
             ("tekton.dev/pipelineRun=" +:+ pipelineRunName) = Err err
  | PipelineRunPods pipelineRunName =>
      exists client err,
        world.kubernetesNewForConfig w workerConfig = Ok client
        /\ kubernetes.PodsList client namespace
             ("tekton.dev/pipelineRun=" +:+ pipelineRunName) = Err err
  | PodStatus podName =>
      exists client err,
        world.kubernetesNewForConfig w workerConfig = Ok client
        /\ kubernetes.PodsGet client namespace podName = Err err
  | LogsFetch podName _ | LogsStream podName _ =>
      exists client,
        world.kubernetesNewForConfig w workerConfig = Ok client
        /\ forall options, exists err,
             kubernetes.PodsGetLogsStream client namespace podName options = Err err
  end.

Definition isWorkerRequest (e : Event) : bool :=
  match e with
  | WorkerRequest _ _ => true
  | _ => false
  end.

(** [serves w workerConfig namespace k]: a client for the worker cluster
    can be built and the cluster answers the call operation [k] makes. *)
Definition serves (w : world.World) (workerConfig : rest.Config) (namespace : string)
  (k : SubResource) : Prop :=
  match k with
  | TaskRuns pipelineRunName =>
      exists client taskRuns,
        world.tektonNewForConfig w workerConfig = Ok client
        /\ tektonclient.TaskRunsList client namespace
             ("tekton.dev/pipelineRun=" +:+ pipelineRunName) = Ok taskRuns
  | PipelineRunPods pipelineRunName =>
      exists client pods,
        world.kubernetesNewForConfig w workerConfig = Ok client
        /\ kubernetes.PodsList client namespace
             ("tekton.dev/pipelineRun=" +:+ pipelineRunName) = Ok pods
  | PodStatus podName =>
      exists client pod,
        world.kubernetesNewForConfig w workerConfig = Ok client
        /\ kubernetes.PodsGet client namespace podName = Ok pod
  | LogsFetch podName _ | LogsStream podName _ =>
      exists client,
        world.kubernetesNewForConfig w workerConfig = Ok client
        /\ forall options, exists logs,
             kubernetes.PodsGetLogsStream client namespace podName options = Ok logs
  end.

(** [hasByte c s]: the byte [c] occurs in [s]. *)
Fixpoint hasByte (c : ascii) (s : string) : bool :=
  match s with
  | EmptyString => false
  | String c' s' => Ascii.eqb c' c || hasByte c s'
  end.

(** A request on a pipelinerun, pod or logs path:
    [/api/v1/namespaces/{namespace}/{resourcePath}]. *)
Definition apiRequest (r : http.Request) (namespace resourcePath : string) : Prop :=
  http.Path r = "/api/v1/namespaces/" +:+ namespace +:+ "/" +:+ resourcePath
  /\ hasByte "/" namespace = false
  /\ (strings.HasPrefix resourcePath "pipelineruns/" = true
      \/ strings.HasPrefix resourcePath "pods/" = true
      \/ strings.HasPrefix resourcePath "logs" = true).

(** The [Authorization] header is absent or empty, or is not a two-part
    value whose first part is [bearer] in any letter case. *)
Definition noCredential (r : http.Request) : Prop :=
  let authHeader := http.HeaderGet r "Authorization" in
  authHeader = ""
  \/ length (strings.SplitN authHeader " " 2) <> 2%nat
  \/ strings.ToLower (nth 0 (strings.SplitN authHeader " " 2) "") <> "bearer".

(** Events after authorization: the resolver's lookup, the requests to a
    worker cluster and the frames relayed from it. *)
Definition isBackend (e : Event) : bool :=
  match e with
  | HubAccessReview _ _ => false
  | _ => true
  end.

(** [granted w callerConfig attrs]: the access review submitted with a
    client built from [callerConfig] allows the access. *)
Definition granted (w : world.World) (callerConfig : rest.Config)
  (attrs : authorizationv1.ResourceAttributes) : Prop :=
  exists client review,
    world.kubernetesNewForConfig w callerConfig = Ok client
    /\ kubernetes.SelfSubjectAccessReviewsCreate client attrs = Ok review
    /\ authorizationv1.Allowed review = true.

(** [serving m]: the step [m] only appends backend events to the trace. *)
Definition serving {A} (m : handlers.M A) : Prop :=
  forall s, exists added,
    handlers.trace (fst (m s)) = handlers.trace s ++ added
    /\ Forall (fun e => isBackend e = true) added.

(** [guarded w r s']: the outcome [s'] of a request is one of two kinds.
    Either the router answered 400 or 404 before any check and called
    nothing; or it made one access check with the caller's credential, and
    then a failed check is answered 403 with nothing in the trace but the
    check's own calls, while a passed check is followed by backend events
    only. *)
Definition guarded (w : world.World) (r : http.Request) (s' : handlers.HState) : Prop :=
  (handlers.trace s' = []
   /\ (http.status (handlers.rw s') = 400 \/ http.status (handlers.rw s') = 404))
  \/ exists attrs subject,
       (forall err,
          snd (authz.reviewAccess w r attrs subject) = Some err ->
          http.status (handlers.rw s') = 403
          /\ handlers.trace s' = fst (authz.reviewAccess w r attrs subject))
       /\ (snd (authz.reviewAccess w r attrs subject) = None ->
           exists added,
             handlers.trace s' = fst (authz.reviewAccess w r attrs subject) ++ added
             /\ Forall (fun e => isBackend e = true) added).

(** The path of a [/resolve] request. *)
Definition resolvePath (namespace pipelineRunName : string) : string :=
  "/api/v1/namespaces/" +:+ namespace +:+ "/pipelineruns/" +:+ pipelineRunName +:+ "/resolve".



(** The client configuration the access checks build for a caller. *)
Definition callerConfigOf (token : string) : rest.Config :=
  {| rest.Host := "https://kubernetes.default.svc";
     rest.BearerToken := token;
     rest.Insecure := true;
     rest.Material := EmptyString |}.

(** The resource each access check asks about. *)
Definition accessTo (group resource namespace name : string)
  : authorizationv1.ResourceAttributes :=
  {| authorizationv1.Namespace := namespace;
     authorizationv1.Verb := "get";
     authorizationv1.Group := group;
     authorizationv1.Version := "v1";
     authorizationv1.Resource := resource;
     authorizationv1.Name := name |}.

(** A second world for [demo]: no client can be built for a worker
    configuration and the WebSocket upgrade is refused. Callers are
    reviewed as in [demo.theWorld]. *)
Module faults.

Definition theWorld : world.World :=
  {| world.kubernetesNewForConfig := fun c =>
       if String.eqb (rest.Host c) "https://kubernetes.default.svc" then
         Ok (demo.callerClient (String.eqb (rest.BearerToken c) "alice"))
       else Err "invalid configuration";
     world.tektonNewForConfig := fun _ => Err "invalid configuration";
     world.RESTConfigFromKubeConfig := world.RESTConfigFromKubeConfig demo.theWorld;
     world.Upgrade := fun _ => websocket.Refused 400 "Bad Request";
     world.Now := world.Now demo.theWorld |}.

Definition refusingWorld : world.World :=
  {| world.kubernetesNewForConfig := world.kubernetesNewForConfig demo.theWorld;
     world.tektonNewForConfig := world.tektonNewForConfig demo.theWorld;
     world.RESTConfigFromKubeConfig := world.RESTConfigFromKubeConfig demo.theWorld;
     world.Upgrade := fun _ => websocket.Refused 400 "Bad Request";
     world.Now := world.Now demo.theWorld |}.

End faults.

(** The reads of a log stream up to and including the first one that
    returns an error, and those strictly before it. *)
Fixpoint readsThroughError (logs : corev1.LogStream) : corev1.LogStream :=
  match logs with
  | [] => []
  | rr :: rest =>
      rr :: match corev1.readErr rr with
            | Some _ => []
            | None => readsThroughError rest
            end
  end.

Fixpoint readsBeforeError (logs : corev1.LogStream) : corev1.LogStream :=
  match logs with
  | [] => []
  | rr :: rest =>
      match corev1.readErr rr with
      | Some _ => []
      | None => rr :: readsBeforeError rest
      end
  end.


(** [lastResolved w r items name]: the configuration of the last cluster
    of the listing that is called [name] and resolves, if there is one. *)
Fixpoint lastResolved (w : world.World) (r : registry.WorkerConfigRegistry)
  (items : list kueuev1beta1.MultiKueueCluster) (name : string) : option rest.Config :=
  match items with
  | [] => None
  | cluster :: rest =>
      match lastResolved w r rest name with
      | Some cfg => Some cfg
      | None =>
          if String.eqb (clusterName cluster) name
          then registry.resolveCluster w r cluster
          else None
      end
  end.

(** * Properties *)

(** ** The embedding on concrete inputs *)

Section Examples.

Example Split_path :
  strings.Split "default/pipelineruns/build/resolve" "/"
  = ["default"; "pipelineruns"; "build"; "resolve"].
Proof. reflexivity. Qed.

Example Split_empty : strings.Split "" "/" = [""].
Proof. reflexivity. Qed.

Example Split_trailing : strings.Split "a//b/" "/" = ["a"; ""; "b"; ""].
Proof. reflexivity. Qed.

Example SplitN_bearer : strings.SplitN "Bearer a b" " " 2 = ["Bearer"; "a b"].
Proof. reflexivity. Qed.

Example HasSuffix_stream :
  strings.HasSuffix "logs/stream" "/stream" = true
  /\ strings.HasSuffix "logs" "/stream" = false.
Proof. split; reflexivity. Qed.

Example ParseInt_values :
  strconv.ParseInt "42" = Some 42
  /\ strconv.ParseInt "-7" = Some (-7)
  /\ strconv.ParseInt "+7" = Some 7
  /\ strconv.ParseInt "-9223372036854775808" = Some (- 2 ^ 63)
  /\ strconv.ParseInt "9223372036854775808" = None
  /\ strconv.ParseInt "" = None
  /\ strconv.ParseInt "-" = None
  /\ strconv.ParseInt "1_000" = None
  /\ strconv.ParseInt " 5" = None
  /\ strconv.ParseInt "abc" = None.
Proof. repeat split; reflexivity. Qed.

Example extractBearerToken_values :
  authz.extractBearerToken (demo.request "/" [] "Bearer tok") = "tok"
  /\ authz.extractBearerToken (demo.request "/" [] "BEARER tok") = "tok"
  /\ authz.extractBearerToken (demo.request "/" [] "Bearer") = ""
  /\ authz.extractBearerToken (demo.request "/" [] "Basic tok") = ""
  /\ authz.extractBearerToken (demo.request "/" [] "") = "".
Proof. repeat split; reflexivity. Qed.

(** The registry of [demo] after the initial load: [c1] and [c3]. *)
Example demo_registry :
  registry.configs demo.theRegistry = {[ "c1" := demo.cfgC1; "c3" := demo.cfgC3 ]}.
Proof.
  apply map_eq. intros name.
  unfold demo.theRegistry, registry.LoadConfigs. simpl.
  unfold registry.loadClusters. simpl. unfold registry.loadCluster. simpl.
  reflexivity.
Qed.

(** [deploy] is admitted to [c1], which is registered: its task runs are
    answered 200 with [X-Worker-Cluster: c1] and the downstream list. *)
Example demo_taskruns :
  let s' := fst (handlers.serve
                   (handlers.handleNamespaceRequest demo.theWorld demo.theServer
                      (demo.request "/api/v1/namespaces/default/pipelineruns/deploy/taskruns"
                         [] "Bearer alice"))) in
  http.status (handlers.rw s') = 200
  /\ http.sentHeader (handlers.rw s') !! "X-Worker-Cluster" = Some "c1"
  /\ http.body (handlers.rw s') = [http.Document (JDownstream {| payload := "TaskRunList" |})].
Proof. vm_compute. auto. Qed.

(** [test] is admitted to [c2], which is not registered: 424. *)
Example demo_unregistered :
  http.status
    (handlers.rw
       (fst (handlers.serve
               (handlers.handleNamespaceRequest demo.theWorld demo.theServer
                  (demo.request "/api/v1/namespaces/default/pods/p1/status"
                     [("pipelineRun", "test")] "Bearer alice"))))) = 424.
Proof. vm_compute. reflexivity. Qed.

(** The log stream of [deploy]: the upgrade, then one frame per chunk
    read. *)
Example demo_stream :
  handlers.trace
    (fst (handlers.handleLogsStream demo.theWorld demo.theServer
            (demo.request "/api/v1/namespaces/default/logs/stream"
               [("pipelineRun", "deploy"); ("pod", "p1")] "Bearer alice")
            "default" "p1" "step" handlers.start))
  = [HubListWorkloads "default";
     WorkerRequest demo.cfgC1
       (StreamLogs "default" "p1"
          {| corev1.Container := "step"; corev1.Follow := true;
             corev1.SinceTime := None; corev1.TailLines := None |});
     WsUpgrade; WsWrite "step one"; WsWrite "step two"].
Proof. vm_compute. reflexivity. Qed.

End Examples.


(** ** The resolver *)

Section Resolver.
Import kueuev1beta1.

Lemma ownerMatches_true pipelineRunName ownerRef :
  resolver.ownerMatches pipelineRunName ownerRef = true <->
  metav1.Kind ownerRef = "PipelineRun" /\ metav1.RefName ownerRef = pipelineRunName.
Proof.
  unfold resolver.ownerMatches.
  rewrite andb_true_iff, !String.eqb_eq. reflexivity.
Qed.

Lemma owned_true pipelineRunName workload :
  existsb (resolver.ownerMatches pipelineRunName)
          (metav1.OwnerReferences (WorkloadMeta workload)) = true
  <-> ownedBy pipelineRunName workload.
Proof.
  unfold ownedBy. rewrite existsb_exists.
  split; intros (o & Hin & Ho); exists o; split; auto;
    apply ownerMatches_true; auto.
Qed.

Lemma owned_false pipelineRunName workload :
  existsb (resolver.ownerMatches pipelineRunName)
          (metav1.OwnerReferences (WorkloadMeta workload)) = false
  <-> ~ ownedBy pipelineRunName workload.
Proof.
  rewrite <- owned_true. destruct (existsb _ _); split; intros; congruence.
Qed.

(** [List.find] returns the first element satisfying the test. *)
Lemma find_first {A} (f : A -> bool) before x after :
  (forall y, In y before -> f y = false) -> f x = true ->
  List.find f (before ++ x :: after) = Some x.
Proof.
  induction before as [|y before IH]; simpl; intros Hb Hx.
  - now rewrite Hx.
  - rewrite (Hb y) by auto. apply IH; auto.
Qed.

Lemma find_none {A} (f : A -> bool) l :
  (forall y, In y l -> f y = false) -> List.find f l = None.
Proof.
  induction l as [|y l IH]; simpl; intros Hl; [reflexivity|].
  rewrite (Hl y) by auto. apply IH; auto.
Qed.

Lemma findWorkload_first r namespace pipelineRunName items workload :
  kueueclient.WorkloadsList (resolver.kueueClient r) namespace = Ok items ->
  firstOwned pipelineRunName items workload ->
  resolver.findWorkloadByPipelineRun r namespace pipelineRunName = Ok (Some workload).
Proof.
  intros Hlist (before & after & -> & Hbefore & Hw).
  unfold resolver.findWorkloadByPipelineRun. rewrite Hlist. f_equal.
  apply find_first.
  - intros y Hy. apply owned_false. auto.
  - apply owned_true. exact Hw.
Qed.

Lemma findWorkload_none r namespace pipelineRunName items :
  kueueclient.WorkloadsList (resolver.kueueClient r) namespace = Ok items ->
  (forall workload, In workload items -> ~ ownedBy pipelineRunName workload) ->
  resolver.findWorkloadByPipelineRun r namespace pipelineRunName = Ok None.
Proof.
  intros Hlist Hnone.
  unfold resolver.findWorkloadByPipelineRun. rewrite Hlist. f_equal.
  apply find_none. intros y Hy. apply owned_false. auto.
Qed.



(** C1. [ResolveWorkerCluster] classifies by the workload found through a
    PipelineRun owner reference. When no workload of the namespace is owned
    by the PipelineRun it returns an error (not found). Otherwise, with
    [workload] the first owned one: if [Status.Admission] is unset the
    result is state [Dispatching] with the workload's name and no cluster
    name; if it is set the result is state [Admitted] with the workload's
    name and the cluster name of [Status.ClusterName], the empty string
    when that field is nil or empty, and never an error. *)
Theorem ResolveWorkerCluster_classifies r namespace pipelineRunName items :
  kueueclient.WorkloadsList (resolver.kueueClient r) namespace = Ok items ->
  ((forall workload, In workload items -> ~ ownedBy pipelineRunName workload) ->
   resolver.ResolveWorkerCluster r namespace pipelineRunName
   = Err ("no workload found for PipelineRun " +:+ namespace +:+ "/" +:+ pipelineRunName))
  /\
  (forall workload, firstOwned pipelineRunName items workload ->
     (Admission_ (Status workload) = None ->
      resolver.ResolveWorkerCluster r namespace pipelineRunName
      = Ok {| resolver.Name := "";
              resolver.State := "Dispatching";
              resolver.NominatedClusters := [];
              resolver.WorkloadName := metav1.Name (WorkloadMeta workload) |})
     /\
     (Admission_ (Status workload) <> None ->
      (forall clusterName,
         ClusterName (Status workload) = Some clusterName ->
         resolver.ResolveWorkerCluster r namespace pipelineRunName
         = Ok {| resolver.Name := clusterName;
                 resolver.State := "Admitted";
                 resolver.NominatedClusters := [];
                 resolver.WorkloadName := metav1.Name (WorkloadMeta workload) |})
      /\
      (ClusterName (Status workload) = None \/ ClusterName (Status workload) = Some "" ->
       resolver.ResolveWorkerCluster r namespace pipelineRunName
       = Ok {| resolver.Name := "";
               resolver.State := "Admitted";
               resolver.NominatedClusters := [];
               resolver.WorkloadName := metav1.Name (WorkloadMeta workload) |}))).
Proof.
  intros Hlist. split.
  - intros Hnone. unfold resolver.ResolveWorkerCluster.
    now rewrite (findWorkload_none _ _ _ _ Hlist Hnone).
  - intros workload Hfirst.
    unfold resolver.ResolveWorkerCluster.
    rewrite (findWorkload_first _ _ _ _ _ Hlist Hfirst).
    split; [intros -> ; reflexivity|].
    intros Hadm. destruct (Admission_ (Status workload)); [|congruence].
    split.
    + intros clusterName ->. reflexivity.
    + intros [-> | ->]; reflexivity.
Qed.

(** The deployment of [demo]: PipelineRun [deploy] is admitted to [c1],
    and the workload of [lint] is admitted without a cluster name. *)
Lemma ResolveWorkerCluster_classifies_witness :
  resolver.ResolveWorkerCluster (handlers.resolver_ demo.theServer) "default" "lint"
  = Ok {| resolver.Name := "";
          resolver.State := "Admitted";
          resolver.NominatedClusters := [];
          resolver.WorkloadName := "w4" |}.
Proof.
  destruct (ResolveWorkerCluster_classifies
              (handlers.resolver_ demo.theServer) "default" "lint" demo.workloads eq_refl)
    as [_ Hfound].
  refine (proj2 (proj2 (Hfound (demo.workload "w4" "lint" demo.admitted None) _)
                   ltac:(discriminate)) (or_introl eq_refl)).
  exists [demo.workload "w1" "build" None None;
          demo.workload "w2" "deploy" demo.admitted (Some "c1");
          demo.workload "w3" "test" demo.admitted (Some "c2")],
         [demo.workload "w5" "flaky" demo.admitted (Some "c3")].
  split; [reflexivity|]. split.
  - intros other Hin (o & Ho & _ & Hname).
    simpl in Hin. destruct Hin as [<-|[<-|[<-|[]]]];
      simpl in Ho; destruct Ho as [<-|[]]; discriminate Hname.
  - exists (demo.owner "lint"). simpl. auto.
Defined.

End Resolver.

(** ** The worker-config registry *)

Section Registry.
Import kueuev1beta1.
Implicit Types (m : gmap string rest.Config) (items : list MultiKueueCluster).

Lemma resolveCluster_None w r cluster :
  resolutionFails w r cluster <-> registry.resolveCluster w r cluster = None.
Proof.
  unfold resolutionFails, registry.resolveCluster.
  destruct (String.eqb_spec (LocationType (SpecKubeConfig cluster)) "Secret") as [Ht|Ht];
    simpl; [|tauto].
  destruct (String.eqb_spec (Location (SpecKubeConfig cluster)) "") as [Hl|Hl];
    [tauto|].
  destruct (kubernetes.SecretsGet _ _ _) as [secret|err].
  - destruct (corev1.Data secret !! "kubeconfig") as [kubeconfigData|] eqn:Hdata.
    + destruct (world.RESTConfigFromKubeConfig w kubeconfigData) as [cfg|err] eqn:Hparse.
      * split; [|discriminate].
        intros [?|[?|[[? ?]|[(? & ? & ?)|(s' & d & e & Hs & Hd & Hp)]]]];
          congruence.
      * split; [reflexivity|]. intros _. do 4 right.
        exists secret, kubeconfigData, err. auto.
    + split; [reflexivity|]. intros _. do 3 right. left. exists secret. auto.
  - split; [reflexivity|]. intros _. right. right. left. exists err. reflexivity.
Qed.

Lemma loadClusters_app w r items1 items2 m :
  registry.loadClusters w r (items1 ++ items2) m
  = registry.loadClusters w r items2 (registry.loadClusters w r items1 m).
Proof. unfold registry.loadClusters. apply foldl_app. Qed.

Lemma loadClusters_cons w r cluster items m :
  registry.loadClusters w r (cluster :: items) m
  = registry.loadClusters w r items (registry.loadCluster w r m cluster).
Proof. reflexivity. Qed.

Lemma loadCluster_failed w r m cluster :
  registry.resolveCluster w r cluster = None -> registry.loadCluster w r m cluster = m.
Proof. unfold registry.loadCluster. now intros ->. Qed.

(** A resync never removes an entry. *)
Lemma loadClusters_keeps w r items m name :
  is_Some (m !! name) -> is_Some (registry.loadClusters w r items m !! name).
Proof.
  revert m. induction items as [|cluster items IH]; intros m Hm; [exact Hm|].
  rewrite loadClusters_cons. apply IH.
  unfold registry.loadCluster. destruct (registry.resolveCluster w r cluster); [|exact Hm].
  rewrite lookup_insert. case_decide; eauto.
Qed.

(** A resync leaves alone the entries of clusters it does not list. *)
Lemma loadClusters_other w r items m name :
  (forall cluster, In cluster items -> clusterName cluster <> name) ->
  registry.loadClusters w r items m !! name = m !! name.
Proof.
  revert m. induction items as [|cluster items IH]; intros m Hne; [reflexivity|].
  rewrite loadClusters_cons, IH by (intros; apply Hne; now right).
  unfold registry.loadCluster. destruct (registry.resolveCluster w r cluster); [|reflexivity].
  apply lookup_insert_ne. apply (Hne cluster). now left.
Qed.

Lemma loadClusters_resolved w r items m cluster cfg :
  In cluster items -> registry.resolveCluster w r cluster = Some cfg ->
  is_Some (registry.loadClusters w r items m !! clusterName cluster).
Proof.
  revert m. induction items as [|c items IH]; intros m Hin Hres; [destruct Hin|].
  rewrite loadClusters_cons. destruct Hin as [->|Hin]; [|now apply IH].
  apply loadClusters_keeps. unfold registry.loadCluster. rewrite Hres.
  unfold clusterName. rewrite lookup_insert_eq. eauto.
Qed.

Lemma loadClusters_resolved_unique w r items m cluster cfg :
  NoDup (map clusterName items) ->
  In cluster items -> registry.resolveCluster w r cluster = Some cfg ->
  registry.loadClusters w r items m !! clusterName cluster = Some cfg.
Proof.
  revert m. induction items as [|c items IH]; intros m Hnd Hin Hres; [destruct Hin|].
  rewrite loadClusters_cons. simpl in Hnd. apply NoDup_cons in Hnd as [Hc Hnd].
  destruct Hin as [->|Hin]; [|now apply IH].
  rewrite loadClusters_other.
  - unfold registry.loadCluster. rewrite Hres. apply lookup_insert_eq.
  - intros other Hother Heq. apply Hc. rewrite <- Heq.
    apply list_elem_of_In, in_map, Hother.
Qed.

(** C7. During a resync, a cluster whose configuration cannot be resolved
    (a location type other than [Secret], an empty secret location, a
    missing secret, a secret without the [kubeconfig] key, an unparseable
    kubeconfig) is simply left out: [LoadConfigs] returns no error, the
    registry ends as it would had the listing not contained that cluster,
    and every other listed cluster that resolves has an entry afterwards,
    the resolved configuration itself when cluster names are distinct. *)
Theorem LoadConfigs_skips_unresolved w r before bad after :
  kueueclient.MultiKueueClustersList (registry.kueueClient r) = Ok (before ++ bad :: after) ->
  resolutionFails w r bad ->
  snd (registry.LoadConfigs w r) = None
  /\ registry.configs (fst (registry.LoadConfigs w r))
     = registry.loadClusters w r (before ++ after) (registry.configs r)
  /\ (forall cluster cfg,
        In cluster (before ++ after) ->
        registry.resolveCluster w r cluster = Some cfg ->
        is_Some (registry.configs (fst (registry.LoadConfigs w r)) !! clusterName cluster)
        /\ (NoDup (map clusterName (before ++ after)) ->
            registry.configs (fst (registry.LoadConfigs w r)) !! clusterName cluster
            = Some cfg)).
Proof.
  intros Hlist Hbad. apply resolveCluster_None in Hbad.
  assert (Hcfg : registry.configs (fst (registry.LoadConfigs w r))
                 = registry.loadClusters w r (before ++ after) (registry.configs r)).
  { unfold registry.LoadConfigs. rewrite Hlist. simpl.
    rewrite !loadClusters_app, loadClusters_cons.
    now rewrite (loadCluster_failed _ _ _ _ Hbad). }
  split; [|split].
  - unfold registry.LoadConfigs. now rewrite Hlist.
  - exact Hcfg.
  - intros cluster cfg Hin Hres. rewrite Hcfg. split.
    + eapply loadClusters_resolved; eauto.
    + intros Hnd. now apply loadClusters_resolved_unique.
Qed.

(** In [demo] the listing is [c1; c2; c3] and [c2] has location type
    [Path]: the resync succeeds and [c3], listed after it, is loaded. *)
Lemma LoadConfigs_skips_unresolved_witness :
  snd (registry.LoadConfigs demo.theWorld demo.emptyRegistry) = None
  /\ registry.configs (fst (registry.LoadConfigs demo.theWorld demo.emptyRegistry)) !! "c3"
     = Some demo.cfgC3.
Proof.
  destruct (LoadConfigs_skips_unresolved demo.theWorld demo.emptyRegistry
              [demo.cluster "c1" "Secret" "c1-secret"]
              (demo.cluster "c2" "Path" "/etc/c2.kubeconfig")
              [demo.cluster "c3" "Secret" "c3-secret"]
              eq_refl ltac:(left; discriminate))
    as (Herr & _ & Hrest).
  split; [exact Herr|].
  refine (proj2 (Hrest (demo.cluster "c3" "Secret" "c3-secret") demo.cfgC3 _ _) _).
  - simpl. auto.
  - vm_compute. reflexivity.
  - simpl. repeat constructor; rewrite ?list_elem_of_In; simpl; intuition discriminate.
Defined.


Lemma handleEvent_deleted w r event cluster :
  watch.EventType event = "DELETED" ->
  watch.Object_ event = watch.ClusterObject cluster ->
  registry.configs (registry.handleEvent w r event)
  = delete (clusterName cluster) (registry.configs r).
Proof.
  intros Ht Ho. unfold registry.handleEvent. rewrite Ht, Ho. reflexivity.
Qed.





End Registry.

(** ** Paths and headers *)

Section Strings.

Lemma append_String c (a b : string) : String c a +:+ b = String c (a +:+ b).
Proof. reflexivity. Qed.

Lemma append_assoc_string (a b c : string) : (a +:+ b) +:+ c = a +:+ (b +:+ c).
Proof.
  induction a as [|x a IH]; [reflexivity|].
  now rewrite !append_String, IH.
Qed.

Lemma HasPrefix_app prefix s : strings.HasPrefix (prefix +:+ s) prefix = true.
Proof.
  induction prefix as [|c prefix IH]; simpl; [reflexivity|].
  now rewrite Ascii.eqb_refl.
Qed.

Lemma dropBytes_app prefix s : strings.dropBytes (String.length prefix) (prefix +:+ s) = s.
Proof. induction prefix as [|c prefix IH]; simpl; [reflexivity | exact IH]. Qed.

Lemma TrimPrefix_app prefix s : strings.TrimPrefix (prefix +:+ s) prefix = s.
Proof. unfold strings.TrimPrefix. now rewrite HasPrefix_app, dropBytes_app. Qed.

Lemma HasPrefix_inv prefix : forall s,
  strings.HasPrefix s prefix = true ->
  s = prefix +:+ strings.dropBytes (String.length prefix) s.
Proof.
  induction prefix as [|c prefix IH]; intros s H; [reflexivity|].
  destruct s as [|c' s]; simpl in H; [discriminate|].
  apply andb_true_iff in H as [Hc Hs]. apply Ascii.eqb_eq in Hc as ->.
  change (String c s = String c (prefix +:+ strings.dropBytes (String.length prefix) s)).
  f_equal. now apply IH.
Qed.

Lemma Split_nonempty s sep : strings.Split s sep <> [].
Proof.
  destruct s as [|c s]; simpl; [discriminate|].
  destruct (Ascii.eqb c sep); [discriminate|].
  destruct (strings.Split s sep); discriminate.
Qed.

(** A piece without the separator, followed by the separator, is the first
    piece of the split. *)
Lemma Split_cons sep piece s :
  hasByte sep piece = false ->
  strings.Split (piece +:+ String sep s) sep = piece :: strings.Split s sep.
Proof.
  induction piece as [|c piece IH]; simpl; intros H.
  - now rewrite Ascii.eqb_refl.
  - apply orb_false_iff in H as [Hc Hp]. rewrite Hc, (IH Hp). reflexivity.
Qed.

Lemma Split_length_2 sep piece s :
  hasByte sep piece = false ->
  (2 <= length (strings.Split (piece +:+ String sep s) sep))%nat.
Proof.
  intros H. rewrite (Split_cons _ _ _ H).
  pose proof (Split_nonempty s sep). destruct (strings.Split s sep); simpl; [congruence | lia].
Qed.

(** Joining the pieces of a split with the separator gives the string
    back. *)
Lemma Join_Split sep s :
  strings.Join (strings.Split s sep) (String sep EmptyString) = s.
Proof.
  induction s as [|c s IH]; [reflexivity|].
  simpl. destruct (Ascii.eqb_spec c sep) as [->|Hc].
  - pose proof (Split_nonempty s sep).
    simpl. destruct (strings.Split s sep) as [|piece rest] eqn:E; [congruence|].
    simpl in *. now rewrite IH.
  - pose proof (Split_nonempty s sep).
    destruct (strings.Split s sep) as [|piece rest] eqn:E; [congruence|].
    simpl in *. destruct rest; simpl in *; now rewrite <- IH.
Qed.

(** The namespace and the resource path the router reads off an API
    path. *)
Lemma router_parse namespace resourcePath :
  hasByte "/" namespace = false ->
  let pathParts :=
    strings.Split
      (strings.TrimPrefix ("/api/v1/namespaces/" +:+ namespace +:+ "/" +:+ resourcePath)
         "/api/v1/namespaces/") "/" in
  (length pathParts <? 2)%nat = false
  /\ nth 0 pathParts EmptyString = namespace
  /\ strings.Join (drop 1 pathParts) "/" = resourcePath.
Proof.
  intros Hns pathParts. subst pathParts.
  rewrite TrimPrefix_app.
  change (namespace +:+ "/" +:+ resourcePath) with (namespace +:+ String "/" resourcePath).
  split; [|split].
  - apply Nat.ltb_ge. now apply Split_length_2.
  - now rewrite Split_cons.
  - rewrite Split_cons by assumption. simpl drop. apply Join_Split.
Qed.

(** A resource path that starts with [prefix/] has at least two segments. *)
Lemma prefixed_has_two_segments resourcePath prefix :
  hasByte "/" prefix = false ->
  strings.HasPrefix resourcePath (prefix +:+ "/") = true ->
  (length (strings.Split resourcePath "/") <? 2)%nat = false.
Proof.
  intros Hp H. apply HasPrefix_inv in H. rewrite H.
  rewrite append_assoc_string. apply Nat.ltb_ge.
  now apply (Split_length_2 "/" prefix).
Qed.

Lemma noCredential_no_token r : noCredential r -> authz.extractBearerToken r = "".
Proof.
  unfold noCredential, authz.extractBearerToken.
  destruct (String.eqb_spec (http.HeaderGet r "Authorization") "") as [|Hh]; [reflexivity|].
  intros [H|[H|H]]; [contradiction| |].
  - apply Nat.eqb_neq in H. now rewrite H.
  - apply String.eqb_neq in H. rewrite H. simpl. now rewrite orb_true_r.
Qed.

End Strings.

(** ** The request router *)

Section Router.
Import handlers.

#[local] Arguments resolver.ResolveWorkerCluster : simpl never.
#[local] Arguments handlePipelineRunRequest : simpl never.
#[local] Arguments handlePodRequest : simpl never.
#[local] Arguments handleLogsRequest : simpl never.
#[local] Arguments handleResolve : simpl never.
#[local] Arguments registry.GetConfig : simpl never.
#[local] Arguments String.eqb : simpl never.
#[local] Arguments strconv.ParseInt : simpl never.
#[local] Arguments strconv.wrap64 : simpl never.
#[local] Arguments Z.mul : simpl never.

(** Running a handler: unfold the monad and its operations. *)
Ltac run :=
  repeat progress
    (unfold mbind, M_bind, bind, mret, M_ret, ret, ResolveWorkerCluster, emit, emitAll,
       onWriter, when, orReturn, ifErr, return_, panic, HeaderSet, WriteHeader, Write,
       Encode, Error_, check, kubernetesNewForConfigOrDie, tektonNewForConfigOrDie;
     cbn).

(** The status line of a response whose header had not been written. *)
Ltac answered H :=
  unfold http.status, http.sentHeader, http.write, http.writeHeader, http.hijack,
    http.setHeader;
  cbn; rewrite ?H; cbn.

Lemma GetConfig_missing r clusterName :
  registry.configs r !! clusterName = None ->
  registry.GetConfig r clusterName
  = Err ("worker config not found for cluster: " +:+ clusterName).
Proof. unfold registry.GetConfig. now intros ->. Qed.

Lemma GetConfig_found r clusterName cfg :
  registry.configs r !! clusterName = Some cfg ->
  registry.GetConfig r clusterName = Ok cfg.
Proof. unfold registry.GetConfig. now intros ->. Qed.

(** C4. A sub-resource request (taskruns, pods, pod status, logs fetch,
    logs stream) whose PipelineRun resolves to a state other than
    [Admitted] is answered 409, and one that resolves to [Admitted] with a
    cluster name absent from the registry is answered 424; in both cases
    the only call the handler adds to the trace is the resolver's listing
    on the hub, so no worker cluster is contacted. *)
Theorem pending_or_unregistered_stops_before_worker
  w p r namespace k workerCluster s :
  http.wroteHeader (rw s) = None ->
  consults r k ->
  resolver.ResolveWorkerCluster (resolver_ p) namespace (jobName r k) = Ok workerCluster ->
  (resolver.State workerCluster <> "Admitted" ->
   http.status (rw (fst (subHandler w p r namespace k s))) = 409
   /\ trace (fst (subHandler w p r namespace k s))
      = trace s ++ [HubListWorkloads namespace])
  /\
  (resolver.State workerCluster = "Admitted" ->
   registry.configs (workerRegistry p) !! resolver.Name workerCluster = None ->
   http.status (rw (fst (subHandler w p r namespace k s))) = 424
   /\ trace (fst (subHandler w p r namespace k s))
      = trace s ++ [HubListWorkloads namespace]).
Proof.
  intros Hw Hq Hres. split.
  - intros Hst.
    destruct k; simpl in Hq, Hres; simpl subHandler;
      unfold handleTaskRuns, handlePipelineRunPods, handlePodStatus, handleLogsFetch,
        handleLogsStream; run;
      try (destruct (String.eqb_spec (http.QueryGet r "pipelineRun") "") as [|_];
           [contradiction|]; run);
      rewrite Hres; run;
      (destruct (String.eqb_spec (resolver.State workerCluster) "Admitted") as [|_];
       [contradiction|]); run; answered Hw; auto.
  - intros Hst Hcfg. apply GetConfig_missing in Hcfg.
    destruct k; simpl in Hq, Hres; simpl subHandler;
      unfold handleTaskRuns, handlePipelineRunPods, handlePodStatus, handleLogsFetch,
        handleLogsStream; run;
      try (destruct (String.eqb_spec (http.QueryGet r "pipelineRun") "") as [|_];
           [contradiction|]; run);
      rewrite Hres; run;
      (destruct (String.eqb_spec (resolver.State workerCluster) "Admitted") as [_|];
       [|contradiction]); run; rewrite Hcfg; run; answered Hw; auto.
Qed.

(** In [demo], PipelineRun [build] is still dispatching and [test] is
    admitted to [c2], which the registry does not hold. *)
Lemma pending_or_unregistered_stops_before_worker_witness :
  (http.status
     (rw (fst (subHandler demo.theWorld demo.theServer
                 (demo.request "/api/v1/namespaces/default/pipelineruns/build/taskruns" [] "")
                 "default" (TaskRuns "build") start))) = 409)
  /\
  (http.status
     (rw (fst (subHandler demo.theWorld demo.theServer
                 (demo.request "/api/v1/namespaces/default/logs"
                    [("pipelineRun", "test"); ("pod", "p1")] "")
                 "default" (LogsFetch "p1" "") start))) = 424).
Proof.
  split.
  - refine (proj1 (proj1 (pending_or_unregistered_stops_before_worker
                            demo.theWorld demo.theServer _ "default" (TaskRuns "build")
                            _ start eq_refl I _) _)).
    + vm_compute. reflexivity.
    + vm_compute. discriminate.
  - refine (proj1 (proj2 (pending_or_unregistered_stops_before_worker
                            demo.theWorld demo.theServer _ "default" (LogsFetch "p1" "")
                            _ start eq_refl _ _) _ _)).
    + vm_compute. discriminate.
    + vm_compute. reflexivity.
    + vm_compute. reflexivity.
    + vm_compute. reflexivity.
Defined.

(** C5. What the handlers do when the worker cluster fails the call: the
    request is answered 500 (and neither 502 nor 504) after exactly one
    worker request. *)
Theorem worker_failure_is_answered_500
  w p r namespace k workerCluster workerConfig s :
  http.wroteHeader (rw s) = None ->
  consults r k ->
  resolver.ResolveWorkerCluster (resolver_ p) namespace (jobName r k) = Ok workerCluster ->
  resolver.State workerCluster = "Admitted" ->
  registry.configs (workerRegistry p) !! resolver.Name workerCluster = Some workerConfig ->
  rejects w workerConfig namespace k ->
  http.status (rw (fst (subHandler w p r namespace k s))) = 500
  /\ exists call,
       trace (fst (subHandler w p r namespace k s))
       = trace s ++ [HubListWorkloads namespace; WorkerRequest workerConfig call].
Proof.
  intros Hw Hq Hres Hst Hcfg Hrej. apply GetConfig_found in Hcfg.
  destruct k; simpl in Hq, Hres, Hrej; simpl subHandler;
    unfold handleTaskRuns, handlePipelineRunPods, handlePodStatus, handleLogsFetch,
      handleLogsStream; run;
    try (destruct (String.eqb_spec (http.QueryGet r "pipelineRun") "") as [|_];
         [contradiction|]; run);
    rewrite Hres; run;
    (destruct (String.eqb_spec (resolver.State workerCluster) "Admitted") as [_|];
     [|contradiction]); run; rewrite Hcfg; run.
  1-3: destruct Hrej as (client & err & -> & Hcall); run; rewrite Hcall; run;
       answered Hw; rewrite <- app_assoc; eauto.
  all: destruct Hrej as (client & -> & Hcall); run;
    match goal with
    | |- context [kubernetes.PodsGetLogsStream _ _ _ ?o] =>
        destruct (Hcall o) as [err ->]
    end; run; answered Hw; rewrite <- app_assoc; eauto.
Qed.

(** In [demo], PipelineRun [flaky] is admitted to [c3], which refuses every
    call: its task-run listing is answered 500. *)
Lemma worker_failure_is_answered_500_witness :
  let s' := fst (subHandler demo.theWorld demo.theServer
                   (demo.request "/api/v1/namespaces/default/pipelineruns/flaky/taskruns" [] "")
                   "default" (TaskRuns "flaky") start) in
  http.status (rw s') = 500
  /\ http.status (rw s') <> http.StatusBadGateway
  /\ http.status (rw s') <> http.StatusGatewayTimeout.
Proof.
  intros s'.
  assert (H : http.status (rw s') = 500).
  { refine (proj1 (worker_failure_is_answered_500
                     demo.theWorld demo.theServer _ "default" (TaskRuns "flaky")
                     _ demo.cfgC3 start eq_refl I _ _ _ _)).
    - vm_compute. reflexivity.
    - vm_compute. reflexivity.
    - vm_compute. reflexivity.
    - eexists _, "connection refused". split; vm_compute; reflexivity. }
  rewrite H. repeat split; discriminate.
Defined.

(** The relay loop writes frames, not the response. *)
Lemma relay_rw conn logs : forall i s, rw (fst (relay conn i logs s)) = rw s.
Proof.
  induction logs as [|rr logs IH]; intros i s; [reflexivity|].
  simpl. destruct (corev1.readErr rr); [reflexivity|]. run.
  destruct (websocket.WriteMessage conn i (corev1.data rr)); [reflexivity|].
  now rewrite IH.
Qed.

(** [io.Copy] leaves the status line and the sent headers as written. *)
Lemma ioCopy_wroteHeader logs : forall s sent,
  http.wroteHeader (rw s) = Some sent ->
  http.wroteHeader (rw (fst (ioCopy logs s))) = Some sent.
Proof.
  induction logs as [|rr logs IH]; intros s sent Hs; [exact Hs|].
  simpl. run.
  destruct (negb (String.eqb (corev1.data rr) "")); run;
    destruct (corev1.readErr rr); run; try apply IH; cbn;
    unfold http.write, http.writeHeader; cbn; rewrite ?Hs; cbn; auto.
Qed.

(** Four of the five operations carry the header: the successful task-run
    list, pod list, pod status and log fetch are answered 200 with the
    resolved cluster name in [X-Worker-Cluster]. *)
Lemma data_responses_carry_worker_header
  w p r namespace k workerCluster workerConfig s :
  http.wroteHeader (rw s) = None ->
  consults r k ->
  resolver.ResolveWorkerCluster (resolver_ p) namespace (jobName r k) = Ok workerCluster ->
  resolver.State workerCluster = "Admitted" ->
  registry.configs (workerRegistry p) !! resolver.Name workerCluster = Some workerConfig ->
  serves w workerConfig namespace k ->
  (forall podName containerName, k <> LogsStream podName containerName) ->
  http.status (rw (fst (subHandler w p r namespace k s))) = 200
  /\ http.sentHeader (rw (fst (subHandler w p r namespace k s))) !! "X-Worker-Cluster"
     = Some (resolver.Name workerCluster).
Proof.
  intros Hw Hq Hres Hst Hcfg Hok Hk. apply GetConfig_found in Hcfg.
  destruct k; simpl in Hq, Hres, Hok; simpl subHandler;
    [ | | | |exfalso; eapply Hk; reflexivity];
    unfold handleTaskRuns, handlePipelineRunPods, handlePodStatus, handleLogsFetch; run;
    try (destruct (String.eqb_spec (http.QueryGet r "pipelineRun") "") as [|_];
         [contradiction|]; run);
    rewrite Hres; run;
    (destruct (String.eqb_spec (resolver.State workerCluster) "Admitted") as [_|];
     [|contradiction]); run; rewrite Hcfg; run.
  1-3: destruct Hok as (client & answer & -> & Hcall); run; rewrite Hcall; run;
       answered Hw; rewrite lookup_insert_eq; auto.
  destruct Hok as (client & -> & Hcall); run.
  match goal with
  | |- context [kubernetes.PodsGetLogsStream _ _ _ ?o] =>
      destruct (Hcall o) as [logs ->]
  end. run.
  match goal with
  | |- context [ioCopy ?l ?s0] =>
      pose proof (ioCopy_wroteHeader l s0 _ ltac:(cbn; unfold http.writeHeader; cbn;
                                                     rewrite Hw; reflexivity)) as Hsent
  end.
  unfold http.status, http.sentHeader. rewrite Hsent. cbn.
  rewrite lookup_insert_eq. auto.
Qed.

(** C6. The log stream is the operation that does not carry the header:
    no response of [handleLogsStream] has [X-Worker-Cluster], whatever the
    request, the deployment and the worker cluster that served it. *)
Theorem stream_response_lacks_worker_header w p r namespace podName containerName s :
  http.wroteHeader (rw s) = None ->
  http.header (rw s) !! "X-Worker-Cluster" = None ->
  http.sentHeader
    (rw (fst (handleLogsStream w p r namespace podName containerName s)))
  !! "X-Worker-Cluster" = None.
Proof.
  intros Hw Hh. unfold handleLogsStream. run.
  destruct (String.eqb (http.QueryGet r "pipelineRun") ""); run;
    [answered Hw; rewrite !lookup_insert_ne by discriminate; exact Hh|].
  destruct (resolver.ResolveWorkerCluster _ _ _) as [workerCluster|err]; run;
    [|answered Hw; rewrite !lookup_insert_ne by discriminate; exact Hh].
  destruct (negb (String.eqb (resolver.State workerCluster) "Admitted")); run;
    [answered Hw; rewrite !lookup_insert_ne by discriminate; exact Hh|].
  destruct (registry.GetConfig _ _) as [workerConfig|err]; run;
    [|answered Hw; rewrite !lookup_insert_ne by discriminate; exact Hh].
  destruct (world.kubernetesNewForConfig w workerConfig) as [client|err]; run;
    [|answered Hw; exact Hh].
  destruct (kubernetes.PodsGetLogsStream _ _ _ _) as [logs|err]; run;
    [|answered Hw; rewrite !lookup_insert_ne by discriminate; exact Hh].
  destruct (world.Upgrade w r) as [conn acceptKey|code reason]; run.
  - rewrite relay_rw. answered Hw. unfold websocket.handshake.
    rewrite !lookup_insert_ne by discriminate. apply lookup_empty.
  - answered Hw. rewrite !lookup_insert_ne by discriminate. exact Hh.
Qed.

(** In [demo], the log stream of PipelineRun [deploy] is served by [c1]:
    the handshake answers 101, the trace shows the request to [c1], and the
    response has no [X-Worker-Cluster] header. *)
Lemma stream_response_lacks_worker_header_witness :
  let s' := fst (handleLogsStream demo.theWorld demo.theServer
                   (demo.request "/api/v1/namespaces/default/logs/stream"
                      [("pipelineRun", "deploy"); ("pod", "p1")] "Bearer alice")
                   "default" "p1" "" start) in
  http.sentHeader (rw s') !! "X-Worker-Cluster" = None
  /\ http.status (rw s') = 101
  /\ existsb isWorkerRequest (trace s') = true.
Proof.
  intros s'. split; [|split].
  - exact (stream_response_lacks_worker_header demo.theWorld demo.theServer _
             "default" "p1" "" start eq_refl eq_refl).
  - vm_compute. reflexivity.
  - vm_compute. reflexivity.
Defined.

(** *** Authorization comes first *)

Lemma serving_ret {A} (a : A) : serving (ret a).
Proof. intros s. exists []. simpl. now rewrite app_nil_r. Qed.

Lemma serving_return {A} : serving (@return_ A).
Proof. intros s. exists []. simpl. now rewrite app_nil_r. Qed.

Lemma serving_panic {A} msg : serving (@panic A msg).
Proof. intros s. exists []. simpl. now rewrite app_nil_r. Qed.

Lemma serving_onWriter f : serving (onWriter f).
Proof. intros s. exists []. simpl. now rewrite app_nil_r. Qed.

Lemma serving_emit e : isBackend e = true -> serving (emit e).
Proof. intros He s. exists [e]. simpl. auto. Qed.

Lemma serving_bind {A B} (m : M A) (k : A -> M B) :
  serving m -> (forall a, serving (k a)) -> serving (m ≫= k).
Proof.
  intros Hm Hk s. unfold mbind, M_bind, bind.
  destruct (Hm s) as (added1 & H1 & F1).
  destruct (m s) as [s1 [a| |msg]]; simpl in *.
  - destruct (Hk a s1) as (added2 & H2 & F2).
    exists (added1 ++ added2). rewrite H2, H1, app_assoc. split; [reflexivity|].
    apply Forall_app; auto.
  - exists added1. auto.
  - exists added1. auto.
Qed.

Lemma serving_ioCopy logs : serving (ioCopy logs).
Proof.
  induction logs as [|rr logs IH]; simpl; [apply serving_ret|].
  apply serving_bind.
  - unfold when. destruct (negb _); [apply serving_onWriter | apply serving_ret].
  - intros _. destruct (corev1.readErr rr); [apply serving_ret | exact IH].
Qed.

Lemma serving_relay conn logs : forall i, serving (relay conn i logs).
Proof.
  induction logs as [|rr logs IH]; intros i; simpl; [apply serving_ret|].
  destruct (corev1.readErr rr); [apply serving_ret|].
  apply serving_bind; [now apply serving_emit|].
  intros _. destruct (websocket.WriteMessage conn i (corev1.data rr));
    [apply serving_ret | apply IH].
Qed.

(** Stepping through a handler: every operation is [serving]. *)
Ltac serving_step :=
  first
    [ apply serving_bind; [|intros ?]
    | apply serving_ret
    | apply (serving_ret tt)
    | apply serving_return
    | apply serving_panic
    | apply serving_onWriter
    | apply serving_emit; reflexivity
    | apply serving_ioCopy
    | apply serving_relay
    | match goal with
      | |- serving (match ?x with _ => _ end) => destruct x
      end ].

Ltac serving_all :=
  unfold ResolveWorkerCluster, when, orReturn, ifErr, HeaderSet, WriteHeader, Write,
    Encode, Error_, kubernetesNewForConfigOrDie, tektonNewForConfigOrDie;
  cbv zeta; repeat serving_step.

Lemma serving_Error msg code : serving (Error_ msg code).
Proof. serving_all. Qed.

Lemma serving_handleResolve p r namespace pipelineRunName :
  serving (handleResolve p r namespace pipelineRunName).
Proof. unfold handleResolve. serving_all. Qed.

Lemma serving_subHandler w p r namespace k : serving (subHandler w p r namespace k).
Proof.
  destruct k; simpl;
    unfold handleTaskRuns, handlePipelineRunPods, handlePodStatus, handleLogsFetch,
      handleLogsStream; serving_all.
Qed.

(** The three outcomes of an access check. *)
Lemma reviewAccess_cases w r attrs subject :
  (authz.extractBearerToken r = "" ->
   authz.reviewAccess w r attrs subject = ([], Some "no authorization token provided"))
  /\ (forall err,
        snd (authz.reviewAccess w r attrs subject) = Some err ->
        Forall (fun e => isBackend e = false) (fst (authz.reviewAccess w r attrs subject)))
  /\ (snd (authz.reviewAccess w r attrs subject) = None ->
      exists callerConfig,
        fst (authz.reviewAccess w r attrs subject) = [HubAccessReview callerConfig attrs]
        /\ rest.BearerToken callerConfig = authz.extractBearerToken r
        /\ authz.extractBearerToken r <> ""
        /\ granted w callerConfig attrs).
Proof.
  unfold authz.reviewAccess, granted.
  destruct (String.eqb_spec (authz.extractBearerToken r) "") as [Ht|Ht].
  - repeat split; simpl; auto; discriminate.
  - split; [contradiction|].
    destruct (world.kubernetesNewForConfig w _) as [client|err] eqn:Hclient; simpl.
    + destruct (kubernetes.SelfSubjectAccessReviewsCreate client attrs)
        as [review|err] eqn:Hreview; simpl.
      * destruct (authorizationv1.Allowed review) eqn:Hallowed; simpl.
        -- split; [discriminate|]. intros _. eexists. split; [reflexivity|].
           repeat split; auto. exists client, review. auto.
        -- split; [|discriminate]. intros _ _. repeat constructor.
      * split; [|discriminate]. intros _ _. repeat constructor.
    + split; [|discriminate]. intros _ _. constructor.
Qed.

(** After its check, a route handler is [guarded]. *)
Lemma guarded_after_check w r attrs subject (tail : M unit) :
  serving tail ->
  guarded w r
    (fst ((denied ← check (authz.reviewAccess w r attrs subject);
           ifErr denied (fun err => Error_ ("Access denied: " +:+ err) http.StatusForbidden);;
           tail) start)).
Proof.
  intros Htail. right. exists attrs, subject.
  destruct (authz.reviewAccess w r attrs subject) as [evs [err|]]; simpl.
  - split; [|discriminate]. intros _ _. run. answered (@eq_refl (option (Z * gmap string string)) None). auto.
  - split; [discriminate|]. intros _. run.
    destruct (Htail {| rw := http.newResponseWriter; trace := evs |}) as (added & -> & F).
    eauto.
Qed.

Lemma guarded_handlePipelineRunRequest w p r namespace resourcePath :
  guarded w r (fst (handlePipelineRunRequest w p r namespace resourcePath start)).
Proof.
  unfold handlePipelineRunRequest. cbv zeta.
  destruct (length (strings.Split resourcePath "/") <? 2)%nat.
  - left. run. answered (@eq_refl (option (Z * gmap string string)) None). auto.
  - apply (guarded_after_check w r).
    repeat match goal with
           | |- serving (if ?b then _ else _) => destruct b
           end;
      [apply serving_handleResolve
      | apply (serving_subHandler w p r namespace (TaskRuns _))
      | apply (serving_subHandler w p r namespace (PipelineRunPods _))
      | apply serving_Error].
Qed.

Lemma guarded_handlePodRequest w p r namespace resourcePath :
  guarded w r (fst (handlePodRequest w p r namespace resourcePath start)).
Proof.
  unfold handlePodRequest. cbv zeta.
  destruct (length (strings.Split resourcePath "/") <? 2)%nat.
  - left. run. answered (@eq_refl (option (Z * gmap string string)) None). auto.
  - apply (guarded_after_check w r).
    match goal with
    | |- serving (if ?b then _ else _) => destruct b
    end;
      [apply (serving_subHandler w p r namespace (PodStatus _)) | apply serving_Error].
Qed.

Lemma guarded_handleLogsRequest w p r namespace resourcePath :
  guarded w r (fst (handleLogsRequest w p r namespace resourcePath start)).
Proof.
  unfold handleLogsRequest. cbv zeta.
  destruct (String.eqb (http.QueryGet r "pod") "").
  - left. run. answered (@eq_refl (option (Z * gmap string string)) None). auto.
  - apply (guarded_after_check w r).
    match goal with
    | |- serving (if ?b then _ else _) => destruct b
    end;
      [apply (serving_subHandler w p r namespace (LogsStream _ _))
      | apply (serving_subHandler w p r namespace (LogsFetch _ _))].
Qed.

Lemma guarded_handleNamespaceRequest w p r :
  guarded w r (fst (serve (handleNamespaceRequest w p r))).
Proof.
  unfold serve, handleNamespaceRequest. cbv zeta.
  destruct (length _ <? 2)%nat.
  - left. run. answered (@eq_refl (option (Z * gmap string string)) None). auto.
  - change (when false ?m ;; ?k) with (ret tt ;; k).
    unfold mbind at 1, M_bind at 1, bind at 1, ret at 1. cbv beta iota.
    repeat match goal with
           | |- guarded _ _ (fst ((if ?b then _ else _) _)) => destruct b
           end.
    + apply guarded_handlePipelineRunRequest.
    + apply guarded_handlePodRequest.
    + apply guarded_handleLogsRequest.
    + left. run. answered (@eq_refl (option (Z * gmap string string)) None). auto.
Qed.

Lemma fresh : http.wroteHeader http.newResponseWriter = None.
Proof. reflexivity. Qed.

(** On an API path the router hands the namespace and the resource path to
    the handler of the route. *)
Lemma handleNamespaceRequest_routes w p r namespace resourcePath :
  http.Path r = "/api/v1/namespaces/" +:+ namespace +:+ "/" +:+ resourcePath ->
  hasByte "/" namespace = false ->
  handleNamespaceRequest w p r start
  = (if strings.HasPrefix resourcePath "pipelineruns/"
     then handlePipelineRunRequest w p r namespace resourcePath
     else if strings.HasPrefix resourcePath "pods/"
     then handlePodRequest w p r namespace resourcePath
     else if strings.HasPrefix resourcePath "logs"
     then handleLogsRequest w p r namespace resourcePath
     else Error_ "Unknown resource" http.StatusNotFound) start.
Proof.
  intros Hpath Hns. unfold handleNamespaceRequest. rewrite Hpath.
  destruct (router_parse namespace resourcePath Hns) as (H1 & H2 & H3).
  cbv zeta in *. rewrite H1, H2, H3. reflexivity.
Qed.

Lemma no_token_pipelinerun w p r namespace resourcePath :
  strings.HasPrefix resourcePath "pipelineruns/" = true ->
  authz.extractBearerToken r = "" ->
  http.status (rw (fst (handlePipelineRunRequest w p r namespace resourcePath start))) = 403.
Proof.
  intros Hrp Htoken. unfold handlePipelineRunRequest. cbv zeta.
  rewrite (prefixed_has_two_segments resourcePath "pipelineruns" eq_refl Hrp).
  unfold authz.CheckPipelineRunAccess.
  rewrite (proj1 (reviewAccess_cases w r _ _) Htoken). run. now answered fresh.
Qed.

Lemma no_token_pod w p r namespace resourcePath :
  strings.HasPrefix resourcePath "pods/" = true ->
  authz.extractBearerToken r = "" ->
  http.status (rw (fst (handlePodRequest w p r namespace resourcePath start))) = 403.
Proof.
  intros Hrp Htoken. unfold handlePodRequest. cbv zeta.
  rewrite (prefixed_has_two_segments resourcePath "pods" eq_refl Hrp).
  unfold authz.CheckPodAccess.
  rewrite (proj1 (reviewAccess_cases w r _ _) Htoken). run. now answered fresh.
Qed.

Lemma no_token_logs w p r namespace resourcePath :
  http.QueryGet r "pod" <> "" ->
  authz.extractBearerToken r = "" ->
  http.status (rw (fst (handleLogsRequest w p r namespace resourcePath start))) = 403.
Proof.
  intros Hpod Htoken. unfold handleLogsRequest. cbv zeta.
  destruct (String.eqb_spec (http.QueryGet r "pod") "") as [|_]; [contradiction|].
  unfold authz.CheckPodLogsAccess.
  rewrite (proj1 (reviewAccess_cases w r _ _) Htoken). run. now answered fresh.
Qed.

Lemma missing_pod_logs w p r namespace resourcePath :
  http.QueryGet r "pod" = "" ->
  handleLogsRequest w p r namespace resourcePath start
  = ({| rw := http.write
               (http.writeHeader
                  (http.setHeader
                     (http.setHeader http.newResponseWriter
                        "Content-Type" "text/plain; charset=utf-8")
                     "X-Content-Type-Options" "nosniff")
                  http.StatusBadRequest)
               (http.Bytes ("Pod name is required" +:+ newline));
         trace := [] |}, Returned).
Proof.
  intros Hpod. unfold handleLogsRequest. cbv zeta. rewrite Hpod. run. reflexivity.
Qed.

(** C2, as the code has it. Every request on the API is [guarded]: it is
    either answered 400 or 404 before any check, with no call made, or
    checked once with the caller's credential. Hence every resolver lookup
    and worker request in the trace comes after an access review, submitted
    with the caller's own bearer token, that allowed the access; and a
    review that did not allow it is answered 403 with no backend call. A
    request whose [Authorization] header is absent, empty or not a two-part
    bearer value carries no token, makes no call at all, and is answered
    403 on every pipelinerun path, every pod path and every logs path with a
    [pod] parameter; a logs request without the [pod] parameter is answered
    400 before the header is read. *)
Theorem authorization_precedes_backend w p r :
  guarded w r (fst (serve (handleNamespaceRequest w p r)))
  /\ (forall before e after,
        trace (fst (serve (handleNamespaceRequest w p r))) = before ++ e :: after ->
        isBackend e = true ->
        exists callerConfig attrs,
          In (HubAccessReview callerConfig attrs) before
          /\ rest.BearerToken callerConfig = authz.extractBearerToken r
          /\ authz.extractBearerToken r <> ""
          /\ granted w callerConfig attrs)
  /\ (forall callerConfig attrs,
        In (HubAccessReview callerConfig attrs)
           (trace (fst (serve (handleNamespaceRequest w p r)))) ->
        ~ granted w callerConfig attrs ->
        http.status (rw (fst (serve (handleNamespaceRequest w p r)))) = 403
        /\ Forall (fun e => isBackend e = false)
                  (trace (fst (serve (handleNamespaceRequest w p r)))))
  /\ (noCredential r -> authz.extractBearerToken r = "")
  /\ (authz.extractBearerToken r = "" ->
      trace (fst (serve (handleNamespaceRequest w p r))) = []
      /\ forall namespace resourcePath,
           apiRequest r namespace resourcePath ->
           (strings.HasPrefix resourcePath "pipelineruns/" = true
            \/ strings.HasPrefix resourcePath "pods/" = true
            \/ http.QueryGet r "pod" <> "" ->
            http.status (rw (fst (serve (handleNamespaceRequest w p r)))) = 403)
           /\ (strings.HasPrefix resourcePath "pipelineruns/" = false ->
               strings.HasPrefix resourcePath "pods/" = false ->
               http.QueryGet r "pod" = "" ->
               http.status (rw (fst (serve (handleNamespaceRequest w p r)))) = 400)).
Proof.
  pose proof (guarded_handleNamespaceRequest w p r) as G.
  split; [exact G|]. split; [|split; [|split; [apply noCredential_no_token|]]].
  - intros before e after Htrace He.
    destruct G as [[Hnil _]|(attrs & subject & Hdenied & Hpassed)].
    + rewrite Hnil in Htrace. now destruct before.
    + destruct (reviewAccess_cases w r attrs subject) as (_ & Hfail & Hok).
      destruct (snd (authz.reviewAccess w r attrs subject)) as [err|] eqn:Hc.
      * destruct (Hdenied err eq_refl) as [_ Hevs]. specialize (Hfail err eq_refl).
        rewrite <- Hevs, Htrace in Hfail.
        apply Forall_app in Hfail as [_ Hfail]. apply Forall_cons in Hfail as [Hfail _].
        congruence.
      * destruct (Hok eq_refl) as (cfg & Hevs & Htok & Hne & Hgr).
        destruct (Hpassed eq_refl) as (added & Hadded & _).
        rewrite Hevs, Htrace in Hadded.
        destruct before as [|e0 before]; simpl in Hadded; injection Hadded as -> _.
        -- discriminate He.
        -- exists cfg, attrs. simpl. auto.
  - intros cfg attrs Hin Hng.
    destruct G as [[Hnil _]|(attrs0 & subject & Hdenied & Hpassed)].
    + rewrite Hnil in Hin. destruct Hin.
    + destruct (reviewAccess_cases w r attrs0 subject) as (_ & Hfail & Hok).
      destruct (snd (authz.reviewAccess w r attrs0 subject)) as [err|] eqn:Hc.
      * destruct (Hdenied err eq_refl) as [Hst Hevs]. split; [exact Hst|].
        rewrite Hevs. exact (Hfail err eq_refl).
      * destruct (Hok eq_refl) as (cfg0 & Hevs & _ & _ & Hgr).
        destruct (Hpassed eq_refl) as (added & Hadded & Fadded).
        rewrite Hevs in Hadded. rewrite Hadded in Hin. simpl in Hin.
        destruct Hin as [Heq|Hin].
        -- injection Heq as -> ->. contradiction.
        -- rewrite List.Forall_forall in Fadded.
           specialize (Fadded _ Hin). discriminate Fadded.
  - intros Htoken. split.
    + destruct G as [[Hnil _]|(attrs & subject & Hdenied & _)]; [exact Hnil|].
      pose proof (proj1 (reviewAccess_cases w r attrs subject) Htoken) as Hc.
      rewrite Hc in Hdenied.
      now destruct (Hdenied "no authorization token provided" eq_refl) as [_ ->].
    + intros namespace resourcePath (Hpath & Hns & Hroute). unfold serve.
      rewrite (handleNamespaceRequest_routes w p r _ _ Hpath Hns). split.
      * intros Hreach.
        destruct (strings.HasPrefix resourcePath "pipelineruns/") eqn:E1;
          [now apply no_token_pipelinerun|].
        destruct (strings.HasPrefix resourcePath "pods/") eqn:E2;
          [now apply no_token_pod|].
        destruct (strings.HasPrefix resourcePath "logs") eqn:E3;
          [|destruct Hroute as [|[|]]; discriminate].
        apply no_token_logs; [|exact Htoken].
        destruct Hreach as [|[|]]; [discriminate|discriminate|assumption].
      * intros E1 E2 Hpod. rewrite E1, E2.
        destruct (strings.HasPrefix resourcePath "logs") eqn:E3;
          [|destruct Hroute as [|[|]]; congruence].
        now rewrite missing_pod_logs.
Qed.

(** In [demo], a pod-status request with a [Basic] credential is answered
    403, and a log fetch by [alice] reaches [c1] after her access review. *)
Lemma authorization_precedes_backend_witness :
  http.status
    (rw (fst (serve (handleNamespaceRequest demo.theWorld demo.theServer
                       (demo.request "/api/v1/namespaces/default/pods/p1/status"
                          [("pipelineRun", "deploy")] "Basic alice"))))) = 403.
Proof.
  destruct (authorization_precedes_backend demo.theWorld demo.theServer
              (demo.request "/api/v1/namespaces/default/pods/p1/status"
                 [("pipelineRun", "deploy")] "Basic alice"))
    as (_ & _ & _ & Hnone & Hempty).
  refine (proj1 (proj2 (Hempty (Hnone _)) "default" "pods/p1/status" _) _).
  - right. right. vm_compute. discriminate.
  - split; [reflexivity|]. split; [reflexivity|]. right. left. reflexivity.
  - right. left. reflexivity.
Defined.

(** Not every request without a credential is answered 403: a logs
    request without the [pod] parameter and without an [Authorization]
    header is answered 400. *)
Lemma missing_pod_answered_before_credential :
  ~ (forall w p r namespace resourcePath,
       apiRequest r namespace resourcePath ->
       noCredential r ->
       http.status (rw (fst (serve (handleNamespaceRequest w p r)))) = 403).
Proof.
  intros H.
  specialize (H demo.theWorld demo.theServer
                (demo.request "/api/v1/namespaces/default/logs" [] "")
                "default" "logs").
  assert (Hstatus : http.status
                      (rw (fst (serve (handleNamespaceRequest demo.theWorld demo.theServer
                                         (demo.request "/api/v1/namespaces/default/logs" [] "")))))
                    = 400) by (vm_compute; reflexivity).
  rewrite Hstatus in H. 
  assert (400 = 403) as Habs; [|discriminate Habs].
  apply H.
  - split; [reflexivity|]. split; [reflexivity|]. right. right. reflexivity.
  - left. reflexivity.
Qed.

(** *** The resolve endpoint *)

Lemma pipelinerun_segments pipelineRunName subPath :
  hasByte "/" pipelineRunName = false ->
  strings.Split ("pipelineruns/" +:+ pipelineRunName +:+ "/" +:+ subPath) "/"
  = "pipelineruns" :: pipelineRunName :: strings.Split subPath "/".
Proof.
  intros Hname.
  change ("pipelineruns/" +:+ pipelineRunName +:+ "/" +:+ subPath)
    with ("pipelineruns" +:+ String "/" (pipelineRunName +:+ String "/" subPath)).
  rewrite Split_cons by reflexivity. now rewrite Split_cons by assumption.
Qed.

(** An authorized request on [resolvePath] runs [handleResolve] on a fresh
    response, after the calls of the access check. *)
Lemma resolve_request_runs w p r namespace pipelineRunName :
  http.Path r = resolvePath namespace pipelineRunName ->
  hasByte "/" namespace = false ->
  hasByte "/" pipelineRunName = false ->
  snd (authz.CheckPipelineRunAccess w r namespace pipelineRunName) = None ->
  serve (handleNamespaceRequest w p r)
  = handleResolve p r namespace pipelineRunName
      {| rw := http.newResponseWriter;
         trace := fst (authz.CheckPipelineRunAccess w r namespace pipelineRunName) |}.
Proof.
  intros Hpath Hns Hname Hauth. unfold serve.
  rewrite (handleNamespaceRequest_routes w p r namespace
             ("pipelineruns/" +:+ pipelineRunName +:+ "/" +:+ "resolve") Hpath Hns).
  rewrite HasPrefix_app.
  unfold handlePipelineRunRequest. cbv zeta.
  rewrite (pipelinerun_segments _ _ Hname).
  change (nth 1 (?a :: ?b :: ?l) EmptyString) with b.
  change (drop 2 (?a :: ?b :: ?l)) with l.
  rewrite Join_Split.
  destruct (authz.CheckPipelineRunAccess w r namespace pipelineRunName) as [evs denied].
  simpl in Hauth. subst denied. run. reflexivity.
Qed.

Lemma body_writeHeader w code : http.body (http.writeHeader w code) = http.body w.
Proof. unfold http.writeHeader. now destruct (http.wroteHeader w). Qed.

Lemma handleResolve_body p r namespace pipelineRunName s :
  http.body (rw (fst (handleResolve p r namespace pipelineRunName s)))
  = http.body (rw s)
    ++ [match resolver.ResolveWorkerCluster (resolver_ p) namespace pipelineRunName with
        | Ok workerCluster => http.Document (resolver.MarshalJSON workerCluster)
        | Err err => http.Bytes (("Failed to resolve worker cluster: " +:+ err) +:+ newline)
        end].
Proof.
  unfold handleResolve. run.
  destruct (resolver.ResolveWorkerCluster _ _ _) as [workerCluster|err]; run;
    [|now rewrite !body_writeHeader].
  destruct (negb _); destruct (String.eqb _ "Dispatching"); run;
    now rewrite !body_writeHeader.
Qed.




(** *** Repeated resolution *)

Lemma ResolveWorkerCluster_of_listing r1 r2 namespace pipelineRunName :
  kueueclient.WorkloadsList (resolver.kueueClient r1) namespace
  = kueueclient.WorkloadsList (resolver.kueueClient r2) namespace ->
  resolver.ResolveWorkerCluster r1 namespace pipelineRunName
  = resolver.ResolveWorkerCluster r2 namespace pipelineRunName.
Proof.
  intros Hlist.
  unfold resolver.ResolveWorkerCluster, resolver.findWorkloadByPipelineRun.
  now rewrite Hlist.
Qed.

(** C9. The body of a [/resolve] response is a function of the listing of
    the namespace's workloads: two authorized [/resolve] calls for the same
    namespace and PipelineRun that observe the same listing answer with the
    same body, whatever else differs between them (the caller, the other
    headers and parameters, the registry, the worker clusters). *)
Theorem resolve_body_is_function_of_listing
  w1 w2 p1 p2 r1 r2 namespace pipelineRunName :
  http.Path r1 = resolvePath namespace pipelineRunName ->
  http.Path r2 = resolvePath namespace pipelineRunName ->
  hasByte "/" namespace = false ->
  hasByte "/" pipelineRunName = false ->
  snd (authz.CheckPipelineRunAccess w1 r1 namespace pipelineRunName) = None ->
  snd (authz.CheckPipelineRunAccess w2 r2 namespace pipelineRunName) = None ->
  kueueclient.WorkloadsList (resolver.kueueClient (resolver_ p1)) namespace
  = kueueclient.WorkloadsList (resolver.kueueClient (resolver_ p2)) namespace ->
  http.body (rw (fst (serve (handleNamespaceRequest w1 p1 r1))))
  = http.body (rw (fst (serve (handleNamespaceRequest w2 p2 r2)))).
Proof.
  intros Hp1 Hp2 Hns Hname Ha1 Ha2 Hlist.
  rewrite (resolve_request_runs w1 p1 r1 _ _ Hp1 Hns Hname Ha1).
  rewrite (resolve_request_runs w2 p2 r2 _ _ Hp2 Hns Hname Ha2).
  rewrite !handleResolve_body.
  now rewrite (ResolveWorkerCluster_of_listing _ _ _ _ Hlist).
Qed.

(** In [demo], resolving [deploy] twice, the second time with another
    header spelling and against a server whose registry is empty. *)
Lemma resolve_body_is_function_of_listing_witness :
  let p2 := {| resolver_ := resolver_ demo.theServer;
               workerRegistry := demo.emptyRegistry;
               config := config demo.theServer |} in
  http.body
    (rw (fst (serve (handleNamespaceRequest demo.theWorld demo.theServer
                       (demo.request (resolvePath "default" "deploy") [] "Bearer alice")))))
  = http.body
      (rw (fst (serve (handleNamespaceRequest demo.theWorld p2
                         (demo.request (resolvePath "default" "deploy")
                            [("verbose", "1")] "bearer alice"))))).
Proof.
  intros p2.
  exact (resolve_body_is_function_of_listing demo.theWorld demo.theWorld demo.theServer p2
           (demo.request (resolvePath "default" "deploy") [] "Bearer alice")
           (demo.request (resolvePath "default" "deploy") [("verbose", "1")] "bearer alice")
           "default" "deploy" eq_refl eq_refl eq_refl eq_refl eq_refl eq_refl eq_refl).
Defined.

(** *** Parameters of the log fetch *)






(** *** What the router answers before and after the access check *)

Lemma Split_single sep s : hasByte sep s = false -> strings.Split s sep = [s].
Proof.
  induction s as [|c s IH]; simpl; [reflexivity|].
  intros H. apply orb_false_iff in H as [Hc Hs]. now rewrite Hc, (IH Hs).
Qed.

Lemma route_segments kind name subPath :
  hasByte "/" kind = false ->
  hasByte "/" name = false ->
  strings.Split (kind +:+ String "/" (name +:+ String "/" subPath)) "/"
  = kind :: name :: strings.Split subPath "/".
Proof. intros Hk Hn. now rewrite !Split_cons by assumption. Qed.

(** A path with a single segment after the prefix is answered 400 and a
    path whose second segment starts with none of [pipelineruns/], [pods/]
    and [logs] is answered 404; in both cases no credential is read and no
    call is made. *)
Theorem router_rejects_before_any_check w p r :
  (hasByte "/" (strings.TrimPrefix (http.Path r) "/api/v1/namespaces/") = false ->
   http.status (rw (fst (serve (handleNamespaceRequest w p r)))) = 400
   /\ http.body (rw (fst (serve (handleNamespaceRequest w p r))))
      = [http.Bytes ("Invalid path" +:+ newline)]
   /\ trace (fst (serve (handleNamespaceRequest w p r))) = [])
  /\ (forall namespace resourcePath,
        http.Path r = "/api/v1/namespaces/" +:+ namespace +:+ "/" +:+ resourcePath ->
        hasByte "/" namespace = false ->
        strings.HasPrefix resourcePath "pipelineruns/" = false ->
        strings.HasPrefix resourcePath "pods/" = false ->
        strings.HasPrefix resourcePath "logs" = false ->
        http.status (rw (fst (serve (handleNamespaceRequest w p r)))) = 404
        /\ http.body (rw (fst (serve (handleNamespaceRequest w p r))))
           = [http.Bytes ("Unknown resource" +:+ newline)]
        /\ trace (fst (serve (handleNamespaceRequest w p r))) = []).
Proof.
  split.
  - intros Hone. unfold serve, handleNamespaceRequest. cbv zeta.
    rewrite (Split_single _ _ Hone). run. now answered fresh.
  - intros namespace resourcePath Hpath Hns H1 H2 H3. unfold serve.
    rewrite (handleNamespaceRequest_routes w p r _ _ Hpath Hns).
    rewrite H1, H2, H3. run. now answered fresh.
Qed.

Lemma router_rejects_before_any_check_witness :
  http.status
    (rw (fst (serve (handleNamespaceRequest demo.theWorld demo.theServer
                       (demo.request "/api/v1/namespaces/default/secrets/s1" [] ""))))) = 404.
Proof.
  exact (proj1 (proj2 (router_rejects_before_any_check demo.theWorld demo.theServer
                         (demo.request "/api/v1/namespaces/default/secrets/s1" [] ""))
                  "default" "secrets/s1" eq_refl eq_refl eq_refl eq_refl eq_refl)).
Defined.

(** An authorized request on a pipelinerun or pod path runs, on a fresh
    response and after the calls of the access check, the handler its
    sub-path selects. *)
Lemma pipelinerun_request_runs w p r namespace pipelineRunName subPath :
  http.Path r = "/api/v1/namespaces/" +:+ namespace +:+ "/pipelineruns/"
                +:+ pipelineRunName +:+ "/" +:+ subPath ->
  hasByte "/" namespace = false ->
  hasByte "/" pipelineRunName = false ->
  snd (authz.CheckPipelineRunAccess w r namespace pipelineRunName) = None ->
  serve (handleNamespaceRequest w p r)
  = (if String.eqb subPath "resolve" then handleResolve p r namespace pipelineRunName
     else if String.eqb subPath "taskruns" then handleTaskRuns w p r namespace pipelineRunName
     else if String.eqb subPath "pods"
     then handlePipelineRunPods w p r namespace pipelineRunName
     else Error_ "Unknown PipelineRun sub-resource" http.StatusNotFound)
      {| rw := http.newResponseWriter;
         trace := fst (authz.CheckPipelineRunAccess w r namespace pipelineRunName) |}.
Proof.
  intros Hpath Hns Hname Hauth. unfold serve.
  rewrite (handleNamespaceRequest_routes w p r namespace
             ("pipelineruns/" +:+ pipelineRunName +:+ "/" +:+ subPath) Hpath Hns).
  rewrite HasPrefix_app.
  unfold handlePipelineRunRequest. cbv zeta.
  rewrite (pipelinerun_segments _ _ Hname).
  change (nth 1 (?a :: ?b :: ?l) EmptyString) with b.
  change (drop 2 (?a :: ?b :: ?l)) with l.
  rewrite Join_Split.
  destruct (authz.CheckPipelineRunAccess w r namespace pipelineRunName) as [evs denied].
  simpl in Hauth. subst denied.
  unfold mbind at 1 2, M_bind, bind, when, check, emitAll, ifErr, ret. cbn.
  unfold mbind, M_bind, bind. cbn. reflexivity.
Qed.

Lemma pod_request_runs w p r namespace podName subPath :
  http.Path r = "/api/v1/namespaces/" +:+ namespace +:+ "/pods/"
                +:+ podName +:+ "/" +:+ subPath ->
  hasByte "/" namespace = false ->
  hasByte "/" podName = false ->
  snd (authz.CheckPodAccess w r namespace podName) = None ->
  serve (handleNamespaceRequest w p r)
  = (if String.eqb subPath "status" then handlePodStatus w p r namespace podName
     else Error_ "Unknown Pod sub-resource" http.StatusNotFound)
      {| rw := http.newResponseWriter;
         trace := fst (authz.CheckPodAccess w r namespace podName) |}.
Proof.
  intros Hpath Hns Hname Hauth. unfold serve.
  rewrite (handleNamespaceRequest_routes w p r namespace
             ("pods/" +:+ podName +:+ "/" +:+ subPath) Hpath Hns).
  change (strings.HasPrefix ("pods/" +:+ podName +:+ "/" +:+ subPath) "pipelineruns/")
    with false.
  rewrite HasPrefix_app.
  unfold handlePodRequest. cbv zeta.
  change ("pods/" +:+ podName +:+ "/" +:+ subPath)
    with ("pods" +:+ String "/" (podName +:+ String "/" subPath)).
  rewrite (route_segments "pods" podName subPath eq_refl Hname).
  change (nth 1 (?a :: ?b :: ?l) EmptyString) with b.
  change (drop 2 (?a :: ?b :: ?l)) with l.
  rewrite Join_Split.
  destruct (authz.CheckPodAccess w r namespace podName) as [evs denied].
  simpl in Hauth. subst denied.
  unfold mbind at 1 2, M_bind, bind, when, check, emitAll, ifErr, ret. cbn.
  unfold mbind, M_bind, bind. cbn. reflexivity.
Qed.

(** An authorized request for a sub-resource the router does not know (any
    sub-path of a PipelineRun other than [resolve], [taskruns] and [pods],
    any sub-path of a pod other than [status]) is answered 404 after the
    access check alone: the resolver is not consulted. *)
Theorem unknown_subresource_is_404 w p r namespace name subPath :
  hasByte "/" namespace = false ->
  hasByte "/" name = false ->
  (http.Path r = "/api/v1/namespaces/" +:+ namespace +:+ "/pipelineruns/"
                 +:+ name +:+ "/" +:+ subPath ->
   snd (authz.CheckPipelineRunAccess w r namespace name) = None ->
   subPath <> "resolve" -> subPath <> "taskruns" -> subPath <> "pods" ->
   http.status (rw (fst (serve (handleNamespaceRequest w p r)))) = 404
   /\ trace (fst (serve (handleNamespaceRequest w p r)))
      = fst (authz.CheckPipelineRunAccess w r namespace name))
  /\ (http.Path r = "/api/v1/namespaces/" +:+ namespace +:+ "/pods/"
                    +:+ name +:+ "/" +:+ subPath ->
      snd (authz.CheckPodAccess w r namespace name) = None ->
      subPath <> "status" ->
      http.status (rw (fst (serve (handleNamespaceRequest w p r)))) = 404
      /\ trace (fst (serve (handleNamespaceRequest w p r)))
         = fst (authz.CheckPodAccess w r namespace name)).
Proof.
  intros Hns Hname. split.
  - intros Hpath Hauth H1 H2 H3.
    rewrite (pipelinerun_request_runs w p r _ _ _ Hpath Hns Hname Hauth).
    apply String.eqb_neq in H1, H2, H3. rewrite H1, H2, H3. run.
    now answered fresh.
  - intros Hpath Hauth H1.
    rewrite (pod_request_runs w p r _ _ _ Hpath Hns Hname Hauth).
    apply String.eqb_neq in H1. rewrite H1. run.
    now answered fresh.
Qed.

Lemma unknown_subresource_is_404_witness :
  http.status
    (rw (fst (serve (handleNamespaceRequest demo.theWorld demo.theServer
                       (demo.request
                          "/api/v1/namespaces/default/pipelineruns/deploy/taskruns/extra"
                          [] "Bearer alice"))))) = 404.
Proof.
  refine (proj1 (proj1 (unknown_subresource_is_404 demo.theWorld demo.theServer
                          (demo.request
                             "/api/v1/namespaces/default/pipelineruns/deploy/taskruns/extra"
                             [] "Bearer alice")
                          "default" "deploy" "taskruns/extra" eq_refl eq_refl)
                   eq_refl eq_refl _ _ _)); discriminate.
Defined.

(** *** Requests that end before the worker call *)

(** A pod-status, log-fetch or log-stream request without the [pipelineRun]
    query parameter is answered 400 and the resolver is not consulted. *)
Theorem missing_pipelineRun_is_400 w p r namespace k s :
  http.wroteHeader (rw s) = None ->
  (forall pipelineRunName, k <> TaskRuns pipelineRunName) ->
  (forall pipelineRunName, k <> PipelineRunPods pipelineRunName) ->
  http.QueryGet r "pipelineRun" = "" ->
  http.status (rw (fst (subHandler w p r namespace k s))) = 400
  /\ trace (fst (subHandler w p r namespace k s)) = trace s
  /\ snd (subHandler w p r namespace k s) = Returned.
Proof.
  intros Hw Hk1 Hk2 Hq.
  destruct k; [exfalso; eapply Hk1; reflexivity | exfalso; eapply Hk2; reflexivity | | |];
    simpl subHandler; unfold handlePodStatus, handleLogsFetch, handleLogsStream;
    cbv zeta; rewrite Hq; change (String.eqb "" "") with true; run; now answered Hw.
Qed.

Lemma missing_pipelineRun_is_400_witness :
  http.status
    (rw (fst (subHandler demo.theWorld demo.theServer
                (demo.request "/api/v1/namespaces/default/pods/p1/status" [] "Bearer alice")
                "default" (PodStatus "p1") start))) = 400.
Proof.
  refine (proj1 (missing_pipelineRun_is_400 demo.theWorld demo.theServer
                   (demo.request "/api/v1/namespaces/default/pods/p1/status" []
                      "Bearer alice")
                   "default" (PodStatus "p1") start eq_refl _ _ eq_refl)); discriminate.
Defined.

(** When the resolver fails (no workload for the PipelineRun, or the
    listing fails), the two PipelineRun operations answer 404 but pod
    status, log fetch and log stream answer 500; all five repeat the
    resolver's message and contact no worker cluster. *)
Theorem resolver_failure_status w p r namespace k err s :
  http.wroteHeader (rw s) = None ->
  consults r k ->
  resolver.ResolveWorkerCluster (resolver_ p) namespace (jobName r k) = Err err ->
  http.status (rw (fst (subHandler w p r namespace k s)))
  = match k with
    | TaskRuns _ | PipelineRunPods _ => 404
    | PodStatus _ | LogsFetch _ _ | LogsStream _ _ => 500
    end
  /\ http.body (rw (fst (subHandler w p r namespace k s)))
     = http.body (rw s)
       ++ [http.Bytes (("Failed to resolve worker cluster: " +:+ err) +:+ newline)]
  /\ trace (fst (subHandler w p r namespace k s)) = trace s ++ [HubListWorkloads namespace].
Proof.
  intros Hw Hq Hres.
  destruct k; simpl in Hq, Hres; simpl subHandler;
    unfold handleTaskRuns, handlePipelineRunPods, handlePodStatus, handleLogsFetch,
      handleLogsStream; run;
    try (destruct (String.eqb_spec (http.QueryGet r "pipelineRun") "") as [|_];
         [contradiction|]; run);
    rewrite Hres; run; now answered Hw.
Qed.

Lemma resolver_failure_status_witness :
  http.status
    (rw (fst (subHandler demo.theWorld demo.theServer
                (demo.request "/api/v1/namespaces/default/logs"
                   [("pipelineRun", "nosuchrun"); ("pod", "p1")] "Bearer alice")
                "default" (LogsFetch "p1" "") start))) = 500.
Proof.
  refine (proj1 (resolver_failure_status demo.theWorld demo.theServer
                   (demo.request "/api/v1/namespaces/default/logs"
                      [("pipelineRun", "nosuchrun"); ("pod", "p1")] "Bearer alice")
                   "default" (LogsFetch "p1" "") _ start eq_refl _ _)).
  - vm_compute. discriminate.
  - vm_compute. reflexivity.
Defined.

(** When no client can be built from the registered configuration of the
    resolved cluster, the handler panics ([NewForConfigOrDie]): nothing has
    been written to the response and no worker cluster has been called. *)
Theorem unbuildable_client_panics w p r namespace k workerCluster workerConfig err s :
  consults r k ->
  resolver.ResolveWorkerCluster (resolver_ p) namespace (jobName r k) = Ok workerCluster ->
  resolver.State workerCluster = "Admitted" ->
  registry.configs (workerRegistry p) !! resolver.Name workerCluster = Some workerConfig ->
  match k with
  | TaskRuns _ => world.tektonNewForConfig w workerConfig = Err err
  | _ => world.kubernetesNewForConfig w workerConfig = Err err
  end ->
  subHandler w p r namespace k s
  = ({| rw := rw s; trace := trace s ++ [HubListWorkloads namespace] |}, Panicked err).
Proof.
  intros Hq Hres Hst Hcfg Hclient. apply GetConfig_found in Hcfg.
  destruct k; simpl in Hq, Hres; simpl subHandler;
    unfold handleTaskRuns, handlePipelineRunPods, handlePodStatus, handleLogsFetch,
      handleLogsStream; run;
    try (destruct (String.eqb_spec (http.QueryGet r "pipelineRun") "") as [|_];
         [contradiction|]; run);
    rewrite Hres; run;
    (destruct (String.eqb_spec (resolver.State workerCluster) "Admitted") as [_|];
     [|contradiction]); run; rewrite Hcfg; run; rewrite Hclient; reflexivity.
Qed.

Lemma unbuildable_client_panics_witness :
  snd (subHandler faults.theWorld demo.theServer
         (demo.request "/api/v1/namespaces/default/pipelineruns/deploy/pods" [] "Bearer alice")
         "default" (PipelineRunPods "deploy") start)
  = Panicked "invalid configuration".
Proof.
  rewrite (unbuildable_client_panics faults.theWorld demo.theServer
             (demo.request "/api/v1/namespaces/default/pipelineruns/deploy/pods" []
                "Bearer alice")
             "default" (PipelineRunPods "deploy") _ demo.cfgC1 "invalid configuration" start
             I ltac:(vm_compute; reflexivity) eq_refl ltac:(vm_compute; reflexivity) eq_refl).
  reflexivity.
Defined.

(** *** Requests that reach the worker cluster *)

(** The task-run list and the pod list of an admitted PipelineRun on a
    registered cluster: one listing on the hub, then one list call on the
    worker with the label selector [tekton.dev/pipelineRun=<name>] in the
    request's namespace; the answer is 200 with content type
    [application/json], the cluster name in [X-Worker-Cluster] and the
    worker's list as the only document of the body. *)
Theorem lists_are_relayed w p r namespace pipelineRunName workerCluster workerConfig s :
  http.wroteHeader (rw s) = None ->
  resolver.ResolveWorkerCluster (resolver_ p) namespace pipelineRunName = Ok workerCluster ->
  resolver.State workerCluster = "Admitted" ->
  registry.configs (workerRegistry p) !! resolver.Name workerCluster = Some workerConfig ->
  (forall client taskRuns,
     world.tektonNewForConfig w workerConfig = Ok client ->
     tektonclient.TaskRunsList client namespace ("tekton.dev/pipelineRun=" +:+ pipelineRunName)
     = Ok taskRuns ->
     handleTaskRuns w p r namespace pipelineRunName s
     = ({| rw := http.write
                   (http.setHeader
                      (http.setHeader (rw s) "Content-Type" "application/json")
                      "X-Worker-Cluster" (resolver.Name workerCluster))
                   (http.Document (JDownstream taskRuns));
           trace := trace s
                    ++ [HubListWorkloads namespace;
                        WorkerRequest workerConfig
                          (ListTaskRuns namespace
                             ("tekton.dev/pipelineRun=" +:+ pipelineRunName))] |},
        Next tt))
  /\ (forall client pods,
        world.kubernetesNewForConfig w workerConfig = Ok client ->
        kubernetes.PodsList client namespace ("tekton.dev/pipelineRun=" +:+ pipelineRunName)
        = Ok pods ->
        handlePipelineRunPods w p r namespace pipelineRunName s
        = ({| rw := http.write
                      (http.setHeader
                         (http.setHeader (rw s) "Content-Type" "application/json")
                         "X-Worker-Cluster" (resolver.Name workerCluster))
                      (http.Document (JDownstream pods));
              trace := trace s
                       ++ [HubListWorkloads namespace;
                           WorkerRequest workerConfig
                             (ListPods namespace
                                ("tekton.dev/pipelineRun=" +:+ pipelineRunName))] |},
           Next tt))
  /\ (forall doc,
        let rw' := http.write
                     (http.setHeader
                        (http.setHeader (rw s) "Content-Type" "application/json")
                        "X-Worker-Cluster" (resolver.Name workerCluster))
                     (http.Document (JDownstream doc)) in
        http.status rw' = 200
        /\ http.sentHeader rw' !! "Content-Type" = Some "application/json"
        /\ http.sentHeader rw' !! "X-Worker-Cluster" = Some (resolver.Name workerCluster)
        /\ http.body rw' = http.body (rw s) ++ [http.Document (JDownstream doc)]).
Proof.
  intros Hw Hres Hst Hcfg. apply GetConfig_found in Hcfg.
  split; [|split].
  - intros client taskRuns Hclient Hcall. unfold handleTaskRuns. run.
    rewrite Hres. run.
    destruct (String.eqb_spec (resolver.State workerCluster) "Admitted") as [_|];
      [|contradiction]. run.
    rewrite Hcfg. run. rewrite Hclient. run. rewrite Hcall. run.
    now rewrite <- app_assoc.
  - intros client pods Hclient Hcall. unfold handlePipelineRunPods. run.
    rewrite Hres. run.
    destruct (String.eqb_spec (resolver.State workerCluster) "Admitted") as [_|];
      [|contradiction]. run.
    rewrite Hcfg. run. rewrite Hclient. run. rewrite Hcall. run.
    now rewrite <- app_assoc.
  - intros doc rw'. subst rw'. answered Hw.
    rewrite lookup_insert_ne by discriminate. rewrite !lookup_insert_eq. auto.
Qed.

Lemma lists_are_relayed_witness :
  http.body
    (rw (fst (handlePipelineRunPods demo.theWorld demo.theServer
                (demo.request "/api/v1/namespaces/default/pipelineruns/deploy/pods" []
                   "Bearer alice")
                "default" "deploy" start)))
  = [http.Document (JDownstream {| payload := "PodList" |})].
Proof.
  rewrite (proj1 (proj2 (lists_are_relayed demo.theWorld demo.theServer
                           (demo.request "/api/v1/namespaces/default/pipelineruns/deploy/pods"
                              [] "Bearer alice")
                           "default" "deploy" _ demo.cfgC1 start
                           eq_refl ltac:(vm_compute; reflexivity) eq_refl
                           ltac:(vm_compute; reflexivity)))
             demo.workerKube {| payload := "PodList" |} eq_refl eq_refl).
  reflexivity.
Defined.

Lemma ioCopy_body logs : forall s,
  http.body (rw (fst (ioCopy logs s)))
  = http.body (rw s)
    ++ map http.Bytes
         (List.filter (fun d => negb (String.eqb d ""))
            (map corev1.data (readsThroughError logs))).
Proof.
  induction logs as [|rr logs IH]; intros s; [simpl; now rewrite app_nil_r|].
  simpl. run.
  destruct (negb (String.eqb (corev1.data rr) "")); run;
    destruct (corev1.readErr rr); run; rewrite ?IH; cbn;
    unfold http.write; cbn; rewrite ?body_writeHeader, <- ?app_assoc, ?app_nil_r;
    reflexivity.
Qed.

(** The bounded log fetch of an admitted PipelineRun on a registered
    cluster answers 200 with content type [text/plain] and the cluster name
    in [X-Worker-Cluster], and its body is the bytes of the successive reads
    of the worker's stream, empty reads skipped, up to and including the
    read that returns an error: bytes that arrive together with an error
    are still delivered. *)
Theorem log_fetch_relays_bytes
  w p r namespace podName containerName workerCluster workerConfig client logs s :
  http.wroteHeader (rw s) = None ->
  http.QueryGet r "pipelineRun" <> "" ->
  resolver.ResolveWorkerCluster (resolver_ p) namespace (http.QueryGet r "pipelineRun")
  = Ok workerCluster ->
  resolver.State workerCluster = "Admitted" ->
  registry.configs (workerRegistry p) !! resolver.Name workerCluster = Some workerConfig ->
  world.kubernetesNewForConfig w workerConfig = Ok client ->
  (forall options, kubernetes.PodsGetLogsStream client namespace podName options = Ok logs) ->
  http.status (rw (fst (handleLogsFetch w p r namespace podName containerName s))) = 200
  /\ http.sentHeader (rw (fst (handleLogsFetch w p r namespace podName containerName s)))
     !! "Content-Type" = Some "text/plain"
  /\ http.sentHeader (rw (fst (handleLogsFetch w p r namespace podName containerName s)))
     !! "X-Worker-Cluster" = Some (resolver.Name workerCluster)
  /\ http.body (rw (fst (handleLogsFetch w p r namespace podName containerName s)))
     = http.body (rw s)
       ++ map http.Bytes
            (List.filter (fun d => negb (String.eqb d ""))
               (map corev1.data (readsThroughError logs))).
Proof.
  intros Hw Hjob Hres Hst Hcfg Hclient Hlogs. apply GetConfig_found in Hcfg.
  unfold handleLogsFetch. run.
  destruct (String.eqb_spec (http.QueryGet r "pipelineRun") "") as [|_];
    [contradiction|]. run.
  rewrite Hres. run.
  destruct (String.eqb_spec (resolver.State workerCluster) "Admitted") as [_|];
    [|contradiction]. run.
  rewrite Hcfg. run. rewrite Hclient. run. rewrite Hlogs. run.
  match goal with
  | |- context [ioCopy ?l ?s0] =>
      pose proof (ioCopy_wroteHeader l s0 _
                    ltac:(cbn; unfold http.writeHeader; cbn; rewrite Hw; reflexivity))
        as Hsent;
      pose proof (ioCopy_body l s0) as Hbody
  end.
  unfold http.status, http.sentHeader. rewrite Hsent, Hbody. cbn.
  rewrite lookup_insert_ne by discriminate. rewrite !lookup_insert_eq.
  rewrite body_writeHeader. auto.
Qed.

Lemma log_fetch_relays_bytes_witness :
  http.body
    (rw (fst (handleLogsFetch demo.theWorld demo.theServer
                (demo.request "/api/v1/namespaces/default/logs"
                   [("pipelineRun", "deploy"); ("pod", "p1")] "Bearer alice")
                "default" "p1" "" start)))
  = [http.Bytes "step one"; http.Bytes "step two"].
Proof.
  exact (proj2 (proj2 (proj2 (log_fetch_relays_bytes demo.theWorld demo.theServer
                                (demo.request "/api/v1/namespaces/default/logs"
                                   [("pipelineRun", "deploy"); ("pod", "p1")] "Bearer alice")
                                "default" "p1" "" _ demo.cfgC1 demo.workerKube demo.logLines
                                start eq_refl ltac:(vm_compute; discriminate)
                                ltac:(vm_compute; reflexivity) eq_refl
                                ltac:(vm_compute; reflexivity) eq_refl
                                (fun _ => eq_refl))))).
Defined.

(** *** The log stream *)

Lemma relay_frames conn logs : forall i s,
  exists n,
    trace (fst (relay conn i logs s))
    = trace s ++ map WsWrite (map corev1.data (take n (readsBeforeError logs))).
Proof.
  induction logs as [|rr logs IH]; intros i s.
  - exists 0%nat. simpl. now rewrite app_nil_r.
  - simpl. destruct (corev1.readErr rr).
    + exists 0%nat. simpl. now rewrite app_nil_r.
    + run. destruct (websocket.WriteMessage conn i (corev1.data rr)).
      * exists 1%nat. reflexivity.
      * destruct (IH (S i) {| rw := rw s; trace := trace s ++ [WsWrite (corev1.data rr)] |})
          as [n Hn].
        exists (S n). rewrite Hn. cbn. now rewrite <- app_assoc.
Qed.

Lemma relay_all_frames conn logs :
  (forall i d, websocket.WriteMessage conn i d = None) ->
  forall i s,
    trace (fst (relay conn i logs s))
    = trace s ++ map WsWrite (map corev1.data (readsBeforeError logs)).
Proof.
  intros Hwrite. induction logs as [|rr logs IH]; intros i s.
  - simpl. now rewrite app_nil_r.
  - simpl. destruct (corev1.readErr rr).
    + simpl. now rewrite app_nil_r.
    + run. rewrite Hwrite, IH. cbn. now rewrite <- app_assoc.
Qed.

(** The log stream of an admitted PipelineRun on a registered cluster:
    the worker is asked for the pod's log with [follow] and neither a tail
    count nor a since-time, whatever the query says; then the connection is
    upgraded (101 with the handshake headers only) and every chunk read
    before the first read error is written as one frame, in order. The
    frames stop early only if a write fails; bytes that arrive together
    with a read error are not relayed. *)
Theorem stream_relays_chunks_as_frames
  w p r namespace podName containerName workerCluster workerConfig client logs conn key s :
  http.wroteHeader (rw s) = None ->
  http.QueryGet r "pipelineRun" <> "" ->
  resolver.ResolveWorkerCluster (resolver_ p) namespace (http.QueryGet r "pipelineRun")
  = Ok workerCluster ->
  resolver.State workerCluster = "Admitted" ->
  registry.configs (workerRegistry p) !! resolver.Name workerCluster = Some workerConfig ->
  world.kubernetesNewForConfig w workerConfig = Ok client ->
  kubernetes.PodsGetLogsStream client namespace podName
    {| corev1.Container := containerName; corev1.Follow := true;
       corev1.SinceTime := None; corev1.TailLines := None |} = Ok logs ->
  world.Upgrade w r = websocket.Upgraded conn key ->
  let opened :=
    [HubListWorkloads namespace;
     WorkerRequest workerConfig
       (StreamLogs namespace podName
          {| corev1.Container := containerName; corev1.Follow := true;
             corev1.SinceTime := None; corev1.TailLines := None |});
     WsUpgrade] in
  http.status (rw (fst (handleLogsStream w p r namespace podName containerName s))) = 101
  /\ http.sentHeader (rw (fst (handleLogsStream w p r namespace podName containerName s)))
     = websocket.handshake key ∅
  /\ http.body (rw (fst (handleLogsStream w p r namespace podName containerName s)))
     = http.body (rw s)
  /\ (exists n,
        trace (fst (handleLogsStream w p r namespace podName containerName s))
        = trace s ++ opened
          ++ map WsWrite (map corev1.data (take n (readsBeforeError logs))))
  /\ ((forall i d, websocket.WriteMessage conn i d = None) ->
      trace (fst (handleLogsStream w p r namespace podName containerName s))
      = trace s ++ opened ++ map WsWrite (map corev1.data (readsBeforeError logs))).
Proof.
  intros Hw Hjob Hres Hst Hcfg Hclient Hlogs Hup opened. subst opened.
  apply GetConfig_found in Hcfg.
  unfold handleLogsStream. run.
  destruct (String.eqb_spec (http.QueryGet r "pipelineRun") "") as [|_];
    [contradiction|]. run.
  rewrite Hres. run.
  destruct (String.eqb_spec (resolver.State workerCluster) "Admitted") as [_|];
    [|contradiction]. run.
  rewrite Hcfg. run. rewrite Hclient. run. rewrite Hlogs. run. rewrite Hup. run.
  rewrite relay_rw. answered Hw. repeat split.
  - match goal with
    | |- context [relay conn 0 logs ?s0] =>
        destruct (relay_frames conn logs 0%nat s0) as [n Hn]
    end.
    exists n. rewrite Hn. cbn. now rewrite <- !app_assoc.
  - intros Hwrite. rewrite (relay_all_frames conn logs Hwrite). cbn.
    now rewrite <- !app_assoc.
Qed.

Lemma stream_relays_chunks_as_frames_witness :
  trace (fst (handleLogsStream demo.theWorld demo.theServer
                (demo.request "/api/v1/namespaces/default/logs/stream"
                   [("pipelineRun", "deploy"); ("pod", "p1"); ("tailLines", "5")]
                   "Bearer alice")
                "default" "p1" "step" start))
  = [HubListWorkloads "default";
     WorkerRequest demo.cfgC1
       (StreamLogs "default" "p1"
          {| corev1.Container := "step"; corev1.Follow := true;
             corev1.SinceTime := None; corev1.TailLines := None |});
     WsUpgrade; WsWrite "step one"; WsWrite "step two"].
Proof.
  exact (proj2 (proj2 (proj2 (proj2
           (stream_relays_chunks_as_frames demo.theWorld demo.theServer
              (demo.request "/api/v1/namespaces/default/logs/stream"
                 [("pipelineRun", "deploy"); ("pod", "p1"); ("tailLines", "5")]
                 "Bearer alice")
              "default" "p1" "step" _ demo.cfgC1 demo.workerKube demo.logLines
              {| websocket.WriteMessage := fun _ _ => None |}
              "HSmrc0sMlYUkAGmm5OPpG2HaGWk=" start
              eq_refl ltac:(vm_compute; discriminate) ltac:(vm_compute; reflexivity)
              eq_refl ltac:(vm_compute; reflexivity) eq_refl eq_refl eq_refl))))
           (fun _ _ => eq_refl)).
Defined.

(** The worker's follow stream is opened before the WebSocket upgrade is
    attempted: when the upgrade is refused the response is the upgrader's
    error (its status, with [Sec-Websocket-Version: 13]) and no frame is
    written, but the request to the worker cluster has been made. *)
Theorem refused_upgrade_after_worker_request
  w p r namespace podName containerName workerCluster workerConfig client logs code reason s :
  http.wroteHeader (rw s) = None ->
  http.QueryGet r "pipelineRun" <> "" ->
  resolver.ResolveWorkerCluster (resolver_ p) namespace (http.QueryGet r "pipelineRun")
  = Ok workerCluster ->
  resolver.State workerCluster = "Admitted" ->
  registry.configs (workerRegistry p) !! resolver.Name workerCluster = Some workerConfig ->
  world.kubernetesNewForConfig w workerConfig = Ok client ->
  kubernetes.PodsGetLogsStream client namespace podName
    {| corev1.Container := containerName; corev1.Follow := true;
       corev1.SinceTime := None; corev1.TailLines := None |} = Ok logs ->
  world.Upgrade w r = websocket.Refused code reason ->
  http.status (rw (fst (handleLogsStream w p r namespace podName containerName s))) = code
  /\ http.sentHeader (rw (fst (handleLogsStream w p r namespace podName containerName s)))
     !! "Sec-Websocket-Version" = Some "13"
  /\ trace (fst (handleLogsStream w p r namespace podName containerName s))
     = trace s
       ++ [HubListWorkloads namespace;
           WorkerRequest workerConfig
             (StreamLogs namespace podName
                {| corev1.Container := containerName; corev1.Follow := true;
                   corev1.SinceTime := None; corev1.TailLines := None |});
           WsUpgrade].
Proof.
  intros Hw Hjob Hres Hst Hcfg Hclient Hlogs Hup. apply GetConfig_found in Hcfg.
  unfold handleLogsStream. run.
  destruct (String.eqb_spec (http.QueryGet r "pipelineRun") "") as [|_];
    [contradiction|]. run.
  rewrite Hres. run.
  destruct (String.eqb_spec (resolver.State workerCluster) "Admitted") as [_|];
    [|contradiction]. run.
  rewrite Hcfg. run. rewrite Hclient. run. rewrite Hlogs. run. rewrite Hup. run.
  answered Hw. rewrite !lookup_insert_ne by discriminate. rewrite lookup_insert_eq.
  rewrite <- !app_assoc. auto.
Qed.

Lemma refused_upgrade_after_worker_request_witness :
  let s' := fst (handleLogsStream faults.refusingWorld demo.theServer
                   (demo.request "/api/v1/namespaces/default/logs/stream"
                      [("pipelineRun", "deploy"); ("pod", "p1")] "Bearer alice")
                   "default" "p1" "" start) in
  http.status (rw s') = 400.
Proof.
  exact (proj1 (refused_upgrade_after_worker_request faults.refusingWorld demo.theServer
                  (demo.request "/api/v1/namespaces/default/logs/stream"
                     [("pipelineRun", "deploy"); ("pod", "p1")] "Bearer alice")
                  "default" "p1" "" _ demo.cfgC1 demo.workerKube demo.logLines
                  400 "Bad Request" start
                  eq_refl ltac:(vm_compute; discriminate) ltac:(vm_compute; reflexivity)
                  eq_refl ltac:(vm_compute; reflexivity) eq_refl eq_refl eq_refl)).
Defined.

(** *** Parameters that parse *)







(** *** The resolve endpoint and the registry *)

(** [/resolve] reads the hub only: its outcome is the same whatever the
    registry holds, so an assignment to a cluster the proxy cannot reach is
    still reported with 200. The response has content type
    [application/json], and [X-Worker-Cluster] exactly when the resolved
    cluster name is not empty. *)
Theorem resolve_reads_the_hub_only p r namespace pipelineRunName s :
  (forall p', resolver_ p' = resolver_ p ->
     handleResolve p' r namespace pipelineRunName s
     = handleResolve p r namespace pipelineRunName s)
  /\ trace (fst (handleResolve p r namespace pipelineRunName s))
     = trace s ++ [HubListWorkloads namespace]
  /\ (forall workerCluster,
        http.wroteHeader (rw s) = None ->
        http.header (rw s) !! "X-Worker-Cluster" = None ->
        resolver.ResolveWorkerCluster (resolver_ p) namespace pipelineRunName
        = Ok workerCluster ->
        http.sentHeader (rw (fst (handleResolve p r namespace pipelineRunName s)))
        !! "Content-Type" = Some "application/json"
        /\ http.sentHeader (rw (fst (handleResolve p r namespace pipelineRunName s)))
           !! "X-Worker-Cluster"
           = if String.eqb (resolver.Name workerCluster) "" then None
             else Some (resolver.Name workerCluster)).
Proof.
  split; [|split].
  - intros p' Hp'. unfold handleResolve, ResolveWorkerCluster. now rewrite Hp'.
  - unfold handleResolve. run.
    destruct (resolver.ResolveWorkerCluster _ _ _) as [workerCluster|err]; run;
      [|reflexivity].
    destruct (negb _); destruct (String.eqb _ "Dispatching"); run; reflexivity.
  - intros workerCluster Hw Hh Hres. unfold handleResolve. run. rewrite Hres. run.
    destruct (String.eqb (resolver.Name workerCluster) ""); run;
      destruct (String.eqb _ "Dispatching"); run; answered Hw;
      rewrite ?lookup_insert_eq, ?lookup_insert_ne by discriminate;
      rewrite ?lookup_insert_eq; auto.
Qed.

Lemma resolve_reads_the_hub_only_witness :
  http.sentHeader
    (rw (fst (handleResolve demo.theServer
                (demo.request (resolvePath "default" "lint") [] "Bearer alice")
                "default" "lint" start)))
  !! "X-Worker-Cluster" = None.
Proof.
  exact (proj2 (proj2 (proj2 (resolve_reads_the_hub_only demo.theServer
                                (demo.request (resolvePath "default" "lint") []
                                   "Bearer alice")
                                "default" "lint" start))
                  _ eq_refl eq_refl ltac:(vm_compute; reflexivity))).
Defined.

(** *** One listing, one worker request *)




(** *** From the change feed to the router *)

Lemma unregistered_is_424 w p r namespace k workerCluster s :
  http.wroteHeader (rw s) = None ->
  consults r k ->
  resolver.ResolveWorkerCluster (resolver_ p) namespace (jobName r k) = Ok workerCluster ->
  resolver.State workerCluster = "Admitted" ->
  registry.configs (workerRegistry p) !! resolver.Name workerCluster = None ->
  http.status (rw (fst (subHandler w p r namespace k s))) = 424.
Proof.
  intros Hw Hq Hres Hst Hcfg. apply GetConfig_missing in Hcfg.
  destruct k; simpl in Hq, Hres; simpl subHandler;
    unfold handleTaskRuns, handlePipelineRunPods, handlePodStatus, handleLogsFetch,
      handleLogsStream; run;
    try (destruct (String.eqb_spec (http.QueryGet r "pipelineRun") "") as [|_];
         [contradiction|]; run);
    rewrite Hres; run;
    (destruct (String.eqb_spec (resolver.State workerCluster) "Admitted") as [_|];
     [|contradiction]); run; rewrite Hcfg; run; now answered Hw.
Qed.

(** Once the change feed has delivered the deletion of a cluster
    registration, every sub-resource request for a PipelineRun admitted to
    that cluster is answered 424, although the hub still reports the
    assignment. *)
Theorem deleted_cluster_is_unavailable w p r namespace k workerCluster event cluster s :
  http.wroteHeader (rw s) = None ->
  consults r k ->
  resolver.ResolveWorkerCluster (resolver_ p) namespace (jobName r k) = Ok workerCluster ->
  resolver.State workerCluster = "Admitted" ->
  watch.EventType event = "DELETED" ->
  watch.Object_ event = watch.ClusterObject cluster ->
  clusterName cluster = resolver.Name workerCluster ->
  http.status
    (rw (fst (subHandler w
                {| resolver_ := resolver_ p;
                   workerRegistry := registry.handleEvent w (workerRegistry p) event;
                   config := config p |}
                r namespace k s))) = 424.
Proof.
  intros Hw Hq Hres Hst Ht Ho Hname.
  refine (unregistered_is_424 w
            {| resolver_ := resolver_ p;
               workerRegistry := registry.handleEvent w (workerRegistry p) event;
               config := config p |}
            r namespace k workerCluster s Hw Hq Hres Hst _).
  simpl. rewrite (handleEvent_deleted _ _ _ _ Ht Ho), Hname.
  apply lookup_delete_eq.
Qed.

Lemma deleted_cluster_is_unavailable_witness :
  http.status
    (rw (fst (subHandler demo.theWorld
                {| resolver_ := resolver_ demo.theServer;
                   workerRegistry :=
                     registry.handleEvent demo.theWorld (workerRegistry demo.theServer)
                       {| watch.EventType := "DELETED";
                          watch.Object_ :=
                            watch.ClusterObject (demo.cluster "c1" "Secret" "c1-secret") |};
                   config := config demo.theServer |}
                (demo.request "/api/v1/namespaces/default/pipelineruns/deploy/taskruns" []
                   "Bearer alice")
                "default" (TaskRuns "deploy") start))) = 424.
Proof.
  exact (deleted_cluster_is_unavailable demo.theWorld demo.theServer
           (demo.request "/api/v1/namespaces/default/pipelineruns/deploy/taskruns" []
              "Bearer alice")
           "default" (TaskRuns "deploy") _
           {| watch.EventType := "DELETED";
              watch.Object_ :=
                watch.ClusterObject (demo.cluster "c1" "Secret" "c1-secret") |}
           (demo.cluster "c1" "Secret" "c1-secret") start
           eq_refl I ltac:(vm_compute; reflexivity) eq_refl eq_refl eq_refl eq_refl).
Defined.

(** *** A pod-status request, end to end *)

Lemma reviewAccess_passed_events w r attrs subject :
  snd (authz.reviewAccess w r attrs subject) = None ->
  fst (authz.reviewAccess w r attrs subject)
  = [HubAccessReview (callerConfigOf (authz.extractBearerToken r)) attrs].
Proof.
  unfold authz.reviewAccess, callerConfigOf.
  destruct (String.eqb (authz.extractBearerToken r) ""); simpl; [discriminate|].
  destruct (world.kubernetesNewForConfig w _) as [client|err]; simpl; [|discriminate].
  destruct (kubernetes.SelfSubjectAccessReviewsCreate client attrs) as [review|err];
    simpl; [|discriminate].
  now destruct (authorizationv1.Allowed review).
Qed.

(** A pod-status request is authorized for the pod of the path and routed
    by the PipelineRun of the query: the only access review is [get] on the
    pod, the PipelineRun named in the [pipelineRun] parameter is looked up
    without a review of its own, and the pod is then read from the cluster
    that PipelineRun is admitted to. *)
Theorem pod_status_end_to_end
  w p r namespace podName workerCluster workerConfig client pod :
  http.Path r = "/api/v1/namespaces/" +:+ namespace +:+ "/pods/" +:+ podName +:+ "/status" ->
  hasByte "/" namespace = false ->
  hasByte "/" podName = false ->
  snd (authz.CheckPodAccess w r namespace podName) = None ->
  http.QueryGet r "pipelineRun" <> "" ->
  resolver.ResolveWorkerCluster (resolver_ p) namespace (http.QueryGet r "pipelineRun")
  = Ok workerCluster ->
  resolver.State workerCluster = "Admitted" ->
  registry.configs (workerRegistry p) !! resolver.Name workerCluster = Some workerConfig ->
  world.kubernetesNewForConfig w workerConfig = Ok client ->
  kubernetes.PodsGet client namespace podName = Ok pod ->
  http.status (rw (fst (serve (handleNamespaceRequest w p r)))) = 200
  /\ http.sentHeader (rw (fst (serve (handleNamespaceRequest w p r)))) !! "X-Worker-Cluster"
     = Some (resolver.Name workerCluster)
  /\ http.body (rw (fst (serve (handleNamespaceRequest w p r))))
     = [http.Document (JDownstream pod)]
  /\ trace (fst (serve (handleNamespaceRequest w p r)))
     = [HubAccessReview (callerConfigOf (authz.extractBearerToken r))
          (accessTo "" "pods" namespace podName);
        HubListWorkloads namespace;
        WorkerRequest workerConfig (GetPod namespace podName)].
Proof.
  intros Hpath Hns Hpod Hauth Hjob Hres Hst Hcfg Hclient Hget.
  apply GetConfig_found in Hcfg.
  rewrite (pod_request_runs w p r namespace podName "status" Hpath Hns Hpod Hauth).
  change (String.eqb "status" "status") with true. cbv iota.
  unfold authz.CheckPodAccess in *.
  rewrite (reviewAccess_passed_events _ _ _ _ Hauth).
  unfold handlePodStatus. run.
  destruct (String.eqb_spec (http.QueryGet r "pipelineRun") "") as [|_];
    [contradiction|]. run.
  rewrite Hres. run.
  destruct (String.eqb_spec (resolver.State workerCluster) "Admitted") as [_|];
    [|contradiction]. run.
  rewrite Hcfg. run. rewrite Hclient. run. rewrite Hget. run.
  answered fresh. rewrite lookup_insert_eq. auto.
Qed.

Lemma pod_status_end_to_end_witness :
  trace (fst (serve (handleNamespaceRequest demo.theWorld demo.theServer
                       (demo.request "/api/v1/namespaces/default/pods/p1/status"
                          [("pipelineRun", "deploy")] "Bearer alice"))))
  = [HubAccessReview (callerConfigOf "alice") (accessTo "" "pods" "default" "p1");
     HubListWorkloads "default";
     WorkerRequest demo.cfgC1 (GetPod "default" "p1")].
Proof.
  exact (proj2 (proj2 (proj2
           (pod_status_end_to_end demo.theWorld demo.theServer
              (demo.request "/api/v1/namespaces/default/pods/p1/status"
                 [("pipelineRun", "deploy")] "Bearer alice")
              "default" "p1" _ demo.cfgC1 demo.workerKube {| payload := "Pod" |}
              eq_refl eq_refl eq_refl eq_refl ltac:(vm_compute; discriminate)
              ltac:(vm_compute; reflexivity) eq_refl ltac:(vm_compute; reflexivity)
              eq_refl eq_refl)))).
Defined.

(** *** Readiness *)

(** [/ready] answers 503 exactly when the registry holds no configuration
    and 200 with [Ready] otherwise; after a load in which some listed
    cluster resolves, it answers 200. *)
Theorem ready_iff_a_cluster_is_loaded w p s :
  http.wroteHeader (rw s) = None ->
  (registry.configs (workerRegistry p) = ∅ ->
   http.status (rw (fst (handleReady p s))) = 503)
  /\ (registry.configs (workerRegistry p) <> ∅ ->
      http.status (rw (fst (handleReady p s))) = 200
      /\ http.body (rw (fst (handleReady p s))) = http.body (rw s) ++ [http.Bytes "Ready"])
  /\ (forall items cluster cfg,
        kueueclient.MultiKueueClustersList (registry.kueueClient (workerRegistry p))
        = Ok items ->
        In cluster items ->
        registry.resolveCluster w (workerRegistry p) cluster = Some cfg ->
        http.status
          (rw (fst (handleReady
                      {| resolver_ := resolver_ p;
                         workerRegistry := fst (registry.LoadConfigs w (workerRegistry p));
                         config := config p |} s))) = 200).
Proof.
  intros Hw.
  assert (Hready : forall p0,
            registry.configs (workerRegistry p0) <> ∅ ->
            http.status (rw (fst (handleReady p0 s))) = 200
            /\ http.body (rw (fst (handleReady p0 s)))
               = http.body (rw s) ++ [http.Bytes "Ready"]).
  { intros p0 Hne. unfold handleReady, registry.ListClusters. cbv zeta.
    rewrite length_fmap.
    destruct (map_to_list (registry.configs (workerRegistry p0))) as [|kv l] eqn:Hl.
    - apply map_to_list_empty_iff in Hl. contradiction.
    - run. now answered Hw. }
  split; [|split].
  - intros Hempty. unfold handleReady, registry.ListClusters. cbv zeta.
    rewrite Hempty, map_to_list_empty. run. now answered Hw.
  - apply Hready.
  - intros items cluster cfg Hlist Hin Hres. apply Hready. simpl.
    unfold registry.LoadConfigs. rewrite Hlist. simpl. intros Hempty.
    destruct (loadClusters_resolved w (workerRegistry p) items
                (registry.configs (workerRegistry p)) cluster cfg Hin Hres) as [c Hc].
    rewrite Hempty, lookup_empty in Hc. discriminate.
Qed.

Lemma ready_iff_a_cluster_is_loaded_witness :
  http.status
    (rw (fst (handleReady
                {| resolver_ := resolver_ demo.theServer;
                   workerRegistry := demo.emptyRegistry;
                   config := config demo.theServer |} start))) = 503.
Proof.
  exact (proj1 (ready_iff_a_cluster_is_loaded demo.theWorld
                  {| resolver_ := resolver_ demo.theServer;
                     workerRegistry := demo.emptyRegistry;
                     config := config demo.theServer |} start eq_refl) eq_refl).
Defined.

(** *** From the registration to the worker request *)

Lemma resolveCluster_Some w r cluster secret kubeconfigData cfg :
  kueuev1beta1.LocationType (kueuev1beta1.SpecKubeConfig cluster) = "Secret" ->
  kueuev1beta1.Location (kueuev1beta1.SpecKubeConfig cluster) <> "" ->
  kubernetes.SecretsGet (registry.kubeClient r)
    (config.WorkersSecretNamespace (registry.config r))
    (kueuev1beta1.Location (kueuev1beta1.SpecKubeConfig cluster)) = Ok secret ->
  corev1.Data secret !! "kubeconfig" = Some kubeconfigData ->
  world.RESTConfigFromKubeConfig w kubeconfigData = Ok cfg ->
  registry.resolveCluster w r cluster = Some cfg.
Proof.
  intros Ht Hl Hs Hd Hp. unfold registry.resolveCluster.
  rewrite Ht. apply String.eqb_neq in Hl. rewrite Hl.
  change (String.eqb "Secret" "Secret") with true. cbn [negb].
  now rewrite Hs, Hd, Hp.
Qed.

(** The configuration the router calls a worker with is the one parsed
    from the [kubeconfig] key of the secret that the cluster's registration
    points to, read in the configured secrets namespace: after a resync of
    a listing with distinct names, the task runs of a PipelineRun admitted
    to a registered cluster are requested with exactly that
    configuration. *)
Theorem loaded_configuration_reaches_worker
  w p r namespace pipelineRunName workerCluster items cluster secret kubeconfigData
  workerConfig client taskRuns s :
  resolver.ResolveWorkerCluster (resolver_ p) namespace pipelineRunName = Ok workerCluster ->
  resolver.State workerCluster = "Admitted" ->
  kueueclient.MultiKueueClustersList (registry.kueueClient (workerRegistry p)) = Ok items ->
  NoDup (map clusterName items) ->
  In cluster items ->
  clusterName cluster = resolver.Name workerCluster ->
  kueuev1beta1.LocationType (kueuev1beta1.SpecKubeConfig cluster) = "Secret" ->
  kueuev1beta1.Location (kueuev1beta1.SpecKubeConfig cluster) <> "" ->
  kubernetes.SecretsGet (registry.kubeClient (workerRegistry p))
    (config.WorkersSecretNamespace (registry.config (workerRegistry p)))
    (kueuev1beta1.Location (kueuev1beta1.SpecKubeConfig cluster)) = Ok secret ->
  corev1.Data secret !! "kubeconfig" = Some kubeconfigData ->
  world.RESTConfigFromKubeConfig w kubeconfigData = Ok workerConfig ->
  world.tektonNewForConfig w workerConfig = Ok client ->
  tektonclient.TaskRunsList client namespace ("tekton.dev/pipelineRun=" +:+ pipelineRunName)
  = Ok taskRuns ->
  trace (fst (handleTaskRuns w
                {| resolver_ := resolver_ p;
                   workerRegistry := fst (registry.LoadConfigs w (workerRegistry p));
                   config := config p |}
                r namespace pipelineRunName s))
  = trace s
    ++ [HubListWorkloads namespace;
        WorkerRequest workerConfig
          (ListTaskRuns namespace ("tekton.dev/pipelineRun=" +:+ pipelineRunName))].
Proof.
  intros Hres Hst Hlist Hnd Hin Hname Ht Hl Hs Hd Hp Hclient Hcall.
  pose proof (resolveCluster_Some w (workerRegistry p) cluster _ _ _ Ht Hl Hs Hd Hp) as Hrc.
  assert (Hcfg : registry.GetConfig (fst (registry.LoadConfigs w (workerRegistry p)))
                   (resolver.Name workerCluster) = Ok workerConfig).
  { apply GetConfig_found. unfold registry.LoadConfigs. rewrite Hlist. simpl.
    rewrite <- Hname. now apply loadClusters_resolved_unique. }
  unfold handleTaskRuns. run. rewrite Hres. run.
  destruct (String.eqb_spec (resolver.State workerCluster) "Admitted") as [_|];
    [|contradiction]. run.
  rewrite Hcfg. run. rewrite Hclient. run. rewrite Hcall. run.
  now rewrite <- app_assoc.
Qed.

Lemma loaded_configuration_reaches_worker_witness :
  trace (fst (handleTaskRuns demo.theWorld
                {| resolver_ := resolver_ demo.theServer;
                   workerRegistry := fst (registry.LoadConfigs demo.theWorld demo.emptyRegistry);
                   config := config demo.theServer |}
                (demo.request "/api/v1/namespaces/default/pipelineruns/deploy/taskruns" []
                   "Bearer alice")
                "default" "deploy" start))
  = [HubListWorkloads "default";
     WorkerRequest demo.cfgC1 (ListTaskRuns "default" "tekton.dev/pipelineRun=deploy")].
Proof.
  refine (loaded_configuration_reaches_worker demo.theWorld
            {| resolver_ := resolver_ demo.theServer;
               workerRegistry := demo.emptyRegistry;
               config := config demo.theServer |}
            (demo.request "/api/v1/namespaces/default/pipelineruns/deploy/taskruns" []
               "Bearer alice")
            "default" "deploy" _ demo.clusters (demo.cluster "c1" "Secret" "c1-secret")
            {| corev1.Data := {[ "kubeconfig" := "kubeconfig-of-c1" ]} |}
            "kubeconfig-of-c1" demo.cfgC1
            {| tektonclient.TaskRunsList := fun _ _ => Ok {| payload := "TaskRunList" |} |}
            {| payload := "TaskRunList" |} start
            ltac:(vm_compute; reflexivity) eq_refl eq_refl _ _ eq_refl eq_refl
            ltac:(discriminate) ltac:(vm_compute; reflexivity) ltac:(vm_compute; reflexivity)
            eq_refl eq_refl eq_refl).
  - simpl. repeat constructor; rewrite ?list_elem_of_In; simpl; intuition discriminate.
  - simpl. auto.
Defined.

(** *** The router's reading of the path *)

Lemma Split_pieces sep s : Forall (fun piece => hasByte sep piece = false) (strings.Split s sep).
Proof.
  induction s as [|c s IH]; simpl; [repeat constructor|].
  destruct (Ascii.eqb c sep) eqn:Hc; [constructor; [reflexivity | exact IH]|].
  destruct (strings.Split s sep) as [|piece rest].
  - repeat constructor. simpl. now rewrite Hc.
  - apply Forall_cons in IH as [Hp Hr]. constructor; [|exact Hr].
    simpl. now rewrite Hc, Hp.
Qed.

(** What the router takes for the namespace and for the resource path is
    the path after the prefix cut at its first slash: the namespace holds
    no slash, and namespace, slash and resource path give that path back.
    The path shapes of the routing theorems therefore describe every
    request that passes the router's length test. *)
Theorem router_parse_is_lossless path :
  let pathParts := strings.Split (strings.TrimPrefix path "/api/v1/namespaces/") "/" in
  (length pathParts <? 2)%nat = false ->
  hasByte "/" (nth 0 pathParts EmptyString) = false
  /\ nth 0 pathParts EmptyString +:+ "/" +:+ strings.Join (drop 1 pathParts) "/"
     = strings.TrimPrefix path "/api/v1/namespaces/".
Proof.
  intros pathParts Hlen. subst pathParts.
  pose proof (Split_pieces "/" (strings.TrimPrefix path "/api/v1/namespaces/")) as Hp.
  pose proof (Join_Split "/" (strings.TrimPrefix path "/api/v1/namespaces/")) as Hj.
  destruct (strings.Split (strings.TrimPrefix path "/api/v1/namespaces/") "/")
    as [|namespace [|second rest]]; try discriminate Hlen.
  apply Forall_cons in Hp as [Hns _]. split; [exact Hns|].
  rewrite <- Hj. reflexivity.
Qed.

Lemma router_parse_is_lossless_witness :
  "default" +:+ "/" +:+ "pipelineruns/build/resolve"
  = strings.TrimPrefix "/api/v1/namespaces/default/pipelineruns/build/resolve"
      "/api/v1/namespaces/".
Proof.
  exact (proj2 (router_parse_is_lossless
                  "/api/v1/namespaces/default/pipelineruns/build/resolve" eq_refl)).
Defined.

End Router.

(** ** More on the resolver *)

Section ResolverResults.
Import kueuev1beta1.

Lemma find_some_first {A} (f : A -> bool) l x :
  List.find f l = Some x ->
  exists before after,
    l = before ++ x :: after /\ f x = true /\ forall y, In y before -> f y = false.
Proof.
  induction l as [|y l IH]; simpl; [discriminate|].
  destruct (f y) eqn:Hy.
  - intros [= ->]. exists [], l. simpl. intuition.
  - intros Hfind. destruct (IH Hfind) as (before & after & -> & Hx & Hb).
    exists (y :: before), after. simpl. split; [reflexivity|]. split; [exact Hx|].
    intros z [<-|Hz]; auto.
Qed.

Lemma find_none_all {A} (f : A -> bool) l :
  List.find f l = None -> forall y, In y l -> f y = false.
Proof.
  induction l as [|z l IH]; simpl; [contradiction|].
  destruct (f z) eqn:Hz; [discriminate|].
  intros Hfind y [<-|Hy]; auto.
Qed.

(** What a successful resolution looks like: the state is [Admitted] or
    [Dispatching], a dispatching result has no cluster name, the nominated
    clusters are never filled in, the reported workload is the first one of
    the listing owned by the PipelineRun and it is admitted exactly when the
    state says so. The encoding therefore has the member [state], at most
    the members [name] and [workloadName] beside it, and never
    [nominatedClusters]. *)
Theorem ResolveWorkerCluster_result_shape r namespace pipelineRunName workerCluster :
  resolver.ResolveWorkerCluster r namespace pipelineRunName = Ok workerCluster ->
  (resolver.State workerCluster = "Admitted"
   \/ (resolver.State workerCluster = "Dispatching" /\ resolver.Name workerCluster = ""))
  /\ resolver.NominatedClusters workerCluster = []
  /\ (exists items workload,
        kueueclient.WorkloadsList (resolver.kueueClient r) namespace = Ok items
        /\ firstOwned pipelineRunName items workload
        /\ resolver.WorkloadName workerCluster = metav1.Name (WorkloadMeta workload)
        /\ (resolver.State workerCluster = "Admitted"
            <-> Admission_ (Status workload) <> None))
  /\ resolver.MarshalJSON workerCluster
     = JObject (resolver.omitempty "name" (resolver.Name workerCluster)
                ++ ("state", JString (resolver.State workerCluster))
                   :: resolver.omitempty "workloadName" (resolver.WorkloadName workerCluster)).
Proof.
  unfold resolver.ResolveWorkerCluster, resolver.findWorkloadByPipelineRun.
  destruct (kueueclient.WorkloadsList _ _) as [items|err] eqn:Hlist; [|discriminate].
  destruct (List.find _ items) as [workload|] eqn:Hfind; [|discriminate].
  apply find_some_first in Hfind as (before & after & Hitems & Hw & Hbefore).
  assert (Hfirst : firstOwned pipelineRunName items workload).
  { exists before, after. split; [exact Hitems|]. split.
    - intros other Hin. apply owned_false. auto.
    - apply owned_true. exact Hw. }
  destruct (Admission_ (Status workload)) eqn:Hadm; intros [= <-]; simpl.
  - split; [now left|]. split; [reflexivity|]. split; [|reflexivity].
    exists items, workload. rewrite Hadm. repeat split; auto; discriminate.
  - split; [now right|]. split; [reflexivity|]. split; [|reflexivity].
    exists items, workload. rewrite Hadm. repeat split; auto; try discriminate.
    intros H. now contradiction H.
Qed.

Lemma ResolveWorkerCluster_result_shape_witness :
  resolver.NominatedClusters
    {| resolver.Name := "c1"; resolver.State := "Admitted";
       resolver.NominatedClusters := []; resolver.WorkloadName := "w2" |} = [].
Proof.
  exact (proj1 (proj2 (ResolveWorkerCluster_result_shape
                         (handlers.resolver_ demo.theServer) "default" "deploy" _ eq_refl))).
Defined.

(** The resolver fails in exactly two situations: the listing of the
    namespace's workloads fails, or no listed workload is owned by the
    PipelineRun. A workload without admission is not a failure. *)
Theorem ResolveWorkerCluster_fails_iff r namespace pipelineRunName :
  (exists err, resolver.ResolveWorkerCluster r namespace pipelineRunName = Err err)
  <->
  (exists err, kueueclient.WorkloadsList (resolver.kueueClient r) namespace = Err err)
  \/ (exists items,
        kueueclient.WorkloadsList (resolver.kueueClient r) namespace = Ok items
        /\ forall workload, In workload items -> ~ ownedBy pipelineRunName workload).
Proof.
  unfold resolver.ResolveWorkerCluster, resolver.findWorkloadByPipelineRun.
  destruct (kueueclient.WorkloadsList _ _) as [items|err] eqn:Hlist.
  - destruct (List.find _ items) as [workload|] eqn:Hfind.
    + split.
      * destruct (Admission_ (Status workload)); intros [e He]; discriminate.
      * intros [[e He]|(items' & [= <-] & Hnone)]; [discriminate|].
        apply find_some_first in Hfind as (before & after & -> & Hw & _).
        exfalso. apply (Hnone workload); [apply in_elt|]. now apply owned_true.
    + split; [|eauto]. intros _. right. exists items. split; [reflexivity|].
      intros workload Hin. apply owned_false.
      exact (find_none_all _ _ Hfind workload Hin).
  - split; eauto.
Qed.

End ResolverResults.

(** ** More on the access checks *)

Section AccessChecks.

Lemma lowerByte_space c : Ascii.eqb (strings.lowerByte c) " " = Ascii.eqb c " ".
Proof. destruct c as [[] [] [] [] [] [] [] []]; reflexivity. Qed.

Lemma ToLower_hasSpace s : hasByte " " (strings.ToLower s) = hasByte " " s.
Proof.
  induction s as [|c s IH]; [reflexivity|].
  simpl. now rewrite lowerByte_space, IH.
Qed.

Lemma Cut_app sep before after :
  hasByte sep before = false ->
  strings.Cut (before +:+ String sep after) sep = Some (before, after).
Proof.
  induction before as [|c before IH]; intros H; simpl in *.
  - now rewrite Ascii.eqb_refl.
  - apply orb_false_iff in H as [Hc Hb]. now rewrite Hc, (IH Hb).
Qed.

Lemma Cut_Some sep : forall s before after,
  strings.Cut s sep = Some (before, after) ->
  s = before +:+ String sep after /\ hasByte sep before = false.
Proof.
  induction s as [|c s IH]; intros before after; simpl; [discriminate|].
  destruct (Ascii.eqb_spec c sep) as [->|Hc].
  - intros [= <- <-]. auto.
  - destruct (strings.Cut s sep) as [[b a]|] eqn:Hcut; [|discriminate].
    intros [= <- <-]. destruct (IH b a eq_refl) as [-> Hb].
    split; [reflexivity|]. simpl. rewrite Hb.
    apply Ascii.eqb_neq in Hc. now rewrite Hc.
Qed.

(** The bearer token is read back exactly: a header [scheme token] whose
    scheme is [bearer] in any letter case yields [token] verbatim (spaces
    in it included), and a non-empty token is only ever read from a header
    of that form. *)
Theorem extractBearerToken_reads_the_token r :
  (forall scheme token,
     http.HeaderGet r "Authorization" = scheme +:+ " " +:+ token ->
     strings.ToLower scheme = "bearer" ->
     authz.extractBearerToken r = token)
  /\ (forall token,
        authz.extractBearerToken r = token ->
        token <> "" ->
        exists scheme,
          http.HeaderGet r "Authorization" = scheme +:+ " " +:+ token
          /\ strings.ToLower scheme = "bearer").
Proof.
  unfold authz.extractBearerToken. split.
  - intros scheme token Hh Hs.
    assert (Hnospace : hasByte " " scheme = false)
      by (rewrite <- ToLower_hasSpace, Hs; reflexivity).
    rewrite Hh.
    destruct (String.eqb_spec (scheme +:+ " " +:+ token) "") as [He|_].
    + destruct scheme; discriminate He.
    + change (strings.SplitN ?s " " 2)
        with (match strings.Cut s " " with
              | Some (before, after) => [before; after]
              | None => [s]
              end).
      change (scheme +:+ " " +:+ token) with (scheme +:+ String " " token).
      rewrite (Cut_app _ _ _ Hnospace). simpl. now rewrite Hs.
  - intros token Ht Hne.
    destruct (String.eqb (http.HeaderGet r "Authorization") ""); [congruence|].
    change (strings.SplitN ?s " " 2)
      with (match strings.Cut s " " with
            | Some (before, after) => [before; after]
            | None => [s]
            end) in Ht.
    destruct (strings.Cut (http.HeaderGet r "Authorization") " ")
      as [[before after]|] eqn:Hcut; simpl in Ht; [|congruence].
    destruct (String.eqb_spec (strings.ToLower before) "bearer") as [Hb|_];
      simpl in Ht; [|congruence].
    subst after. exists before. split; [|exact Hb].
    now destruct (Cut_Some _ _ _ _ Hcut).
Qed.

Lemma extractBearerToken_reads_the_token_witness :
  authz.extractBearerToken (demo.request "/" [] "bEaReR alice and bob") = "alice and bob".
Proof.
  exact (proj1 (extractBearerToken_reads_the_token
                  (demo.request "/" [] "bEaReR alice and bob"))
           "bEaReR" "alice and bob" eq_refl eq_refl).
Defined.

Lemma reviewAccess_allows_iff w r attrs subject :
  snd (authz.reviewAccess w r attrs subject) = None
  <-> authz.extractBearerToken r <> ""
      /\ granted w (callerConfigOf (authz.extractBearerToken r)) attrs.
Proof.
  unfold authz.reviewAccess, granted, callerConfigOf.
  destruct (String.eqb_spec (authz.extractBearerToken r) "") as [Ht|Ht]; simpl.
  - split; [discriminate | intros [H _]; contradiction].
  - destruct (world.kubernetesNewForConfig w _) as [client|err]; simpl.
    + destruct (kubernetes.SelfSubjectAccessReviewsCreate client attrs)
        as [review|err] eqn:Hreview; simpl.
      * destruct (authorizationv1.Allowed review) eqn:Hallowed; simpl.
        -- split; [|reflexivity]. intros _. split; [exact Ht|].
           exists client, review. auto.
        -- split; [discriminate|].
           intros (_ & c & rv & [= <-] & Hrv & Hal). congruence.
      * split; [discriminate|]. intros (_ & c & rv & [= <-] & Hrv & _). congruence.
    + split; [discriminate|]. intros (_ & c & rv & Hc & _). discriminate.
Qed.

(** Each access check passes exactly when the caller presented a token and
    the self-subject access review submitted with that token allows [get]
    on the resource of the route: the PipelineRun (group [tekton.dev]), the
    pod, or the pod's log sub-resource, in the namespace of the path. *)
Theorem access_is_granted_iff w r namespace name :
  (snd (authz.CheckPipelineRunAccess w r namespace name) = None
   <-> authz.extractBearerToken r <> ""
       /\ granted w (callerConfigOf (authz.extractBearerToken r))
            (accessTo "tekton.dev" "pipelineruns" namespace name))
  /\ (snd (authz.CheckPodAccess w r namespace name) = None
      <-> authz.extractBearerToken r <> ""
          /\ granted w (callerConfigOf (authz.extractBearerToken r))
               (accessTo "" "pods" namespace name))
  /\ (snd (authz.CheckPodLogsAccess w r namespace name) = None
      <-> authz.extractBearerToken r <> ""
          /\ granted w (callerConfigOf (authz.extractBearerToken r))
               (accessTo "" "pods/log" namespace name)).
Proof.
  unfold authz.CheckPipelineRunAccess, authz.CheckPodAccess, authz.CheckPodLogsAccess.
  split; [|split]; exact (reviewAccess_allows_iff w r _ _).
Qed.

Lemma access_is_granted_iff_witness :
  snd (authz.CheckPodLogsAccess demo.theWorld
         (demo.request "/" [] "Bearer alice") "default" "p1") = None.
Proof.
  refine (proj2 (proj2 (proj2 (access_is_granted_iff demo.theWorld
                                 (demo.request "/" [] "Bearer alice") "default" "p1"))) _).
  split; [vm_compute; discriminate|].
  eexists _, _. repeat split; reflexivity.
Defined.



End AccessChecks.

(** ** More on the registry *)

Section RegistryContents.
Import kueuev1beta1.
Implicit Types (m : gmap string rest.Config) (items : list MultiKueueCluster).

(** The names [ListClusters] returns are exactly those [GetConfig] finds,
    each once. *)
Theorem ListClusters_are_the_configured r :
  (forall name,
     In name (registry.ListClusters r) <-> exists cfg, registry.GetConfig r name = Ok cfg)
  /\ NoDup (registry.ListClusters r)
  /\ length (registry.ListClusters r) = size (registry.configs r).
Proof.
  unfold registry.ListClusters, registry.GetConfig. split; [|split].
  - intros name. rewrite <- list_elem_of_In, list_elem_of_fmap. split.
    + intros ([n cfg] & -> & Hin). apply elem_of_map_to_list in Hin.
      simpl. rewrite Hin. eauto.
    + intros [cfg H]. destruct (registry.configs r !! name) as [cfg'|] eqn:Hl;
        [|discriminate].
      exists (name, cfg'). split; [reflexivity|]. now apply elem_of_map_to_list.
  - apply NoDup_fst_map_to_list.
  - rewrite length_fmap. apply length_map_to_list.
Qed.

Lemma resolveCluster_withConfigs w r m cluster :
  registry.resolveCluster w (registry.withConfigs r m) cluster
  = registry.resolveCluster w r cluster.
Proof. reflexivity. Qed.

Lemma loadClusters_lookup w r items : forall m name,
  registry.loadClusters w r items m !! name
  = match lastResolved w r items name with
    | Some cfg => Some cfg
    | None => m !! name
    end.
Proof.
  induction items as [|cluster items IH]; intros m name; [reflexivity|].
  rewrite loadClusters_cons, IH. simpl.
  destruct (lastResolved w r items name); [reflexivity|].
  unfold registry.loadCluster, clusterName.
  destruct (String.eqb_spec (metav1.Name (ClusterMeta cluster)) name) as [->|Hne].
  - destruct (registry.resolveCluster w r cluster); [apply lookup_insert_eq | reflexivity].
  - destruct (registry.resolveCluster w r cluster); [now apply lookup_insert_ne | reflexivity].
Qed.

Lemma lastResolved_None w r items name :
  (forall cluster, In cluster items -> clusterName cluster = name ->
                   registry.resolveCluster w r cluster = None) ->
  lastResolved w r items name = None.
Proof.
  induction items as [|cluster items IH]; intros H; [reflexivity|].
  simpl. rewrite IH by (intros c Hc; apply H; now right).
  destruct (String.eqb_spec (clusterName cluster) name) as [Hn|]; [|reflexivity].
  apply H; [now left | exact Hn].
Qed.

(** After a resync, the entry of a name is the configuration of the last
    listed cluster of that name that resolves; when there is none (the name
    is not listed, or every cluster of that name fails to resolve) the entry
    is what it was before, so a configuration whose secret has disappeared
    stays in use. *)
Theorem LoadConfigs_entry w r items name :
  kueueclient.MultiKueueClustersList (registry.kueueClient r) = Ok items ->
  registry.configs (fst (registry.LoadConfigs w r)) !! name
  = match lastResolved w r items name with
    | Some cfg => Some cfg
    | None => registry.configs r !! name
    end
  /\ ((forall cluster, In cluster items -> clusterName cluster = name ->
                       registry.resolveCluster w r cluster = None) ->
      registry.GetConfig (fst (registry.LoadConfigs w r)) name = registry.GetConfig r name).
Proof.
  intros Hlist.
  assert (H : registry.configs (fst (registry.LoadConfigs w r)) !! name
              = match lastResolved w r items name with
                | Some cfg => Some cfg
                | None => registry.configs r !! name
                end).
  { unfold registry.LoadConfigs. rewrite Hlist. simpl. apply loadClusters_lookup. }
  split; [exact H|].
  intros Hnone. unfold registry.GetConfig. rewrite H.
  now rewrite (lastResolved_None _ _ _ _ Hnone).
Qed.

Lemma LoadConfigs_entry_witness :
  registry.GetConfig
    (fst (registry.LoadConfigs demo.theWorld
            (registry.withConfigs demo.emptyRegistry {[ "c2" := demo.cfgC1 ]}))) "c2"
  = Ok demo.cfgC1.
Proof.
  rewrite (proj2 (LoadConfigs_entry demo.theWorld
                    (registry.withConfigs demo.emptyRegistry {[ "c2" := demo.cfgC1 ]})
                    demo.clusters "c2" eq_refl)).
  - reflexivity.
  - intros cluster Hin Hname. simpl in Hin.
    destruct Hin as [<-|[<-|[<-|[]]]]; try discriminate Hname. reflexivity.
Defined.

(** A resync against an unchanged hub is idempotent: running [LoadConfigs]
    again changes nothing. *)
Theorem LoadConfigs_idempotent w r :
  fst (registry.LoadConfigs w (fst (registry.LoadConfigs w r)))
  = fst (registry.LoadConfigs w r).
Proof.
  unfold registry.LoadConfigs at 2 3.
  destruct (kueueclient.MultiKueueClustersList (registry.kueueClient r))
    as [items|err] eqn:Hlist; simpl.
  - unfold registry.LoadConfigs. simpl. rewrite Hlist. simpl.
    unfold registry.withConfigs. simpl. f_equal.
    apply map_eq. intros name.
    change (registry.loadClusters w
              (registry.withConfigs r (registry.loadClusters w r items (registry.configs r)))
              items (registry.loadClusters w r items (registry.configs r)) !! name
            = registry.loadClusters w r items (registry.configs r) !! name).
    rewrite !loadClusters_lookup.
    assert (Hsame : forall l,
              lastResolved w
                (registry.withConfigs r (registry.loadClusters w r items (registry.configs r)))
                l name
              = lastResolved w r l name).
    { induction l as [|c l IHl]; [reflexivity|]. simpl. now rewrite IHl. }
    rewrite Hsame. now destruct (lastResolved w r items name).
  - unfold registry.LoadConfigs. now rewrite Hlist.
Qed.

(** Events that leave the registry alone: an event of a type other than
    [ADDED], [MODIFIED] and [DELETED]; a [DELETED] event whose object is not
    a cluster registration; an [ADDED] or [MODIFIED] event while the listing
    of the registrations fails; and the deletion of a cluster the registry
    does not hold. *)
Theorem events_without_effect w r event :
  (watch.EventType event <> "ADDED" ->
   watch.EventType event <> "MODIFIED" ->
   watch.EventType event <> "DELETED" ->
   registry.handleEvent w r event = r)
  /\ (watch.EventType event = "DELETED" ->
      watch.Object_ event = watch.OtherObject ->
      registry.handleEvent w r event = r)
  /\ (forall err,
        watch.EventType event = "ADDED" \/ watch.EventType event = "MODIFIED" ->
        kueueclient.MultiKueueClustersList (registry.kueueClient r) = Err err ->
        registry.handleEvent w r event = r)
  /\ (forall cluster,
        watch.EventType event = "DELETED" ->
        watch.Object_ event = watch.ClusterObject cluster ->
        registry.configs r !! clusterName cluster = None ->
        registry.configs (registry.handleEvent w r event) = registry.configs r).
Proof.
  unfold registry.handleEvent. repeat split.
  - intros H1 H2 H3. apply String.eqb_neq in H1, H2, H3. now rewrite H1, H2, H3.
  - intros Ht Ho. now rewrite Ht, Ho.
  - intros err Ht Hlist.
    assert (Hb : String.eqb (watch.EventType event) "ADDED"
                 || String.eqb (watch.EventType event) "MODIFIED" = true).
    { destruct Ht as [->| ->]; reflexivity. }
    rewrite Hb. unfold registry.LoadConfigs. now rewrite Hlist.
  - intros cluster Ht Ho Hnone. rewrite Ht, Ho. simpl. now apply delete_id.
Qed.

Lemma events_without_effect_witness :
  registry.handleEvent demo.theWorld demo.theRegistry
    {| watch.EventType := "BOOKMARK"; watch.Object_ := watch.OtherObject |}
  = demo.theRegistry.
Proof.
  refine (proj1 (events_without_effect demo.theWorld demo.theRegistry
                   {| watch.EventType := "BOOKMARK"; watch.Object_ := watch.OtherObject |})
            _ _ _); discriminate.
Defined.

(** A deletion and a resync do not commute. If the hub still lists a
    cluster and its configuration resolves, a deletion event followed by an
    [ADDED] or [MODIFIED] event brings the entry back, while the same events
    in the other order leave the cluster without an entry. *)
Theorem deletion_then_resync_restores w r items cluster cfg deletion change :
  kueueclient.MultiKueueClustersList (registry.kueueClient r) = Ok items ->
  NoDup (map clusterName items) ->
  In cluster items ->
  registry.resolveCluster w r cluster = Some cfg ->
  watch.EventType deletion = "DELETED" ->
  watch.Object_ deletion = watch.ClusterObject cluster ->
  watch.EventType change = "ADDED" \/ watch.EventType change = "MODIFIED" ->
  registry.GetConfig (registry.handleEvent w (registry.handleEvent w r deletion) change)
    (clusterName cluster) = Ok cfg
  /\ registry.GetConfig (registry.handleEvent w (registry.handleEvent w r change) deletion)
       (clusterName cluster)
     = Err ("worker config not found for cluster: " +:+ clusterName cluster).
Proof.
  intros Hlist Hnd Hin Hres Htd Hod Htc.
  assert (Hb : String.eqb (watch.EventType change) "ADDED"
               || String.eqb (watch.EventType change) "MODIFIED" = true).
  { destruct Htc as [->| ->]; reflexivity. }
  unfold registry.GetConfig. split.
  - unfold registry.handleEvent at 1. rewrite Hb.
    unfold registry.handleEvent. rewrite Htd, Hod. simpl.
    unfold registry.LoadConfigs. simpl. rewrite Hlist. simpl.
    rewrite (loadClusters_resolved_unique w
               (registry.withConfigs r
                  (delete (metav1.Name (ClusterMeta cluster)) (registry.configs r)))
               items _ cluster cfg Hnd Hin Hres).
    reflexivity.
  - rewrite (handleEvent_deleted w _ deletion cluster Htd Hod).
    now rewrite lookup_delete_eq.
Qed.

Lemma deletion_then_resync_restores_witness :
  let deletion := {| watch.EventType := "DELETED";
                     watch.Object_ :=
                       watch.ClusterObject (demo.cluster "c1" "Secret" "c1-secret") |} in
  let change := {| watch.EventType := "MODIFIED"; watch.Object_ := watch.OtherObject |} in
  registry.GetConfig
    (registry.handleEvent demo.theWorld
       (registry.handleEvent demo.theWorld demo.theRegistry deletion) change) "c1"
  = Ok demo.cfgC1.
Proof.
  intros deletion change.
  refine (proj1 (deletion_then_resync_restores demo.theWorld demo.theRegistry demo.clusters
                   (demo.cluster "c1" "Secret" "c1-secret") demo.cfgC1 deletion change
                   eq_refl _ _ ltac:(vm_compute; reflexivity) eq_refl eq_refl
                   (or_intror eq_refl))).
  - simpl. repeat constructor; rewrite ?list_elem_of_In; simpl; intuition discriminate.
  - simpl. auto.
Defined.

End RegistryContents.

(** ** Instances of the equivalences *)

Section Instances.

Lemma ResolveWorkerCluster_fails_iff_witness :
  exists err,
    resolver.ResolveWorkerCluster (handlers.resolver_ demo.theServer) "staging" "build"
    = Err err.
Proof.
  apply (proj2 (ResolveWorkerCluster_fails_iff
                  (handlers.resolver_ demo.theServer) "staging" "build")).
  right. exists []. split; [reflexivity|]. intros workload [].
Defined.

Lemma ListClusters_are_the_configured_witness :
  In "c3" (registry.ListClusters demo.theRegistry).
Proof.
  apply (proj2 (proj1 (ListClusters_are_the_configured demo.theRegistry) "c3")).
  exists demo.cfgC3. vm_compute. reflexivity.
Defined.

End Instances.
